(** * Domain-expiration WhatsApp bot: a shallow embedding of
      [src/whoisWhatsappBot.js] and the properties of its lookup, session
      and notification logic.

    Conventions of the embedding.
    - A JavaScript string is a [string]: a sequence of code units, each
      below 256.  Literals that contain emoji are written with their UTF-8
      bytes; no property below looks inside them.
    - A [Date] object is its time value: integral milliseconds since the
      epoch, or NaN ([InvalidDate]).  The difference of an expiry and a
      clock reading, and the floor of its quotient by a day, are computed
      on integers: for time values in the range of [Date] and a clock of
      this era the doubles of the source give the same numbers.
    - The regular expressions of the source all have the shape
      [/LABEL\s*(.+)/i]; [Regex] gives the leftmost match of that shape
      with the greedy star and its backtracking.
    - An [async] function is a computation in the monad [M]: it returns,
      throws, or never settles, and leaves a trace of the calls it made to
      the outside (console, timers, WHOIS, RDAP, socket).
    - The handlers that [startWhatsApp] registers are the step function of
      [Session]; what the platform and the timers deliver is an input, one
      batch of events for every [await].
    - [startWhatsApp] calls the library twice before its promise exists:
      the awaited [useMultiFileAuthState] may reject and [makeWASocket] may
      throw.  For the call the program makes itself the host says how they
      end; for the call inside the reconnect timer the event says it. *)

From Stdlib Require Import ZArith List String Ascii Bool Lia DecimalString.
Import ListNotations.
Local Open Scope string_scope.
Local Open Scope Z_scope.

(* ------------------------------------------------------------------ *)
(** ** Strings as the source uses them *)

Module Text.

Definition code (c : ascii) : nat := nat_of_ascii c.

(** Code units that [.] of a regular expression refuses. *)
Definition isLineTerminator (c : ascii) : bool :=
  (code c =? 10)%nat || (code c =? 13)%nat.

(** [\s] and [String.prototype.trim]: TAB, LF, VT, FF, CR, SP, NBSP. *)
Definition isWhiteSpace (c : ascii) : bool :=
  ((9 <=? code c)%nat && (code c <=? 13)%nat)
  || (code c =? 32)%nat || (code c =? 160)%nat.

(** Canonicalisation of the [i] flag: only a-z change. *)
Definition canonicalize (c : ascii) : ascii :=
  if ((97 <=? code c)%nat && (code c <=? 122)%nat)
  then ascii_of_nat (code c - 32) else c.

Fixpoint trimStart (s : string) : string :=
  match s with
  | String c r => if isWhiteSpace c then trimStart r else s
  | EmptyString => EmptyString
  end.

Fixpoint trimEnd (s : string) : string :=
  match s with
  | String c r =>
      match trimEnd r with
      | EmptyString => if isWhiteSpace c then EmptyString else String c EmptyString
      | r' => String c r'
      end
  | EmptyString => EmptyString
  end.

Definition trim (s : string) : string := trimEnd (trimStart s).

(** [s.startsWith(p)], giving what follows the prefix. *)
Fixpoint stripPrefix (p s : string) : option string :=
  match p, s with
  | EmptyString, _ => Some s
  | String a p', String b s' => if Ascii.eqb a b then stripPrefix p' s' else None
  | String _ _, EmptyString => None
  end.

(** [s.includes(needle)]. *)
Fixpoint includes (needle s : string) : bool :=
  match stripPrefix needle s with
  | Some _ => true
  | None => match s with
            | String _ r => includes needle r
            | EmptyString => false
            end
  end.

(** The line feed and the carriage return, as strings. *)
Definition LF : string := String (ascii_of_nat 10) EmptyString.
Definition CR : string := String (ascii_of_nat 13) EmptyString.

(** A string in a boolean position. *)
Definition truthy (s : string) : bool :=
  match s with EmptyString => false | String _ _ => true end.

(** [`${n}`] for an integral number. *)
Definition ofZ (n : Z) : string := NilZero.string_of_int (Z.to_int n).

End Text.

(* ------------------------------------------------------------------ *)
(** ** Dates *)

Inductive JsDate : Type :=
| DateMs (t : Z)      (* a valid time value *)
| InvalidDate.        (* time value NaN *)

(** [!isNaN(d.getTime())] *)
Definition validDate (d : JsDate) : bool :=
  match d with DateMs _ => true | InvalidDate => false end.

Definition MS_PER_DAY : Z := 1000 * 60 * 60 * 24.

(** A reference reading of the two date forms every engine must accept,
    [YYYY-MM-DD] and [YYYY-MM-DDTHH:mm:ssZ], both in UTC.  It stands in for
    [new Date(string)] in the worked examples only: the theorems hold for
    whatever the host's constructor does. *)
Module IsoDate.

Definition digit (c : ascii) : option Z :=
  let n := Text.code c in
  if ((48 <=? n)%nat && (n <=? 57)%nat) then Some (Z.of_nat (n - 48)) else None.

Fixpoint digits (k : nat) (acc : Z) (s : string) : option (Z * string) :=
  match k with
  | O => Some (acc, s)
  | S k' => match s with
            | String c r => match digit c with
                            | Some d => digits k' (10 * acc + d) r
                            | None => None
                            end
            | EmptyString => None
            end
  end.

Definition expect (c : ascii) (s : string) : option string :=
  match s with
  | String c' r => if Ascii.eqb c c' then Some r else None
  | EmptyString => None
  end.

Definition leap (y : Z) : bool :=
  ((y mod 4 =? 0) && negb (y mod 100 =? 0)) || (y mod 400 =? 0).

Definition daysInMonth (y m : Z) : Z :=
  if m =? 2 then (if leap y then 29 else 28)
  else if (m =? 4) || (m =? 6) || (m =? 9) || (m =? 11) then 30 else 31.

(** Days from 1970-01-01 to the civil date [y-m-d]. *)
Definition daysFromCivil (y m d : Z) : Z :=
  let y' := if m <=? 2 then y - 1 else y in
  let era := y' / 400 in
  let yoe := y' - era * 400 in
  let doy := (153 * (if 2 <? m then m - 3 else m + 9) + 2) / 5 + d - 1 in
  let doe := yoe * 365 + yoe / 4 - yoe / 100 + doy in
  era * 146097 + doe - 719468.

Definition timeOfDay (s : string) : option Z :=
  match s with
  | EmptyString => Some 0
  | _ =>
      match expect "T" s with
      | Some s1 =>
          match digits 2 0 s1 with
          | Some (hh, s2) =>
              match expect ":" s2 with
              | Some s3 =>
                  match digits 2 0 s3 with
                  | Some (mi, s4) =>
                      match expect ":" s4 with
                      | Some s5 =>
                          match digits 2 0 s5 with
                          | Some (ss, "Z") =>
                              if (hh <? 24) && (mi <? 60) && (ss <? 60)
                              then Some ((hh * 3600 + mi * 60 + ss) * 1000)
                              else None
                          | _ => None
                          end
                      | None => None
                      end
                  | None => None
                  end
              | None => None
              end
          | None => None
          end
      | None => None
      end
  end.

Definition parse (s : string) : JsDate :=
  match digits 4 0 s with
  | Some (y, s1) =>
      match expect "-" s1 with
      | Some s2 =>
          match digits 2 0 s2 with
          | Some (m, s3) =>
              match expect "-" s3 with
              | Some s4 =>
                  match digits 2 0 s4 with
                  | Some (d, s5) =>
                      if (1 <=? m) && (m <=? 12) && (1 <=? d) && (d <=? daysInMonth y m)
                      then match timeOfDay s5 with
                           | Some t => DateMs (daysFromCivil y m d * MS_PER_DAY + t)
                           | None => InvalidDate
                           end
                      else InvalidDate
                  | None => InvalidDate
                  end
              | None => InvalidDate
              end
          | None => InvalidDate
          end
      | None => InvalidDate
      end
  | None => InvalidDate
  end.

End IsoDate.

(* ------------------------------------------------------------------ *)
(** ** The label patterns of [checkWithWhois] *)

(** Every pattern of the source has the shape [/LABEL\s*(.+)/i]; a pattern
    is given by its label, colon included. *)
Module Regex.

(** [(.+)] is greedy: the capture runs to the end of the line. *)
Fixpoint restOfLine (s : string) : string :=
  match s with
  | String c r => if Text.isLineTerminator c then EmptyString
                  else String c (restOfLine r)
  | EmptyString => EmptyString
  end.

(** [\s*(.+)] anchored at the head of [s].  The star first takes the white
    space in front of it and gives it back, one unit at a time, when the
    group finds nothing to capture after it. *)
Fixpoint spacesThenGroup (s : string) : option string :=
  match s with
  | EmptyString => None
  | String c r =>
      if Text.isWhiteSpace c then
        match spacesThenGroup r with
        | Some cap => Some cap
        | None => if Text.isLineTerminator c then None else Some (restOfLine s)
        end
      else Some (restOfLine s)
  end.

(** The label, compared under the [i] flag; what follows it. *)
Fixpoint stripLabel (l s : string) : option string :=
  match l, s with
  | EmptyString, _ => Some s
  | String a l', String b s' =>
      if Ascii.eqb (Text.canonicalize a) (Text.canonicalize b)
      then stripLabel l' s' else None
  | String _ _, EmptyString => None
  end.

Definition matchAt (l s : string) : option string :=
  match stripLabel l s with
  | Some r => spacesThenGroup r
  | None => None
  end.

(** [s.match(/l\s*(.+)/i)]: group 1 of the leftmost match, if any. *)
Fixpoint exec (l s : string) : option string :=
  match matchAt l s with
  | Some cap => Some cap
  | None => match s with
            | String _ r => exec l r
            | EmptyString => None
            end
  end.

End Regex.

Definition expiryPatterns : list string :=
  [ "Expiration Date:";
    "Registry Expiry Date:";
    "Registrar Registration Expiration Date:";
    "Domain Expiration Date:";
    "Expires on:";
    "Expiry date:" ].

(** The [for ... of] loop of [checkWithWhois] over a list of patterns:
    [expiryDate] is overwritten by every pattern that matches and the loop
    is left at the first capture that is a valid date. *)
Fixpoint scanPatterns (newDate : string -> JsDate) (patterns : list string)
    (data : string) (expiryDate : option JsDate) : option JsDate :=
  match patterns with
  | [] => expiryDate
  | pattern :: rest =>
      match Regex.exec pattern data with
      | Some group1 =>
          let d := newDate (Text.trim group1) in
          if validDate d then Some d
          else scanPatterns newDate rest data (Some d)
      | None => scanPatterns newDate rest data expiryDate
      end
  end.

(* ------------------------------------------------------------------ *)
(** ** Errors, console output and the calls that leave the program *)

Record JsError : Type := mkError { name : string; message : string }.

(** [new Error(m)] *)
Definition Error (m : string) : JsError := {| name := "Error"; message := m |}.

Definition TypeError (m : string) : JsError :=
  {| name := "TypeError"; message := m |}.

(** [`${error}`], that is [Error.prototype.toString]. *)
Definition errorToString (e : JsError) : string :=
  match name e, message e with
  | EmptyString, m => m
  | n, EmptyString => n
  | n, m => n ++ ": " ++ m
  end.

(** An argument of [console.log]; a [Date] spliced into a template is kept
    as the date, its rendering being local to the host. *)
Inductive LogArg : Type :=
| Str (s : string)
| Err (e : JsError)
| ADate (d : JsDate).

Inductive Effect : Type :=
| ConsoleLog (args : list LogArg)
| ConsoleError (args : list LogArg)
| WhoisLookup (domain : string)
| AxiosGet (url : string) (timeout : Z)
| SetTimeout (ms : Z)
| ClearTimeout (id : nat)
| MakeWASocket
| QrcodeGenerate (qr : string)
| SendMessage (jid text : string)
| ScheduleJob (cron : string).

Definition log (s : string) : Effect := ConsoleLog [Str s].

Definition isSend (e : Effect) : bool :=
  match e with SendMessage _ _ => true | _ => false end.

Definition isQrIssue (e : Effect) : bool :=
  match e with QrcodeGenerate _ => true | _ => false end.

(* ------------------------------------------------------------------ *)
(** ** The session: module-level state and the handlers of [startWhatsApp] *)

(** The socket object; [user] is filled in by the library once the account
    is known. *)
Record Sock : Type := { user : option string }.

Definition QR_MAX_RETRY : nat := 3.
Definition QR_TIMEOUT_SECONDS : Z := 60.

(** The [let] bindings at the top of the file.  [qrTimeout] holds a timer
    handle; [timers] are the challenge timers that are armed and [timerSeq]
    is the next handle [setTimeout] gives out. *)
Record Globals : Type := {
  sock : option Sock;
  isConnected : bool;
  qrDisplayed : bool;
  qrTimeout : option nat;
  qrRetryCount : nat;
  timers : list nat;
  timerSeq : nat
}.

Definition set_sock (v : option Sock) (g : Globals) : Globals :=
  {| sock := v; isConnected := isConnected g; qrDisplayed := qrDisplayed g;
     qrTimeout := qrTimeout g; qrRetryCount := qrRetryCount g;
     timers := timers g; timerSeq := timerSeq g |}.

Definition set_isConnected (v : bool) (g : Globals) : Globals :=
  {| sock := sock g; isConnected := v; qrDisplayed := qrDisplayed g;
     qrTimeout := qrTimeout g; qrRetryCount := qrRetryCount g;
     timers := timers g; timerSeq := timerSeq g |}.

Definition set_qrDisplayed (v : bool) (g : Globals) : Globals :=
  {| sock := sock g; isConnected := isConnected g; qrDisplayed := v;
     qrTimeout := qrTimeout g; qrRetryCount := qrRetryCount g;
     timers := timers g; timerSeq := timerSeq g |}.

Definition set_qrRetryCount (v : nat) (g : Globals) : Globals :=
  {| sock := sock g; isConnected := isConnected g; qrDisplayed := qrDisplayed g;
     qrTimeout := qrTimeout g; qrRetryCount := v;
     timers := timers g; timerSeq := timerSeq g |}.

(** [qrTimeout = setTimeout(...)]: a fresh handle, armed. *)
Definition armQrTimeout (g : Globals) : Globals :=
  {| sock := sock g; isConnected := isConnected g; qrDisplayed := qrDisplayed g;
     qrTimeout := Some (timerSeq g); qrRetryCount := qrRetryCount g;
     timers := timerSeq g :: timers g; timerSeq := S (timerSeq g) |}.

(** [if (qrTimeout) { clearTimeout(qrTimeout); qrTimeout = null; }] *)
Definition clearQrTimeout (g : Globals) : Globals * list Effect :=
  match qrTimeout g with
  | Some id =>
      ({| sock := sock g; isConnected := isConnected g; qrDisplayed := qrDisplayed g;
          qrTimeout := None; qrRetryCount := qrRetryCount g;
          timers := List.filter (fun t => negb (Nat.eqb t id)) (timers g);
          timerSeq := timerSeq g |},
       [ClearTimeout id])
  | None => (g, [])
  end.

(** The timer [id] has gone off: it is armed no more. *)
Definition disarm (id : nat) (g : Globals) : Globals :=
  {| sock := sock g; isConnected := isConnected g; qrDisplayed := qrDisplayed g;
     qrTimeout := qrTimeout g; qrRetryCount := qrRetryCount g;
     timers := List.filter (fun t => negb (Nat.eqb t id)) (timers g);
     timerSeq := timerSeq g |}.

(** The promise [startWhatsApp] returns. *)
Inductive Promise : Type :=
| Unsettled
| Resolved (s : option Sock)
| Rejected (e : JsError).

(** A call of [resolve] or [reject] made by a handler. *)
Inductive Settle : Type :=
| Resolve (s : option Sock)
| Reject (e : JsError).

(** Settling a promise that is settled does nothing. *)
Definition settle (p : Promise) (c : Settle) : Promise :=
  match p, c with
  | Unsettled, Resolve s => Resolved s
  | Unsettled, Reject e => Rejected e
  | _, _ => p
  end.

Inductive Connection : Type := ConnOpen | ConnClose | ConnConnecting.

(** The argument of a [connection.update] event; [statusCode] is
    [lastDisconnect?.error?.output?.statusCode]. *)
Record Update : Type := {
  connection : option Connection;
  statusCode : option Z;
  qr : option string
}.

Inductive Event : Type :=
| ConnectionUpdate (u : Update)
| MessagesUpsert
| QrTimerFired (id : nat)       (* the callback of a challenge timer *)
| GlobalTimerFired              (* the callback of the 190 s timer *)
| ReconnectTimerFired           (* the callback of the 5 s reconnect timer *)
| UserKnown (u : option string) (* the library writes [sock.user] *)
| ReconnectAuthFailed (e : JsError)
    (* the reconnect callback; its [useMultiFileAuthState] rejects with [e] *)
| ReconnectSocketFailed (e : JsError)
    (* the reconnect callback; its [makeWASocket] throws [e] *).

Module Session.

Definition GLOBAL_TIMEOUT_MS : Z :=
  Z.of_nat QR_MAX_RETRY * QR_TIMEOUT_SECONDS * 1000 + 10000.

(** What a handler leaves behind: the globals, what it printed or called,
    and its calls of [resolve] and [reject]. *)
Definition Result : Type := Globals * list Effect * list Settle.

(** The body of [startWhatsApp] up to the [return new Promise]. *)
Definition prologue (fresh : Sock) (g : Globals) : Globals * list Effect :=
  let '(g1, e1) := clearQrTimeout g in
  let g2 := set_qrDisplayed false g1 in
  let g3 := set_sock (Some fresh) g2 in
  (g3, (e1 ++ [MakeWASocket; SetTimeout GLOBAL_TIMEOUT_MS])%list).

Definition qrTruthy (q : option string) : bool :=
  match q with Some s => Text.truthy s | None => false end.

(** [if (qr && !qrDisplayed && qrRetryCount < QR_MAX_RETRY) { ... }] *)
Definition onQr (q : option string) (g : Globals) : Globals * list Effect :=
  if qrTruthy q && negb (qrDisplayed g) && (qrRetryCount g <? QR_MAX_RETRY)%nat then
    let g1 := set_qrDisplayed true g in
    let g2 := set_qrRetryCount (S (qrRetryCount g1)) g1 in
    let g3 := armQrTimeout g2 in
    (g3,
     [ log (Text.LF ++ Text.LF ++ "============= WHATSAPP QR CODE =============");
       log ("QR CODE ATTEMPT " ++ Text.ofZ (Z.of_nat (qrRetryCount g2)) ++ "/"
            ++ Text.ofZ (Z.of_nat QR_MAX_RETRY) ++ " - SCAN WITHIN "
            ++ Text.ofZ QR_TIMEOUT_SECONDS ++ " SECONDS");
       log "Scan this QR code with YOUR WhatsApp account:";
       log "This will connect the bot to your WhatsApp account";
       log "and allow it to send messages on your behalf.";
       log "(Similar to logging into WhatsApp Web)";
       QrcodeGenerate (match q with Some s => s | None => "" end);
       log ("============================================" ++ Text.LF ++ Text.LF);
       SetTimeout (QR_TIMEOUT_SECONDS * 1000) ])
  else (g, []).

Definition isTerminalCode (c : option Z) : bool :=
  match c with Some n => (n =? 401) || (n =? 408) | None => false end.

Definition statusText (c : option Z) : string :=
  match c with Some n => Text.ofZ n | None => "undefined" end.

(** [if (connection === "close") { ... } else if (connection === "open") { ... }] *)
Definition onConnection (u : Update) (g : Globals) : Result :=
  match connection u with
  | Some ConnClose =>
      let g1 := set_isConnected false g in
      let '(g2, e2) := clearQrTimeout g1 in
      if negb (isTerminalCode (statusCode u)) then
        (g2, (log "WhatsApp connection closed. Reconnecting..." :: e2 ++ [SetTimeout 5000])%list, [])
      else
        (g2, log "WhatsApp connection closed. Reconnecting..." :: e2,
         [Reject (Error ("Connection closed with status code: " ++ statusText (statusCode u)))])
  | Some ConnOpen =>
      let '(g1, e1) := clearQrTimeout g in
      let g2 := set_qrRetryCount O g1 in
      let g3 := set_isConnected true g2 in
      (g3, log "WhatsApp connection successful!" :: e1, [Resolve (sock g3)])
  | _ => (g, [], [])
  end.

(** The [connection.update] handler. *)
Definition onConnectionUpdate (u : Update) (g : Globals) : Result :=
  let '(g1, e1) := onQr (qr u) g in
  let '(g2, e2, s2) := onConnection u g1 in
  (g2, (e1 ++ e2)%list, s2).

(** The [messages.upsert] handler. *)
Definition onMessagesUpsert (g : Globals) : Result :=
  if negb (isConnected g) then
    let g1 := set_isConnected true g in
    (g1, [log "Message received, connection active"], [Resolve (sock g1)])
  else (g, [], []).

(** The callback of the challenge timer; a timer that was cleared does not
    go off. *)
Definition onQrTimer (id : nat) (g : Globals) : Result :=
  if List.existsb (Nat.eqb id) (timers g) then
    (set_qrDisplayed false (disarm id g),
     [log (Text.LF ++ "⌛ QR code timed out. Generating new QR code...")], [])
  else (g, [], []).

(** The callback of the global timer. *)
Definition onGlobalTimer (g : Globals) : Result :=
  if negb (isConnected g) then
    if (QR_MAX_RETRY <=? qrRetryCount g)%nat then
      (g, [ log "⛔ WhatsApp connection timed out!";
            log "❌ Maximum QR code attempts reached. Please restart the bot." ],
       [Reject (Error "Maximum QR code attempts reached")])
    else (g, [log "⛔ WhatsApp connection timed out!"], [])
  else (g, [], []).

(** The callback of the reconnect timer: the counter is reset when it had
    saturated and [startWhatsApp] runs again; its promise settles the
    promise of the call that scheduled it, so both are one promise here. *)
Definition onReconnectTimer (fresh : Sock) (g : Globals) : Result :=
  let '(g1, e1) :=
    if (QR_MAX_RETRY <=? qrRetryCount g)%nat
    then (set_qrRetryCount O g, [log "QR code attempt counter reset."])
    else (g, []) in
  let '(g2, e2) := prologue fresh g1 in
  (g2, (log "Attempting to reconnect..." :: e1 ++ e2)%list, []).

(** The same callback when the [startWhatsApp] it calls rejects at
    [await useMultiFileAuthState(...)]: nothing of its body has run, and
    [.catch(reject)] hands the error to the promise. *)
Definition onReconnectAuthFailed (e : JsError) (g : Globals) : Result :=
  let '(g1, e1) :=
    if (QR_MAX_RETRY <=? qrRetryCount g)%nat
    then (set_qrRetryCount O g, [log "QR code attempt counter reset."])
    else (g, []) in
  (g1, log "Attempting to reconnect..." :: e1, [Reject e]).

(** The same callback when [makeWASocket] throws: the challenge timer is
    cleared and [qrDisplayed] reset by then, [sock] is not assigned and no
    handler or global timer is set up. *)
Definition onReconnectSocketFailed (e : JsError) (g : Globals) : Result :=
  let '(g1, e1) :=
    if (QR_MAX_RETRY <=? qrRetryCount g)%nat
    then (set_qrRetryCount O g, [log "QR code attempt counter reset."])
    else (g, []) in
  let '(g2, e2) := clearQrTimeout g1 in
  (set_qrDisplayed false g2,
   (log "Attempting to reconnect..." :: e1 ++ e2 ++ [MakeWASocket])%list, [Reject e]).

(** The library's own write to [sock.user]. *)
Definition onUserKnown (u : option string) (g : Globals) : Result :=
  match sock g with
  | Some _ => (set_sock (Some {| user := u |}) g, [], [])
  | None => (g, [], [])
  end.

Definition step (fresh : Sock) (ev : Event) (g : Globals) : Result :=
  match ev with
  | ConnectionUpdate u => onConnectionUpdate u g
  | MessagesUpsert => onMessagesUpsert g
  | QrTimerFired id => onQrTimer id g
  | GlobalTimerFired => onGlobalTimer g
  | ReconnectTimerFired => onReconnectTimer fresh g
  | UserKnown u => onUserKnown u g
  | ReconnectAuthFailed e => onReconnectAuthFailed e g
  | ReconnectSocketFailed e => onReconnectSocketFailed e g
  end.

(** The promise after the calls of [resolve] and [reject] in [cs]. *)
Definition settleAll (p : Promise) (cs : list Settle) : Promise :=
  List.fold_left settle cs p.

(** The handlers run on the events in turn. *)
Fixpoint run (fresh : Sock) (evs : list Event) (g : Globals) : Result :=
  match evs with
  | [] => (g, [], [])
  | ev :: rest =>
      let '(g1, e1, s1) := step fresh ev g in
      let '(g2, e2, s2) := run fresh rest g1 in
      (g2, (e1 ++ e2)%list, (s1 ++ s2)%list)
  end.

(** The same for a promise that is not settled yet, stopping at the event
    whose handler settles it: there the [await] of the caller resumes. *)
Fixpoint runUntilSettled (fresh : Sock) (evs : list Event) (g : Globals)
  : Globals * Promise * list Effect :=
  match evs with
  | [] => (g, Unsettled, [])
  | ev :: rest =>
      let '(g1, e1, s1) := step fresh ev g in
      match settleAll Unsettled s1 with
      | Unsettled =>
          let '(g2, p2, e2) := runUntilSettled fresh rest g1 in
          (g2, p2, (e1 ++ e2)%list)
      | p1 => (g1, p1, e1)
      end
  end.

(** The globals when the module is loaded. *)
Definition initial : Globals :=
  {| sock := None; isConnected := false; qrDisplayed := false;
     qrTimeout := None; qrRetryCount := O; timers := []; timerSeq := O |}.

End Session.

(* ------------------------------------------------------------------ *)
(** ** The outside world and the monad of [async] functions *)

(** What the callback of [whois.lookup] receives. *)
Inductive WhoisReply : Type :=
| WhoisErr (err : JsError)
| WhoisData (data : string).

(** An element of the [events] array of an RDAP body; a field that is
    missing is [None]. *)
Record RdapEvent : Type := {
  eventAction : option string;
  eventDate : option string
}.

(** What [axios.get] gives: a rejection, or a body whose [events] member,
    when there is one, is an array of event objects. *)
Inductive RdapReply : Type :=
| RdapErr (err : JsError)
| RdapBody (events : option (list RdapEvent)).

Inductive SendReply : Type :=
| SendOk (result : string)
| SendErr (err : JsError).

(** How [await useMultiFileAuthState("auth_info_baileys")] ends. *)
Inductive AuthReply : Type :=
| AuthLoaded
| AuthErr (err : JsError).

(** How [makeWASocket({...})] ends. *)
Inductive SocketReply : Type :=
| SocketMade (s : Sock)
| SocketErr (err : JsError).

Record Host : Type := {
  newDate : string -> JsDate;                      (* new Date(string) *)
  now : Z;                                         (* new Date() *)
  whois_lookup : string -> WhoisReply;
  axios_get : string -> RdapReply;
  sock_sendMessage : string -> string -> SendReply;
  useMultiFileAuthState : AuthReply;
  makeWASocket : SocketReply;
  RECIPIENT_NUMBER : option string;                (* process.env *)
  CHECK_DOMAIN : option string
}.

(** The globals, what has been done to the outside so far, and what the
    platform and the timers will deliver: one batch of events for every
    point at which the program waits. *)
Record World : Type := {
  globals : Globals;
  trace : list Effect;
  feed : list (list Event)
}.

Inductive Outcome (A : Type) : Type :=
| Returns (a : A)
| Throws (e : JsError)
| Pending.                  (* an awaited promise never settles *)

Arguments Returns {A} a.
Arguments Throws {A} e.
Arguments Pending {A}.

Definition M (A : Type) : Type := World -> Outcome A * World.

Definition ret {A} (a : A) : M A := fun w => (Returns a, w).

Definition throw {A} (e : JsError) : M A := fun w => (Throws e, w).

Definition bind {A B} (m : M A) (k : A -> M B) : M B :=
  fun w =>
    match m w with
    | (Returns a, w1) => k a w1
    | (Throws e, w1) => (Throws e, w1)
    | (Pending, w1) => (Pending, w1)
    end.

(** [try { m } catch (e) { handler e }] *)
Definition tryCatch {A} (m : M A) (handler : JsError -> M A) : M A :=
  fun w =>
    match m w with
    | (Throws e, w1) => handler e w1
    | r => r
    end.

Notation "x <- c1 ;; c2" := (bind c1 (fun x => c2))
  (at level 61, c1 at next level, right associativity).
Notation "c1 ;; c2" := (bind c1 (fun _ => c2))
  (at level 61, right associativity).

Definition emit (e : Effect) : M unit :=
  fun w => (Returns tt,
            {| globals := globals w; trace := (trace w ++ [e])%list; feed := feed w |}).

Definition getGlobals : M Globals := fun w => (Returns (globals w), w).

Definition assignSock (s : option Sock) : M unit :=
  fun w => (Returns tt,
            {| globals := set_sock s (globals w); trace := trace w; feed := feed w |}).

Definition consoleLog (s : string) : M unit := emit (log s).

(** [isConnected && sock && sock.user] in a boolean position. *)
Definition live (g : Globals) : bool :=
  isConnected g &&
  match sock g with
  | Some s => match user s with Some _ => true | None => false end
  | None => false
  end.

(** [!sock || !isConnected] *)
Definition noConnection (g : Globals) : bool :=
  match sock g with Some _ => false | None => true end || negb (isConnected g).

Section Program.

Variable host : Host.

(** The socket that a reconnect whose library calls succeed installs. *)
Definition freshSock : Sock :=
  match makeWASocket host with
  | SocketMade s => s
  | SocketErr _ => {| user := None |}
  end.

(** While the program waits, the handlers run on the next batch of
    events; the promises of earlier connects are settled by then. *)
Definition deliver : M unit :=
  fun w =>
    let '(g1, e1, _) := Session.run freshSock (hd [] (feed w)) (globals w) in
    (Returns tt,
     {| globals := g1; trace := (trace w ++ e1)%list; feed := tl (feed w) |}).

(** [await new Promise(resolve => setTimeout(resolve, ms))] *)
Definition sleep (ms : Z) : M unit := emit (SetTimeout ms) ;; deliver.

(** [await startWhatsApp()].  When [useMultiFileAuthState] rejects the
    call rejects before it has touched anything; when [makeWASocket] throws
    it rejects with the challenge timer cleared and [qrDisplayed] reset.
    Otherwise: the prologue, then the handlers on the batch of events up to
    the one that settles the promise; when none does the caller waits for
    ever. *)
Definition startWhatsApp : M (option Sock) :=
  fun w =>
    match useMultiFileAuthState host with
    | AuthErr e => (Throws e, w)
    | AuthLoaded =>
        match makeWASocket host with
        | SocketErr e =>
            let '(g1, e1) := clearQrTimeout (globals w) in
            (Throws e,
             {| globals := set_qrDisplayed false g1;
                trace := (trace w ++ e1 ++ [MakeWASocket])%list; feed := feed w |})
        | SocketMade fresh =>
            let '(g1, e1) := Session.prologue fresh (globals w) in
            let '(g2, p, e2) :=
              Session.runUntilSettled fresh (hd [] (feed w)) g1 in
            let w' := {| globals := g2; trace := (trace w ++ e1 ++ e2)%list;
                         feed := tl (feed w) |} in
            match p with
            | Resolved s => (Returns s, w')
            | Rejected e => (Throws e, w')
            | Unsettled => (Pending, w')
            end
        end
    end.

(** *** ExpirationResolver *)

Definition checkWithWhois (domain : string) : M (option JsDate) :=
  emit (WhoisLookup domain) ;;
  deliver ;;
  match whois_lookup host domain with
  | WhoisErr err => throw err
  | WhoisData data =>
      if Text.truthy data && Text.includes "Rate limit exceeded" data then
        consoleLog "WHOIS rate limit exceeded, will try RDAP" ;;
        ret None
      else
        match scanPatterns (newDate host) expiryPatterns data None with
        | Some expiryDate => ret (Some expiryDate)
        | None =>
            emit (ConsoleLog [Str "WHOIS response:"; Str data]) ;;
            ret None
        end
  end.

Definition isExpirationEvent (event : RdapEvent) : bool :=
  match eventAction event with
  | Some a => String.eqb a "expiration" || String.eqb a "registrationExpiration"
  | None => false
  end.

(** The body of the [try] of [checkWithRdap] after the response is in. *)
Definition rdapExpiry (events : option (list RdapEvent)) : option JsDate :=
  match events with
  | Some evs =>
      match List.find isExpirationEvent evs with
      | Some expirationEvent =>
          match eventDate expirationEvent with
          | Some d =>
              if Text.truthy d && validDate (newDate host d)
              then Some (newDate host d) else None
          | None => None
          end
      | None => None
      end
  | None => None
  end.

Definition checkWithRdap (domain : string) : M JsDate :=
  tryCatch
    (let rdapUrl := "https://rdap.org/domain/" ++ domain in
     consoleLog ("Trying RDAP lookup at: " ++ rdapUrl) ;;
     emit (AxiosGet rdapUrl 10000) ;;
     deliver ;;
     match axios_get host rdapUrl with
     | RdapErr err => throw err
     | RdapBody events =>
         match rdapExpiry events with
         | Some expiryDate => ret expiryDate
         | None => throw (Error "RDAP response did not contain expiration information")
         end
     end)
    (fun error =>
       emit (ConsoleError [Str "RDAP error:"; Str (message error)]) ;;
       throw (Error ("Domain expiration date couldn't be retrieved: " ++ message error))).

Definition checkDomainExpiration (domain : string) : M JsDate :=
  tryCatch
    (expiryDate <- checkWithWhois domain ;;
     match expiryDate with
     | Some d => ret d
     | None =>
         consoleLog "WHOIS failed, trying RDAP instead..." ;;
         checkWithRdap domain
     end)
    (fun error => throw error).

(** *** Notifier *)

(** The [while (retries < maxRetries)] loop; [todo] is
    [maxRetries - retries]. *)
Fixpoint ensureLoop (todo retries maxRetries : nat) : M bool :=
  match todo with
  | O => g <- getGlobals ;; ret (live g)
  | S todo' =>
      g <- getGlobals ;;
      if live g then ret true
      else
        consoleLog ("Checking WhatsApp connection ("
                    ++ Text.ofZ (Z.of_nat (retries + 1)) ++ "/"
                    ++ Text.ofZ (Z.of_nat maxRetries) ++ ")...") ;;
        (if noConnection g then
           consoleLog "No connection, restarting..." ;;
           s <- startWhatsApp ;;
           assignSock s ;;
           sleep 10000
         else ret tt) ;;
        ensureLoop todo' (S retries) maxRetries
  end.

Definition ensureWhatsAppConnection (maxRetries : nat) : M bool :=
  ensureLoop maxRetries O maxRetries.

Definition recipientTruthy (r : option string) : bool :=
  match r with Some s => Text.truthy s | None => false end.

Definition jidOf (recipient : string) : string :=
  if Text.includes "@s.whatsapp.net" recipient then recipient
  else recipient ++ "@s.whatsapp.net".

(** [null] is [None]. *)
Definition sendWhatsAppMessage (text : string) : M (option string) :=
  tryCatch
    (connectionOk <- ensureWhatsAppConnection 3 ;;
     if negb connectionOk then
       consoleLog "❌ WhatsApp client connection could not be established after multiple retries." ;;
       ret None
     else
       match RECIPIENT_NUMBER host with
       | Some recipient =>
           if Text.truthy recipient then
             let jid := jidOf recipient in
             consoleLog ("📤 Sending message to: " ++ jid) ;;
             g <- getGlobals ;;
             match sock g with
             | Some _ =>
                 emit (SendMessage jid text) ;;
                 deliver ;;
                 match sock_sendMessage host jid text with
                 | SendOk result =>
                     consoleLog "✅ WhatsApp message sent successfully!" ;;
                     ret (Some result)
                 | SendErr err => throw err
                 end
             | None => throw (TypeError "Cannot read properties of null (reading 'sendMessage')")
             end
           else
             consoleLog "❌ No recipient number defined in environment variables." ;;
             ret None
       | None =>
           consoleLog "❌ No recipient number defined in environment variables." ;;
           ret None
       end)
    (fun error =>
       consoleLog ("❌ WhatsApp message sending error: " ++ errorToString error) ;;
       ret None).

(** *** Scheduler *)

(** [Math.floor((expireDate - now) / (1000 * 60 * 60 * 24))]; NaN is
    [None]. *)
Definition daysUntilExpiry (expireDate : JsDate) (now : Z) : option Z :=
  match expireDate with
  | DateMs t => Some ((t - now) / MS_PER_DAY)
  | InvalidDate => None
  end.

(** [expireDate < now] *)
Definition dateBefore (expireDate : JsDate) (now : Z) : bool :=
  match expireDate with
  | DateMs t => t <? now
  | InvalidDate => false
  end.

(** [n <= k] for a number that may be NaN. *)
Definition numberLe (n : option Z) (k : Z) : bool :=
  match n with Some z => z <=? k | None => false end.

Definition numberText (n : option Z) : string :=
  match n with Some z => Text.ofZ z | None => "NaN" end.

Definition expiredText (DOMAIN : string) : string :=
  "🚨 ATTENTION! " ++ DOMAIN ++ " appears to have expired! Check immediately!".

Definition warningText (DOMAIN : string) (days : option Z) : string :=
  "⚠️ Warning: Domain " ++ DOMAIN ++ " will expire in " ++ numberText days ++ " days!".

Definition infoText (DOMAIN : string) (days : option Z) : string :=
  "ℹ️ Domain " ++ DOMAIN ++ " will expire in " ++ numberText days ++ " days.".

(** [error.message || error] spliced into a template. *)
Definition messageOrError (error : JsError) : string :=
  if Text.truthy (message error) then message error else errorToString error.

(** The inner [try] of [startBot]: the check of the startup run. *)
Definition initialTest (DOMAIN : string) : M unit :=
  consoleLog ("🔍 Initial test: Checking domain " ++ DOMAIN ++ "...") ;;
  tryCatch
    (expireDate <- checkDomainExpiration DOMAIN ;;
     emit (ConsoleLog [Str "📅 Expiration Date: "; ADate expireDate]) ;;
     let days := daysUntilExpiry expireDate (now host) in
     if dateBefore expireDate (now host) then
       consoleLog (expiredText DOMAIN) ;;
       sendWhatsAppMessage (expiredText DOMAIN) ;; ret tt
     else if numberLe days 30 then
       consoleLog (warningText DOMAIN days) ;;
       sendWhatsAppMessage (warningText DOMAIN days) ;; ret tt
     else
       consoleLog (infoText DOMAIN days) ;;
       sendWhatsAppMessage (infoText DOMAIN days) ;; ret tt)
    (fun error =>
       emit (ConsoleError [Str "❌ Initial test error:"; Err error]) ;;
       sendWhatsAppMessage ("Whois Bot Error: " ++ messageOrError error) ;; ret tt).

(** The callback given to [schedule.scheduleJob]: the daily run. *)
Definition dailyJob : M unit :=
  match CHECK_DOMAIN host with
  | Some DOMAIN =>
      if Text.truthy DOMAIN then
        consoleLog ("🔍 Running daily WHOIS query for " ++ DOMAIN ++ "...") ;;
        tryCatch
          (expireDate <- checkDomainExpiration DOMAIN ;;
           emit (ConsoleLog [Str "📅 Expiration Date: "; ADate expireDate]) ;;
           let days := daysUntilExpiry expireDate (now host) in
           if dateBefore expireDate (now host) then
             consoleLog (expiredText DOMAIN) ;;
             sendWhatsAppMessage (expiredText DOMAIN) ;; ret tt
           else if numberLe days 30 then
             consoleLog (warningText DOMAIN days) ;;
             sendWhatsAppMessage (warningText DOMAIN days) ;; ret tt
           else ret tt)
          (fun error =>
             emit (ConsoleError [Str "❌ Error:"; Err error]) ;;
             sendWhatsAppMessage ("Whois Bot Error: " ++ errorToString error) ;; ret tt)
      else emit (ConsoleError [Str "❌ No domain specified in environment variables."])
  | None => emit (ConsoleError [Str "❌ No domain specified in environment variables."])
  end.

Definition startBot : M unit :=
  consoleLog "🤖 Starting WhatsApp and WHOIS bot..." ;;
  tryCatch
    (consoleLog "Starting WhatsApp connection..." ;;
     consoleLog "⚠️ Notice: You may need to scan a WhatsApp QR code, please monitor the terminal screen." ;;
     s <- startWhatsApp ;;
     assignSock s ;;
     consoleLog "⏳ Waiting for connection to be fully established..." ;;
     sleep 15000 ;;
     g <- getGlobals ;;
     (if negb (live g) then
        consoleLog "⚠️ WhatsApp connection not fully established. Retrying..." ;;
        ensureWhatsAppConnection 3 ;; ret tt
      else ret tt) ;;
     g' <- getGlobals ;;
     if negb (live g') then
       throw (Error "WhatsApp connection failed! Please restart the bot and scan the QR code.")
     else
       match CHECK_DOMAIN host with
       | Some DOMAIN =>
           if Text.truthy DOMAIN then initialTest DOMAIN
           else throw (Error "No domain specified in environment variables. Please set CHECK_DOMAIN in .env file.")
       | None => throw (Error "No domain specified in environment variables. Please set CHECK_DOMAIN in .env file.")
       end)
    (fun error => emit (ConsoleError [Str "❌ Bot startup error:"; Err error])) ;;
  emit (ScheduleJob "0 9 * * *") ;;
  consoleLog "✅ Whois tracking bot is running...".

End Program.

(* ------------------------------------------------------------------ *)
(** ** Definitions that follow the words of the specification *)

(** The priority order as the specification words it: registry expiry,
    registrar expiry, generic expiration date, expires on, expiry date. *)
Definition specPriority : list string :=
  [ "Registry Expiry Date:";
    "Registrar Registration Expiration Date:";
    "Expiration Date:";
    "Expires on:";
    "Expiry date:" ].

(** The alert tiers as the specification words them: expired when the
    expiry is before now; warning when the day count is between 0 and 30;
    info otherwise.  The day count of an invalid date is NaN ([None]). *)
Inductive Tier : Type :=
| TierExpired
| TierWarning (days : Z)
| TierInfo (days : option Z).

Definition specTier (expiry : JsDate) (now : Z) : Tier :=
  match expiry with
  | DateMs t =>
      if t <? now then TierExpired
      else
        let days := (t - now) / MS_PER_DAY in
        if (0 <=? days) && (days <=? 30) then TierWarning days
        else TierInfo (Some days)
  | InvalidDate => TierInfo None
  end.

(** What a run does with a tier, in the specification's words: expired and
    warning are sent by both runs, info by the startup run only. *)
Definition specDispatch (host : Host) (startupRun : bool) (DOMAIN : string)
    (tier : Tier) : M unit :=
  match tier with
  | TierExpired =>
      consoleLog (expiredText DOMAIN) ;;
      sendWhatsAppMessage host (expiredText DOMAIN) ;; ret tt
  | TierWarning days =>
      consoleLog (warningText DOMAIN (Some days)) ;;
      sendWhatsAppMessage host (warningText DOMAIN (Some days)) ;; ret tt
  | TierInfo days =>
      if startupRun then
        consoleLog (infoText DOMAIN days) ;;
        sendWhatsAppMessage host (infoText DOMAIN days) ;; ret tt
      else ret tt
  end.

(** The source tags of the specification's [ExpirationResult]. *)
Inductive Source : Type := Primary | Fallback.

(* ------------------------------------------------------------------ *)
(** ** Observations on a run *)

(** What has been sent, and how often the program has waited ten seconds. *)
Definition sends (w : World) : list Effect := List.filter isSend (trace w).

Definition isWait10 (e : Effect) : bool :=
  match e with SetTimeout ms => ms =? 10000 | _ => false end.

Definition waits10 (w : World) : nat := List.length (List.filter isWait10 (trace w)).

Definition isAxiosGet (e : Effect) : bool :=
  match e with AxiosGet _ _ => true | _ => false end.

(** The world after one more effect. *)
Definition after (w : World) (e : Effect) : World :=
  {| globals := globals w; trace := (trace w ++ [e])%list; feed := feed w |}.

(** [data && data.includes("Rate limit exceeded")] *)
Definition rateLimited (data : string) : bool :=
  Text.truthy data && Text.includes "Rate limit exceeded" data.

(** The world when the callback of [whois.lookup] runs. *)
Definition whoisAnswered (host : Host) (domain : string) (w : World) : World :=
  snd (deliver host (after w (WhoisLookup domain))).

(** The world when the response of [axios.get] is in. *)
Definition rdapAnswered (host : Host) (domain : string) (w : World) : World :=
  let rdapUrl := "https://rdap.org/domain/" ++ domain in
  snd (deliver host (after (after w (log ("Trying RDAP lookup at: " ++ rdapUrl)))
                           (AxiosGet rdapUrl 10000))).

(** What the [catch] of [checkWithRdap] makes of an error with message [m]. *)
Definition rdapFailure (m : string) (w : World) : Outcome JsDate * World :=
  (Throws (Error ("Domain expiration date couldn't be retrieved: " ++ m)),
   after w (ConsoleError [Str "RDAP error:"; Str m])).

(** What the handlers of [Session] print and call. *)
Definition fromSession (e : Effect) : bool :=
  match e with
  | ConsoleLog _ | ClearTimeout _ | MakeWASocket | QrcodeGenerate _ => true
  | SetTimeout ms => (ms =? 60000) || (ms =? 5000) || (ms =? 190000)
  | _ => false
  end.

(** A computation that sends nothing and waits ten seconds at most [n]
    times. *)
Definition quiet {A} (n : nat) (m : M A) : Prop :=
  forall w, sends (snd (m w)) = sends w /\ (waits10 (snd (m w)) <= waits10 w + n)%nat.

Definition neverThrows {A} (m : M A) : Prop :=
  forall w e, fst (m w) <> Throws e.

(* ------------------------------------------------------------------ *)
(** ** Worked inputs *)

Definition CR : string := Text.CR.
Definition LF : string := Text.LF.

(** A registry answer in the usual layout. *)
Definition whoisVerisign : string :=
  "   Domain Name: EXAMPLE.COM" ++ CR ++ LF ++
  "   Registry Expiry Date:   2030-01-02T03:04:05Z  " ++ CR ++ LF ++
  "   Registrar: Example Registrar" ++ CR ++ LF.

(** An answer that carries a registry line and a generic line. *)
Definition whoisTwoLabels : string :=
  "Registry Expiry Date: 2030-01-01T00:00:00Z" ++ LF ++
  "Expiration Date: 2020-01-01T00:00:00Z" ++ LF.

(** An answer whose generic line is no date. *)
Definition whoisBadGeneric : string :=
  "Expiration Date: not disclosed" ++ LF ++
  "Registry Expiry Date: 2030-01-01T00:00:00Z" ++ LF.

(** A host whose every WHOIS and RDAP query gets the given replies; dates
    are read by [IsoDate.parse]. *)
Definition hostWith (whois : WhoisReply) (rdap : RdapReply) (clock : Z)
    (recipient : option string) : Host :=
  {| newDate := IsoDate.parse;
     now := clock;
     whois_lookup := fun _ => whois;
     axios_get := fun _ => rdap;
     sock_sendMessage := fun _ _ => SendOk "3EB0";
     useMultiFileAuthState := AuthLoaded;
     makeWASocket := SocketMade {| user := None |};
     RECIPIENT_NUMBER := recipient;
     CHECK_DOMAIN := Some "example.com" |}.

Definition rdapExpiring (date : string) : RdapReply :=
  RdapBody (Some [ {| eventAction := Some "registration"; eventDate := Some "1995-08-14T04:00:00Z" |};
                   {| eventAction := Some "expiration"; eventDate := Some date |} ]).

(** A session that is up: connected, account known. *)
Definition liveGlobals : Globals :=
  {| sock := Some {| user := Some "905000000000:1@s.whatsapp.net" |};
     isConnected := true; qrDisplayed := false; qrTimeout := None;
     qrRetryCount := O; timers := []; timerSeq := O |}.

Definition worldOf (g : Globals) (batches : list (list Event)) : World :=
  {| globals := g; trace := []; feed := batches |}.

(** A [connection.update] that only offers a challenge. *)
Definition qrOffered (ref : string) : Event :=
  ConnectionUpdate {| connection := None; statusCode := None; qr := Some ref |}.

Definition connectionOpen : Event :=
  ConnectionUpdate {| connection := Some ConnOpen; statusCode := None; qr := None |}.

(** Three challenges shown and timed out, then a fourth offer. *)
Definition fourOffers : list Event :=
  [ qrOffered "ref-1"; QrTimerFired 0;
    qrOffered "ref-2"; QrTimerFired 1;
    qrOffered "ref-3"; QrTimerFired 2;
    qrOffered "ref-4" ].

Definition connectionClosed (code : Z) : Event :=
  ConnectionUpdate {| connection := Some ConnClose; statusCode := Some code; qr := None |}.

(** A session that comes up at every connect and is lost again while the
    program waits. *)
Definition flakyFeed : list (list Event) :=
  [ [connectionOpen]; [connectionClosed 515];
    [connectionOpen]; [connectionClosed 515];
    [connectionOpen]; [connectionClosed 515] ].

(** The WHOIS server cannot be reached; RDAP knows the date. *)
Definition hostWhoisDown : Host :=
  hostWith (WhoisErr (Error "connect ECONNREFUSED 192.0.2.1:43"))
           (rdapExpiring "2030-01-01T00:00:00Z") 1706745600000
           (Some "905000000000").

(** The WHOIS server limits the rate; RDAP knows the date. *)
Definition hostRateLimited : Host :=
  hostWith (WhoisData "Rate limit exceeded. Try again later.")
           (rdapExpiring "2030-01-01T00:00:00Z") 1706745600000
           (Some "905000000000").

(** WHOIS answers with the date. *)
Definition hostWhoisAnswers : Host :=
  hostWith (WhoisData ("Registry Expiry Date: 2030-01-01T00:00:00Z" ++ LF))
           (RdapErr (Error "Request failed with status code 404")) 1706745600000
           (Some "905000000000").

(** Both protocols fail. *)
Definition hostBothDown : Host :=
  hostWith (WhoisErr (Error "connect ECONNREFUSED 192.0.2.1:43"))
           (RdapErr (Error "timeout of 10000ms exceeded")) 1706745600000
           (Some "905000000000").

(** The same host with other ends of the two library calls of
    [startWhatsApp]. *)
Definition withLibrary (auth : AuthReply) (made : SocketReply) (h : Host) : Host :=
  {| newDate := newDate h;
     now := now h;
     whois_lookup := whois_lookup h;
     axios_get := axios_get h;
     sock_sendMessage := sock_sendMessage h;
     useMultiFileAuthState := auth;
     makeWASocket := made;
     RECIPIENT_NUMBER := RECIPIENT_NUMBER h;
     CHECK_DOMAIN := CHECK_DOMAIN h |}.

Definition CREDS_UNREADABLE : JsError :=
  Error "EACCES: permission denied, mkdir 'auth_info_baileys'".

(** The credential store cannot be read. *)
Definition hostNoCredentials : Host :=
  withLibrary (AuthErr CREDS_UNREADABLE) (SocketMade {| user := None |}) hostWhoisAnswers.

(** No recipient is configured. *)
Definition hostNoRecipient : Host :=
  hostWith (WhoisData ("Registry Expiry Date: 2030-01-01T00:00:00Z" ++ LF))
           (rdapExpiring "2030-01-01T00:00:00Z") 1706745600000 None.

Definition NOT_ESTABLISHED : string :=
  "❌ WhatsApp client connection could not be established after multiple retries.".

Definition NO_RECIPIENT : string :=
  "❌ No recipient number defined in environment variables.".

(** The challenges issued in a stretch of output. *)
Definition issued (effs : list Effect) : nat :=
  List.length (List.filter isQrIssue effs).

(** An event whose handler cannot reset the attempt counter: anything but a
    report that the connection is open and the firing of a reconnect. *)
Definition keepsCounter (ev : Event) : bool :=
  match ev with
  | ConnectionUpdate u =>
      match connection u with Some ConnOpen => false | _ => true end
  | ReconnectTimerFired | ReconnectAuthFailed _ | ReconnectSocketFailed _ => false
  | _ => true
  end.

(* ------------------------------------------------------------------ *)
(** ** Notions for the further properties *)

(** [t] is what is left of [s] from some position on. *)
Definition suffixOf (t s : string) : Prop := exists pre, s = pre ++ t.

(** [c] is a piece of [s]. *)
Definition pieceOf (c s : string) : Prop := exists pre post, s = pre ++ c ++ post.

(** A label as the [i] flag sees it. *)
Fixpoint canonical (l : string) : string :=
  match l with
  | String a r => String (Text.canonicalize a) (canonical r)
  | EmptyString => EmptyString
  end.

(** No line terminator occurs in [s]. *)
Fixpoint singleLine (s : string) : bool :=
  match s with
  | String a r => negb (Text.isLineTerminator a) && singleLine r
  | EmptyString => true
  end.

(** The effects of one kind, picked by [P], in the trace of a world. *)
Definition picked (P : Effect -> bool) (w : World) : list Effect :=
  List.filter P (trace w).

(** A computation that makes no effect of the kind [P]. *)
Definition avoids {A} (P : Effect -> bool) (m : M A) : Prop :=
  forall w, picked P (snd (m w)) = picked P w.

(** A kind of effect that the handlers of [Session] never make. *)
Definition notOfSession (P : Effect -> bool) : Prop :=
  forall e, P e = true -> fromSession e = false.

Definition isLookup (e : Effect) : bool :=
  match e with WhoisLookup _ | AxiosGet _ _ => true | _ => false end.

Definition isScheduleJob (e : Effect) : bool :=
  match e with ScheduleJob _ => true | _ => false end.

Definition rdapUrlOf (domain : string) : string := "https://rdap.org/domain/" ++ domain.

Definition RDAP_PREFIX : string := "Domain expiration date couldn't be retrieved: ".

(** A computation that keeps a property of the globals. *)
Definition keeps {A} (I : Globals -> Prop) (m : M A) : Prop :=
  forall w, I (globals w) -> I (globals (snd (m w))).

(** A property of the globals that no handler, no start of a connect, no
    assignment to [sock] and no start cut short by [makeWASocket] can
    break. *)
Definition sessionClosed (I : Globals -> Prop) : Prop :=
  (forall fresh ev g, I g -> I (fst (fst (Session.step fresh ev g))))
  /\ (forall fresh g, I g -> I (fst (Session.prologue fresh g)))
  /\ (forall s g, I g -> I (set_sock s g))
  /\ (forall g, I g -> I (set_qrDisplayed false (fst (clearQrTimeout g)))).

(** The attempt counter is within its cap. *)
Definition counterInRange (g : Globals) : Prop := (qrRetryCount g <= QR_MAX_RETRY)%nat.

(** At most one challenge timer is armed; when one is, [qrTimeout] holds its
    handle and a challenge is on display. *)
Definition oneTimer (g : Globals) : Prop :=
  match timers g with
  | [] => True
  | [id] => qrTimeout g = Some id /\ qrDisplayed g = true
  | _ => False
  end.

Definition isReconnectTimer (e : Effect) : bool :=
  match e with SetTimeout ms => ms =? 5000 | _ => false end.


(** The two errors with which the handlers reject the promise of
    [startWhatsApp]. *)
Definition sessionRejection (e : JsError) : Prop :=
  e = Error "Maximum QR code attempts reached"
  \/ exists code, (code = 401 \/ code = 408)
                  /\ e = Error ("Connection closed with status code: " ++ Text.ofZ code).

(** [ev] is a reconnect whose [startWhatsApp] fails with [e] in one of its
    two library calls. *)
Definition reconnectFailure (ev : Event) (e : JsError) : Prop :=
  ev = ReconnectAuthFailed e \/ ev = ReconnectSocketFailed e.

(** [e] is the error of [useMultiFileAuthState] or of [makeWASocket]: in
    the call of [startWhatsApp] itself, as the host has it, or in the call
    that a reconnect among [evs] makes. *)
Definition libraryFailure (host : Host) (evs : list Event) (e : JsError) : Prop :=
  useMultiFileAuthState host = AuthErr e
  \/ makeWASocket host = SocketErr e
  \/ exists ev, In ev evs /\ reconnectFailure ev e.

(** The progress lines of [todo] turns of the connection check that start
    at turn [retries]. *)
Fixpoint progressLines (todo retries maxRetries : nat) : list Effect :=
  match todo with
  | O => []
  | S todo' =>
      log ("Checking WhatsApp connection ("
           ++ Text.ofZ (Z.of_nat (retries + 1)) ++ "/"
           ++ Text.ofZ (Z.of_nat maxRetries) ++ ")...")
      :: progressLines todo' (S retries) maxRetries
  end.

(** The world [w'] holds the sends of [w] and one more at most. *)
Definition atMostOneMore (w w' : World) : Prop :=
  exists extra, sends w' = (sends w ++ extra)%list /\ (List.length extra <= 1)%nat.

(* ------------------------------------------------------------------ *)
(** ** The label patterns *)

Example exec_skips_spaces_and_stops_at_line_end :
  Regex.exec "Registry Expiry Date:" whoisVerisign
  = Some "2030-01-02T03:04:05Z  ".
Proof. vm_compute. reflexivity. Qed.

Example exec_is_case_blind :
  Regex.exec "Expiry date:" "registry EXPIRY DATE:2030-01-01" = Some "2030-01-01".
Proof. vm_compute. reflexivity. Qed.

Example exec_gives_back_a_blank :
  Regex.exec "Expires on:" ("Expires on: " ++ LF) = Some " ".
Proof. vm_compute. reflexivity. Qed.

Example exec_needs_a_capture :
  Regex.exec "Expires on:" ("Expires on:" ++ LF) = None.
Proof. vm_compute. reflexivity. Qed.

Example trim_both_ends :
  Text.trim (" " ++ CR ++ LF ++ "2030-01-02  03:04 " ++ LF) = "2030-01-02  03:04".
Proof. vm_compute. reflexivity. Qed.

Example scan_verisign :
  scanPatterns IsoDate.parse expiryPatterns whoisVerisign None
  = Some (DateMs 1893553445000).
Proof. vm_compute. reflexivity. Qed.

Example iso_epoch : IsoDate.parse "1970-01-01" = DateMs 0.
Proof. vm_compute. reflexivity. Qed.

Example iso_2024 : IsoDate.parse "2024-02-01T00:00:00Z" = DateMs 1706745600000.
Proof. vm_compute. reflexivity. Qed.

Example iso_rejects_words : IsoDate.parse "not disclosed" = InvalidDate.
Proof. vm_compute. reflexivity. Qed.

(** A capture that is no date leaves an invalid [Date] behind, which the
    loop hands on and a later valid capture replaces. *)
Example scan_bad_generic :
  scanPatterns IsoDate.parse expiryPatterns whoisBadGeneric None
  = Some (DateMs 1893456000000).
Proof. vm_compute. reflexivity. Qed.

(** When nothing valid follows, the invalid [Date] is the result. *)
Example scan_only_invalid :
  scanPatterns IsoDate.parse expiryPatterns "Expiration Date: not disclosed" None
  = Some InvalidDate.
Proof. vm_compute. reflexivity. Qed.

(** The loop stops at the first pattern whose capture is a valid date:
    whatever patterns follow it, and whatever was found before, the result
    is that date. *)
Lemma scanPatterns_first_valid (newDate : string -> JsDate) (data : string) :
  forall (before : list string) (p : string) (later : list string)
         (group1 : string) (t : Z) (acc : option JsDate),
    (forall q c, In q before -> Regex.exec q data = Some c ->
                 validDate (newDate (Text.trim c)) = false) ->
    Regex.exec p data = Some group1 ->
    newDate (Text.trim group1) = DateMs t ->
    scanPatterns newDate (before ++ p :: later) data acc = Some (DateMs t).
Proof.
  induction before as [| q before IH]; intros p later group1 t acc Hbefore Hp Ht.
  - simpl. rewrite Hp, Ht. reflexivity.
  - simpl. destruct (Regex.exec q data) as [c |] eqn:Hq.
    + rewrite (Hbefore q c (or_introl eq_refl) Hq).
      eapply IH; eauto. intros q' c' Hin. apply Hbefore. right. exact Hin.
    + eapply IH; eauto. intros q' c' Hin. apply Hbefore. right. exact Hin.
Qed.

(** No pattern matches: the loop leaves [expiryDate] as it was. *)
Lemma scanPatterns_no_match (newDate : string -> JsDate) (data : string) :
  forall (patterns : list string) (acc : option JsDate),
    (forall q, In q patterns -> Regex.exec q data = None) ->
    scanPatterns newDate patterns data acc = acc.
Proof.
  induction patterns as [| q patterns IH]; intros acc Hnone; simpl.
  - reflexivity.
  - rewrite (Hnone q (or_introl eq_refl)). apply IH.
    intros q' Hin. apply Hnone. right. exact Hin.
Qed.

(* ------------------------------------------------------------------ *)
(** ** The session handlers *)

Section SessionFacts.

Variable fresh : Sock.

Lemma clearQrTimeout_count (g : Globals) :
  qrRetryCount (fst (clearQrTimeout g)) = qrRetryCount g
  /\ isConnected (fst (clearQrTimeout g)) = isConnected g
  /\ qrTimeout (fst (clearQrTimeout g)) = None
  /\ issued (snd (clearQrTimeout g)) = O.
Proof.
  unfold clearQrTimeout. destruct (qrTimeout g) eqn:E; simpl; auto.
Qed.

(** The offer of a challenge: either it is issued, which needs the counter
    below the cap and raises it by one, or nothing happens at all. *)
Lemma onQr_cases (q : option string) (g : Globals) :
  ((qrRetryCount g < QR_MAX_RETRY)%nat
   /\ qrRetryCount (fst (Session.onQr q g)) = S (qrRetryCount g)
   /\ isConnected (fst (Session.onQr q g)) = isConnected g
   /\ issued (snd (Session.onQr q g)) = 1%nat)
  \/ Session.onQr q g = (g, []).
Proof.
  unfold Session.onQr.
  destruct (Session.qrTruthy q && negb (qrDisplayed g)
            && (qrRetryCount g <? QR_MAX_RETRY)%nat) eqn:E.
  - left. apply andb_true_iff in E. destruct E as [_ E].
    apply Nat.ltb_lt in E. repeat split; auto.
  - right. reflexivity.
Qed.


Lemma issued_app (a b : list Effect) : issued (a ++ b) = (issued a + issued b)%nat.
Proof. unfold issued. rewrite List.filter_app, List.length_app. reflexivity. Qed.

Lemma issued_cons (e : Effect) (l : list Effect) :
  issued (e :: l) = ((if isQrIssue e then 1 else 0) + issued l)%nat.
Proof. unfold issued. simpl. destruct (isQrIssue e); reflexivity. Qed.

Lemma issued_nil : issued [] = O.
Proof. reflexivity. Qed.

Ltac count_issued :=
  repeat (rewrite issued_app || rewrite issued_cons || rewrite issued_nil);
  cbn [isQrIssue log].

(** A handler that cannot reset the counter adds to it what it issues. *)
Lemma step_counts (ev : Event) (g : Globals) :
  keepsCounter ev = true ->
  (qrRetryCount g <= QR_MAX_RETRY)%nat ->
  let '(g', effs, _) := Session.step fresh ev g in
  qrRetryCount g' = (qrRetryCount g + issued effs)%nat
  /\ (qrRetryCount g' <= QR_MAX_RETRY)%nat.
Proof.
  intros Hkeep Hle. destruct ev as [u | | id | | | usr | err | err]; simpl in *.
  - unfold Session.onConnectionUpdate.
    destruct (Session.onQr (qr u) g) as [g1 e1] eqn:Eq.
    assert (H1 : qrRetryCount g1 = (qrRetryCount g + issued e1)%nat
                 /\ (qrRetryCount g1 <= QR_MAX_RETRY)%nat).
    { destruct (onQr_cases (qr u) g) as [[Hlt [Hc [_ Hi]]] | Hsame].
      - rewrite Eq in Hc, Hi. simpl in Hc, Hi. rewrite Hc, Hi. split; lia.
      - rewrite Eq in Hsame. inversion Hsame; subst. split; [cbn; lia | exact Hle]. }
    destruct H1 as [H1 H1'].
    unfold Session.onConnection.
    destruct (connection u) as [[ | | ] |]; try discriminate.
    + pose proof (clearQrTimeout_count (set_isConnected false g1)) as [Hc [_ [_ Hi]]].
      destruct (clearQrTimeout (set_isConnected false g1)) as [g2 e2].
      simpl in Hc, Hi.
      destruct (negb (Session.isTerminalCode (statusCode u)));
        count_issued; rewrite Hi, Hc; split; lia.
    + count_issued. split; lia.
    + count_issued. split; lia.
  - unfold Session.onMessagesUpsert. destruct (negb (isConnected g)); cbn; split; lia.
  - unfold Session.onQrTimer. destruct (existsb (Nat.eqb id) (timers g)); cbn; split; lia.
  - unfold Session.onGlobalTimer.
    destruct (negb (isConnected g)); [destruct (QR_MAX_RETRY <=? qrRetryCount g)%nat |];
      cbn; split; lia.
  - discriminate.
  - unfold Session.onUserKnown. destruct (sock g); cbn; split; lia.
  - discriminate.
  - discriminate.
Qed.


End SessionFacts.

(* ------------------------------------------------------------------ *)
(** ** The monad *)

Lemma tryCatch_returns {A} (m : M A) (h : JsError -> M A) (w w1 : World) (a : A) :
  m w = (Returns a, w1) -> tryCatch m h w = (Returns a, w1).
Proof. intros H. unfold tryCatch. rewrite H. reflexivity. Qed.

Lemma tryCatch_throws {A} (m : M A) (h : JsError -> M A) (w w1 : World) (e : JsError) :
  m w = (Throws e, w1) -> tryCatch m h w = h e w1.
Proof. intros H. unfold tryCatch. rewrite H. reflexivity. Qed.

Lemma tryCatch_neverThrows {A} (m : M A) (h : JsError -> M A) :
  neverThrows m -> forall w, tryCatch m h w = m w.
Proof.
  intros H w. unfold tryCatch. specialize (H w).
  destruct (m w) as [[a | e |] w1]; try reflexivity.
  exfalso. exact (H e eq_refl).
Qed.

Lemma bind_returns {A B} (m : M A) (k : A -> M B) (w w1 : World) (a : A) :
  m w = (Returns a, w1) -> bind m k w = k a w1.
Proof. intros H. unfold bind. rewrite H. reflexivity. Qed.

Lemma bind_throws {A B} (m : M A) (k : A -> M B) (w w1 : World) (e : JsError) :
  m w = (Throws e, w1) -> bind m k w = (Throws e, w1).
Proof. intros H. unfold bind. rewrite H. reflexivity. Qed.

Lemma tryCatch_bind_returns {A B} (m : M A) (k : A -> M B) (h : JsError -> M B)
    (w w1 : World) (a : A) :
  m w = (Returns a, w1) -> tryCatch (bind m k) h w = tryCatch (k a) h w1.
Proof. intros H. unfold tryCatch, bind. rewrite H. reflexivity. Qed.

Lemma tryCatch_bind_throws {A B} (m : M A) (k : A -> M B) (h : JsError -> M B)
    (w w1 : World) (e : JsError) :
  m w = (Throws e, w1) -> tryCatch (bind m k) h w = h e w1.
Proof. intros H. unfold tryCatch, bind. rewrite H. reflexivity. Qed.

Lemma neverThrows_ret {A} (a : A) : neverThrows (ret a).
Proof. intros w e. discriminate. Qed.

Lemma neverThrows_emit (e : Effect) : neverThrows (emit e).
Proof. intros w e'. discriminate. Qed.

Lemma neverThrows_bind {A B} (m : M A) (k : A -> M B) :
  neverThrows m -> (forall a, neverThrows (k a)) -> neverThrows (bind m k).
Proof.
  intros Hm Hk w e. unfold bind. specialize (Hm w).
  destruct (m w) as [[a | e' |] w1]; simpl in *.
  - apply Hk.
  - exfalso. exact (Hm e' eq_refl).
  - discriminate.
Qed.

(** A [catch] whose handler returns swallows every exception. *)
Lemma neverThrows_tryCatch {A} (m : M A) (h : JsError -> M A) :
  (forall e, neverThrows (h e)) -> neverThrows (tryCatch m h).
Proof.
  intros Hh w e. unfold tryCatch.
  destruct (m w) as [[a | e' |] w1] eqn:E; simpl; try discriminate.
  apply Hh.
Qed.

Lemma quiet_ret {A} (a : A) : quiet O (ret a).
Proof. intros w. simpl. split; [reflexivity | lia]. Qed.

Lemma quiet_throw {A} (e : JsError) : quiet O (@throw A e).
Proof. intros w. simpl. split; [reflexivity | lia]. Qed.

Lemma quiet_weaken {A} (n n' : nat) (m : M A) :
  (n <= n')%nat -> quiet n m -> quiet n' m.
Proof. intros Hle H w. destruct (H w) as [H1 H2]. split; [exact H1 | lia]. Qed.

Lemma quiet_bind {A B} (n k : nat) (m : M A) (f : A -> M B) :
  quiet n m -> (forall a, quiet k (f a)) -> quiet (n + k) (bind m f).
Proof.
  intros Hm Hf w. unfold bind. destruct (Hm w) as [H1 H2].
  destruct (m w) as [[a | e |] w1]; simpl in *.
  - destruct (Hf a w1) as [H3 H4]. split; [congruence | lia].
  - split; [exact H1 | lia].
  - split; [exact H1 | lia].
Qed.

Lemma quiet_tryCatch {A} (n k : nat) (m : M A) (h : JsError -> M A) :
  quiet n m -> (forall e, quiet k (h e)) -> quiet (n + k) (tryCatch m h).
Proof.
  intros Hm Hh w. unfold tryCatch. destruct (Hm w) as [H1 H2].
  destruct (m w) as [[a | e |] w1]; simpl in *.
  - split; [exact H1 | lia].
  - destruct (Hh e w1) as [H3 H4]. split; [congruence | lia].
  - split; [exact H1 | lia].
Qed.

Lemma sends_snoc (w : World) (e : Effect) :
  sends (after w e) = (sends w ++ if isSend e then [e] else [])%list.
Proof.
  unfold sends, after. simpl. rewrite List.filter_app. simpl.
  destruct (isSend e); reflexivity.
Qed.

Lemma waits10_snoc (w : World) (e : Effect) :
  waits10 (after w e) = (waits10 w + if isWait10 e then 1 else 0)%nat.
Proof.
  unfold waits10, after. simpl. rewrite List.filter_app, List.length_app. simpl.
  destruct (isWait10 e); reflexivity.
Qed.

(** An effect that is neither a send nor a wait of ten seconds. *)
Lemma quiet_emit (e : Effect) :
  isSend e = false -> isWait10 e = false -> quiet O (emit e).
Proof.
  intros Hs Hw w. change (snd (emit e w)) with (after w e).
  rewrite sends_snoc, waits10_snoc, Hs, Hw, List.app_nil_r. split; [reflexivity | lia].
Qed.

Lemma quiet_consoleLog (s : string) : quiet O (consoleLog s).
Proof. apply quiet_emit; reflexivity. Qed.

Lemma quiet_getGlobals : quiet O getGlobals.
Proof. intros w. simpl. split; [reflexivity | lia]. Qed.

Lemma quiet_assignSock (s : option Sock) : quiet O (assignSock s).
Proof. intros w. unfold sends, waits10. simpl. split; [reflexivity | lia]. Qed.

(* ------------------------------------------------------------------ *)
(** ** What the handlers do to the outside *)

Lemma fromSession_quiet (effs : list Effect) :
  forallb fromSession effs = true ->
  List.filter isSend effs = [] /\ List.filter isWait10 effs = [].
Proof.
  induction effs as [| e effs IH]; intros H; simpl in *.
  - split; reflexivity.
  - apply andb_true_iff in H. destruct H as [He H]. destruct (IH H) as [IH1 IH2].
    destruct e; simpl in *; try discriminate; try (split; assumption).
    assert (Hms : (ms =? 10000) = false).
    { apply orb_true_iff in He. destruct He as [He | He];
        [apply orb_true_iff in He; destruct He as [He | He] |];
        apply Z.eqb_eq in He; subst; reflexivity. }
    rewrite Hms. split; assumption.
Qed.

Lemma clearQrTimeout_fromSession (g : Globals) :
  forallb fromSession (snd (clearQrTimeout g)) = true.
Proof. unfold clearQrTimeout. destruct (qrTimeout g); reflexivity. Qed.

Lemma prologue_fromSession (fresh : Sock) (g : Globals) :
  forallb fromSession (snd (Session.prologue fresh g)) = true.
Proof.
  unfold Session.prologue. pose proof (clearQrTimeout_fromSession g) as H.
  destruct (clearQrTimeout g) as [g1 e1]. simpl in *.
  rewrite List.forallb_app, H. reflexivity.
Qed.

Lemma onQr_fromSession (q : option string) (g : Globals) :
  forallb fromSession (snd (Session.onQr q g)) = true.
Proof.
  unfold Session.onQr.
  destruct (Session.qrTruthy q && negb (qrDisplayed g)
            && (qrRetryCount g <? QR_MAX_RETRY)%nat); reflexivity.
Qed.

Lemma step_fromSession (fresh : Sock) (ev : Event) (g : Globals) :
  forallb fromSession (snd (fst (Session.step fresh ev g))) = true.
Proof.
  destruct ev as [u | | id | | | usr | err | err]; simpl.
  - unfold Session.onConnectionUpdate.
    pose proof (onQr_fromSession (qr u) g) as Hq.
    destruct (Session.onQr (qr u) g) as [g1 e1]. simpl in Hq.
    unfold Session.onConnection.
    destruct (connection u) as [[ | | ] |]; simpl;
      try (rewrite List.forallb_app, Hq; reflexivity).
    + pose proof (clearQrTimeout_fromSession g1) as Hc.
      destruct (clearQrTimeout g1) as [g2 e2]. simpl in *.
      rewrite List.forallb_app, Hq. simpl. exact Hc.
    + pose proof (clearQrTimeout_fromSession (set_isConnected false g1)) as Hc.
      destruct (clearQrTimeout (set_isConnected false g1)) as [g2 e2]. simpl in Hc.
      destruct (negb (Session.isTerminalCode (statusCode u))); simpl;
        rewrite List.forallb_app, Hq; simpl; rewrite ?List.forallb_app, Hc; reflexivity.
  - unfold Session.onMessagesUpsert. destruct (negb (isConnected g)); reflexivity.
  - unfold Session.onQrTimer. destruct (existsb (Nat.eqb id) (timers g)); reflexivity.
  - unfold Session.onGlobalTimer.
    destruct (negb (isConnected g)); [destruct (QR_MAX_RETRY <=? qrRetryCount g)%nat |];
      reflexivity.
  - unfold Session.onReconnectTimer.
    destruct (QR_MAX_RETRY <=? qrRetryCount g)%nat.
    + pose proof (prologue_fromSession fresh (set_qrRetryCount O g)) as Hp.
      destruct (Session.prologue fresh (set_qrRetryCount O g)) as [g2 e2]. simpl in *.
      exact Hp.
    + pose proof (prologue_fromSession fresh g) as Hp.
      destruct (Session.prologue fresh g) as [g2 e2]. simpl in *. exact Hp.
  - unfold Session.onUserKnown. destruct (sock g); reflexivity.
  - unfold Session.onReconnectAuthFailed.
    destruct (QR_MAX_RETRY <=? qrRetryCount g)%nat; reflexivity.
  - unfold Session.onReconnectSocketFailed.
    destruct (QR_MAX_RETRY <=? qrRetryCount g)%nat.
    + pose proof (clearQrTimeout_fromSession (set_qrRetryCount O g)) as Hc.
      destruct (clearQrTimeout (set_qrRetryCount O g)) as [g2 e2]. simpl in *.
      rewrite List.forallb_app, Hc. reflexivity.
    + pose proof (clearQrTimeout_fromSession g) as Hc.
      destruct (clearQrTimeout g) as [g2 e2]. simpl in *.
      rewrite List.forallb_app, Hc. reflexivity.
Qed.

Lemma run_fromSession (fresh : Sock) (evs : list Event) :
  forall g, forallb fromSession (snd (fst (Session.run fresh evs g))) = true.
Proof.
  induction evs as [| ev evs IH]; intros g; simpl.
  - reflexivity.
  - pose proof (step_fromSession fresh ev g) as Hs.
    destruct (Session.step fresh ev g) as [[g1 e1] s1]. simpl in Hs.
    specialize (IH g1). destruct (Session.run fresh evs g1) as [[g2 e2] s2].
    simpl in *. rewrite List.forallb_app, Hs, IH. reflexivity.
Qed.

Lemma runUntilSettled_fromSession (fresh : Sock) (evs : list Event) :
  forall g, forallb fromSession (snd (Session.runUntilSettled fresh evs g)) = true.
Proof.
  induction evs as [| ev evs IH]; intros g; simpl.
  - reflexivity.
  - pose proof (step_fromSession fresh ev g) as Hs.
    destruct (Session.step fresh ev g) as [[g1 e1] s1]. simpl in Hs.
    destruct (Session.settleAll Unsettled s1); simpl; try exact Hs.
    specialize (IH g1). destruct (Session.runUntilSettled fresh evs g1) as [[g2 p2] e2].
    simpl in *. rewrite List.forallb_app, Hs, IH. reflexivity.
Qed.

(** Output of the handlers changes neither what was sent nor the count of
    ten-second waits. *)
Lemma session_output_quiet (w : World) (g : Globals) (effs : list Effect)
    (rest : list (list Event)) :
  forallb fromSession effs = true ->
  let w' := {| globals := g; trace := (trace w ++ effs)%list; feed := rest |} in
  sends w' = sends w /\ waits10 w' = waits10 w.
Proof.
  intros H. destruct (fromSession_quiet effs H) as [H1 H2].
  unfold sends, waits10. simpl. rewrite !List.filter_app, H1, H2, !List.app_nil_r.
  split; reflexivity.
Qed.

Section ProgramFacts.

Variable host : Host.

Lemma deliver_returns (w : World) : fst (deliver host w) = Returns tt.
Proof.
  unfold deliver.
  destruct (Session.run (freshSock host) (hd [] (feed w)) (globals w)) as [[g1 e1] s1].
  reflexivity.
Qed.

Lemma quiet_deliver : quiet O (deliver host).
Proof.
  intros w. unfold deliver.
  pose proof (run_fromSession (freshSock host) (hd [] (feed w)) (globals w)) as H.
  destruct (Session.run (freshSock host) (hd [] (feed w)) (globals w)) as [[g1 e1] s1].
  simpl in H. destruct (session_output_quiet w g1 e1 (tl (feed w)) H) as [H1 H2].
  simpl in *. split; [exact H1 | lia].
Qed.

Lemma quiet_startWhatsApp : quiet O (startWhatsApp host).
Proof.
  intros w. unfold startWhatsApp.
  destruct (useMultiFileAuthState host) as [| err]; [| simpl; split; [reflexivity | lia]].
  destruct (makeWASocket host) as [fresh | err].
  - pose proof (prologue_fromSession fresh (globals w)) as Hp.
    destruct (Session.prologue fresh (globals w)) as [g1 e1]. simpl in Hp.
    pose proof (runUntilSettled_fromSession fresh (hd [] (feed w)) g1) as Hr.
    destruct (Session.runUntilSettled fresh (hd [] (feed w)) g1)
      as [[g2 p] e2]. simpl in Hr.
    assert (H : forallb fromSession (e1 ++ e2) = true)
      by (rewrite List.forallb_app, Hp, Hr; reflexivity).
    destruct (session_output_quiet w g2 (e1 ++ e2) (tl (feed w)) H) as [H1 H2].
    destruct p; simpl in *; (split; [exact H1 | lia]).
  - pose proof (clearQrTimeout_fromSession (globals w)) as Hc.
    destruct (clearQrTimeout (globals w)) as [g1 e1]. simpl in Hc.
    assert (H : forallb fromSession (e1 ++ [MakeWASocket]) = true)
      by (rewrite List.forallb_app, Hc; reflexivity).
    destruct (session_output_quiet w (set_qrDisplayed false g1) (e1 ++ [MakeWASocket])
                (feed w) H) as [H1 H2].
    simpl in *. split; [exact H1 | lia].
Qed.

Lemma quiet_sleep10 : quiet 1 (sleep host 10000).
Proof.
  unfold sleep. apply (quiet_bind 1 0).
  - intros w. change (snd (emit (SetTimeout 10000) w)) with (after w (SetTimeout 10000)).
    rewrite sends_snoc, waits10_snoc. simpl. rewrite List.app_nil_r.
    split; [reflexivity | lia].
  - intros _. apply quiet_deliver.
Qed.

(** The retry loop sends nothing and waits ten seconds once per turn at
    most. *)
Lemma quiet_ensureLoop (maxRetries : nat) :
  forall todo retries, quiet todo (ensureLoop host todo retries maxRetries).
Proof.
  induction todo as [| todo IH]; intros retries; simpl.
  - apply (quiet_bind 0 0); [apply quiet_getGlobals | intros g; apply quiet_ret].
  - apply (quiet_bind 0 (S todo)); [apply quiet_getGlobals |].
    intros g. destruct (live g).
    + apply (quiet_weaken 0); [lia | apply quiet_ret].
    + apply (quiet_bind 0 (S todo)); [apply quiet_consoleLog |]. intros _.
      apply (quiet_bind 1 todo); [| intros _; apply IH].
      destruct (noConnection g).
      * apply (quiet_bind 0 1); [apply quiet_consoleLog |]. intros _.
        apply (quiet_bind 0 1); [apply quiet_startWhatsApp |]. intros s.
        apply (quiet_bind 0 1); [apply quiet_assignSock |]. intros _.
        apply quiet_sleep10.
      * apply (quiet_weaken 0); [lia | apply quiet_ret].
Qed.

End ProgramFacts.

(* ------------------------------------------------------------------ *)
(** ** Notifier *)

Section NotifierFacts.

Variable host : Host.

(** A session that is live needs no retry. *)
Lemma ensure_live (w : World) (n : nat) :
  live (globals w) = true ->
  ensureWhatsAppConnection host (S n) w = (Returns true, w).
Proof.
  intros H. unfold ensureWhatsAppConnection. simpl.
  unfold bind, getGlobals. rewrite H. reflexivity.
Qed.

Lemma neverThrows_send (text : string) : neverThrows (sendWhatsAppMessage host text).
Proof.
  unfold sendWhatsAppMessage. apply neverThrows_tryCatch. intros e.
  apply neverThrows_bind; [apply neverThrows_emit | intros _; apply neverThrows_ret].
Qed.

(** [sendWhatsAppMessage] by the outcome of the connection check, when no
    recipient is configured. *)
Lemma send_without_recipient (text : string) (w : World) :
  recipientTruthy (RECIPIENT_NUMBER host) = false ->
  sendWhatsAppMessage host text w =
  match ensureWhatsAppConnection host 3 w with
  | (Returns true, w1) => (Returns None, after w1 (log NO_RECIPIENT))
  | (Returns false, w1) => (Returns None, after w1 (log NOT_ESTABLISHED))
  | (Throws e, w1) =>
    (Returns None, after w1 (log ("❌ WhatsApp message sending error: " ++ errorToString e)))
  | (Pending, w1) => (Pending, w1)
  end.
Proof.
  intros H. unfold sendWhatsAppMessage, tryCatch, bind.
  destruct (ensureWhatsAppConnection host 3 w) as [[[ | ] | e | ] w1]; simpl;
    try reflexivity.
  unfold recipientTruthy in H.
  destruct (RECIPIENT_NUMBER host) as [r |]; [rewrite H |]; reflexivity.
Qed.

(** The same when the connection check reports failure or throws. *)
Lemma send_not_connected (text : string) (w w1 : World) :
  ensureWhatsAppConnection host 3 w = (Returns false, w1) ->
  sendWhatsAppMessage host text w = (Returns None, after w1 (log NOT_ESTABLISHED)).
Proof.
  intros H. unfold sendWhatsAppMessage, tryCatch, bind. rewrite H. reflexivity.
Qed.

Lemma send_connect_throws (text : string) (w w1 : World) (e : JsError) :
  ensureWhatsAppConnection host 3 w = (Throws e, w1) ->
  sendWhatsAppMessage host text w =
  (Returns None, after w1 (log ("❌ WhatsApp message sending error: " ++ errorToString e))).
Proof.
  intros H. unfold sendWhatsAppMessage, tryCatch, bind. rewrite H. reflexivity.
Qed.

Lemma sends_after_log (w : World) (args : list LogArg) :
  sends (after w (ConsoleLog args)) = sends w.
Proof. rewrite sends_snoc. simpl. apply List.app_nil_r. Qed.

End NotifierFacts.

(** C9. [sendWhatsAppMessage] never throws.  When the connection check, three
    turns with one ten-second wait each at most, reports that the session is
    not live, it returns null and nothing is sent; when the check throws it
    returns null and nothing is sent; it returns a result only when the
    socket reported the message as sent; and it stays pending only when the
    connection check does. *)
Theorem sendWhatsAppMessage_never_raises
    (host : Host) (text : string) (w : World) :
  let r := sendWhatsAppMessage host text w in
  let c := ensureWhatsAppConnection host 3 w in
  (forall e, fst r <> Throws e)
  /\ (fst c = Returns false ->
      r = (Returns None, after (snd c) (log NOT_ESTABLISHED))
      /\ sends (snd r) = sends w
      /\ (waits10 (snd c) <= waits10 w + 3)%nat)
  /\ (forall e, fst c = Throws e -> fst r = Returns None /\ sends (snd r) = sends w)
  /\ (forall result, fst r = Returns (Some result) ->
      fst c = Returns true
      /\ exists recipient, RECIPIENT_NUMBER host = Some recipient
                           /\ sock_sendMessage host (jidOf recipient) text = SendOk result)
  /\ (fst r = Pending -> fst c = Pending).
Proof.
  intros r c. subst r c.
  pose proof (quiet_ensureLoop host 3 3 O w) as [Hs Hw].
  fold (ensureWhatsAppConnection host 3) in Hs, Hw.
  split; [| split; [| split; [| split]]].
  - apply neverThrows_send.
  - intros H.
    destruct (ensureWhatsAppConnection host 3 w) as [o w1] eqn:E. simpl in H. subst o.
    rewrite (send_not_connected host text w w1 E). cbn [snd]. unfold log.
    rewrite sends_after_log. auto.
  - intros e H.
    destruct (ensureWhatsAppConnection host 3 w) as [o w1] eqn:E. simpl in H. subst o.
    rewrite (send_connect_throws host text w w1 e E). cbn [fst snd]. unfold log.
  rewrite sends_after_log. auto.
  - intros result. unfold sendWhatsAppMessage, tryCatch, bind.
    destruct (ensureWhatsAppConnection host 3 w) as [[[ | ] | e | ] w1]; simpl;
      try discriminate.
    destruct (RECIPIENT_NUMBER host) as [rc |]; simpl; try discriminate.
    destruct (Text.truthy rc); simpl; try discriminate.
    destruct (sock (globals w1)); simpl; try discriminate.
    destruct (deliver host _) as [[[] | e | ] w2]; simpl; try discriminate.
    destruct (sock_sendMessage host (jidOf rc) text) as [res | err] eqn:Es; simpl;
      try discriminate.
    intros H. inversion H; subst. split; [reflexivity |].
    exists rc. split; [reflexivity | exact Es].
  - unfold sendWhatsAppMessage, tryCatch, bind.
    destruct (ensureWhatsAppConnection host 3 w) as [[[ | ] | e | ] w1]; simpl;
      try discriminate; try reflexivity.
    destruct (RECIPIENT_NUMBER host) as [rc |]; simpl; try discriminate.
    destruct (Text.truthy rc); simpl; try discriminate.
    destruct (sock (globals w1)); simpl; try discriminate.
    pose proof (deliver_returns host
      (after (after w1 (log ("📤 Sending message to: " ++ jidOf rc)))
             (SendMessage (jidOf rc) text))) as Hd.
    unfold after in Hd. simpl in Hd.
    destruct (deliver host _) as [o w2]; simpl in Hd; subst o; simpl.
    destruct (sock_sendMessage host (jidOf rc) text); simpl; discriminate.
Qed.

(** A run of the retry loop that fails after three connects: the session
    opens at each connect and is lost during each wait. *)
Lemma sendWhatsAppMessage_never_raises_witness :
  let w := worldOf Session.initial flakyFeed in
  fst (ensureWhatsAppConnection hostWhoisAnswers 3 w) = Returns false
  /\ fst (sendWhatsAppMessage hostWhoisAnswers "hello" w) = Returns None
  /\ sends (snd (sendWhatsAppMessage hostWhoisAnswers "hello" w)) = sends w
  /\ (waits10 (snd (ensureWhatsAppConnection hostWhoisAnswers 3 w)) <= waits10 w + 3)%nat.
Proof.
  intros w.
  assert (Hc : fst (ensureWhatsAppConnection hostWhoisAnswers 3 w) = Returns false)
    by (vm_compute; reflexivity).
  destruct (sendWhatsAppMessage_never_raises hostWhoisAnswers "hello" w) as [_ [H _]].
  destruct (H Hc) as [Hr [Hs Hw]].
  split; [exact Hc | split; [rewrite Hr; reflexivity | split; [exact Hs | exact Hw]]].
Defined.

Example flaky_session_waits_three_times :
  waits10 (snd (ensureWhatsAppConnection hostWhoisAnswers 3 (worldOf Session.initial flakyFeed)))
  = 3%nat.
Proof. vm_compute. reflexivity. Qed.

(** A live session and a configured recipient: the message goes out, to the
    recipient with the address suffix added. *)
Example send_when_live :
  let r := sendWhatsAppMessage hostWhoisAnswers "hello" (worldOf liveGlobals []) in
  fst r = Returns (Some "3EB0")
  /\ sends (snd r) = [SendMessage "905000000000@s.whatsapp.net" "hello"].
Proof. vm_compute. split; reflexivity. Qed.

(** C10. With no recipient configured (the variable unset or empty),
    [sendWhatsAppMessage] sends nothing; on a live session it returns null at
    once, and whenever the connection check settles it returns null. *)
Theorem sendWhatsAppMessage_without_recipient
    (host : Host) (text : string) (w : World) :
  recipientTruthy (RECIPIENT_NUMBER host) = false ->
  sends (snd (sendWhatsAppMessage host text w)) = sends w
  /\ (live (globals w) = true ->
      sendWhatsAppMessage host text w = (Returns None, after w (log NO_RECIPIENT)))
  /\ (fst (ensureWhatsAppConnection host 3 w) <> Pending ->
      fst (sendWhatsAppMessage host text w) = Returns None).
Proof.
  intros Hr.
  pose proof (quiet_ensureLoop host 3 3 O w) as [Hs _].
  fold (ensureWhatsAppConnection host 3) in Hs.
  rewrite (send_without_recipient host text w Hr).
  split; [| split].
  - destruct (ensureWhatsAppConnection host 3 w) as [[[ | ] | e | ] w1];
      cbn [snd] in *; unfold log; rewrite ?sends_after_log; exact Hs.
  - intros Hlive. rewrite (ensure_live host w 2 Hlive). reflexivity.
  - intros Hp.
    destruct (ensureWhatsAppConnection host 3 w) as [[[ | ] | e | ] w1];
      cbn [fst] in *; try reflexivity.
    exfalso. apply Hp. reflexivity.
Qed.

Lemma sendWhatsAppMessage_without_recipient_witness :
  let w := worldOf liveGlobals [] in
  sends (snd (sendWhatsAppMessage hostNoRecipient "hello" w)) = []
  /\ sendWhatsAppMessage hostNoRecipient "hello" w = (Returns None, after w (log NO_RECIPIENT)).
Proof.
  intros w.
  assert (Hr : recipientTruthy (RECIPIENT_NUMBER hostNoRecipient) = false) by reflexivity.
  destruct (sendWhatsAppMessage_without_recipient hostNoRecipient "hello" w Hr)
    as [Hs [Hlive _]].
  split; [exact Hs | apply Hlive; reflexivity].
Defined.

(** An empty recipient is as good as none. *)
Example empty_recipient_sends_nothing :
  let host := hostWith (WhoisData "") (RdapBody None) 0 (Some "") in
  sendWhatsAppMessage host "hello" (worldOf liveGlobals [])
  = (Returns None, after (worldOf liveGlobals []) (log NO_RECIPIENT)).
Proof. vm_compute. reflexivity. Qed.

(* ------------------------------------------------------------------ *)
(** ** ExpirationResolver *)

Section ResolverFacts.

Variable host : Host.

Lemma deliver_eq (w : World) : deliver host w = (Returns tt, snd (deliver host w)).
Proof.
  pose proof (deliver_returns host w) as H.
  destruct (deliver host w) as [o w1]. simpl in *. subst o. reflexivity.
Qed.

Lemma checkWithWhois_cases (domain : string) (w : World) :
  checkWithWhois host domain w =
  match whois_lookup host domain with
  | WhoisErr err => (Throws err, whoisAnswered host domain w)
  | WhoisData data =>
      if rateLimited data then
        (Returns None,
         after (whoisAnswered host domain w) (log "WHOIS rate limit exceeded, will try RDAP"))
      else
        match scanPatterns (newDate host) expiryPatterns data None with
        | Some d => (Returns (Some d), whoisAnswered host domain w)
        | None =>
            (Returns None,
             after (whoisAnswered host domain w) (ConsoleLog [Str "WHOIS response:"; Str data]))
        end
  end.
Proof.
  unfold checkWithWhois, whoisAnswered, rateLimited, bind, emit. cbn [fst snd].
  fold (after w (WhoisLookup domain)).
  rewrite (deliver_eq (after w (WhoisLookup domain))).
  destruct (whois_lookup host domain) as [err | data]; [reflexivity |].
  destruct (Text.truthy data && Text.includes "Rate limit exceeded" data);
    [reflexivity |].
  destruct (scanPatterns (newDate host) expiryPatterns data None); reflexivity.
Qed.

Lemma checkDomainExpiration_cases (domain : string) (w : World) :
  checkDomainExpiration host domain w =
  match checkWithWhois host domain w with
  | (Returns (Some d), w1) => (Returns d, w1)
  | (Returns None, w1) =>
      checkWithRdap host domain (after w1 (log "WHOIS failed, trying RDAP instead..."))
  | (Throws e, w1) => (Throws e, w1)
  | (Pending, w1) => (Pending, w1)
  end.
Proof.
  unfold checkDomainExpiration, tryCatch, bind.
  destruct (checkWithWhois host domain w) as [[[d |] | e | ] w1]; try reflexivity.
  unfold consoleLog, emit. fold (after w1 (log "WHOIS failed, trying RDAP instead...")).
  destruct (checkWithRdap host domain _) as [[d | e | ] w2]; reflexivity.
Qed.

Lemma checkWithRdap_cases (domain : string) (w : World) :
  checkWithRdap host domain w =
  match axios_get host ("https://rdap.org/domain/" ++ domain) with
  | RdapErr err => rdapFailure (message err) (rdapAnswered host domain w)
  | RdapBody events =>
      match rdapExpiry host events with
      | Some d => (Returns d, rdapAnswered host domain w)
      | None =>
          rdapFailure "RDAP response did not contain expiration information"
                      (rdapAnswered host domain w)
      end
  end.
Proof.
  unfold checkWithRdap, rdapAnswered, rdapFailure, tryCatch, bind, consoleLog, emit.
  cbn [fst snd].
  fold (after w (log ("Trying RDAP lookup at: " ++ "https://rdap.org/domain/" ++ domain))).
  fold (after (after w (log ("Trying RDAP lookup at: " ++ "https://rdap.org/domain/" ++ domain)))
              (AxiosGet ("https://rdap.org/domain/" ++ domain) 10000)).
  rewrite deliver_eq.
  destruct (axios_get host ("https://rdap.org/domain/" ++ domain)) as [err | events];
    [reflexivity |].
  destruct (rdapExpiry host events); reflexivity.
Qed.

(** An error of the WHOIS lookup leaves [checkDomainExpiration] as it
    came: the fallback is not asked. *)
Lemma whois_error_propagates (domain : string) (w : World) (err : JsError) :
  whois_lookup host domain = WhoisErr err ->
  checkDomainExpiration host domain w = (Throws err, whoisAnswered host domain w).
Proof.
  intros H. rewrite checkDomainExpiration_cases, checkWithWhois_cases, H. reflexivity.
Qed.

(** A rate-limited WHOIS answer sends the lookup on to RDAP. *)
Lemma rate_limit_falls_back (domain data : string) (w : World) :
  whois_lookup host domain = WhoisData data ->
  rateLimited data = true ->
  checkDomainExpiration host domain w =
  checkWithRdap host domain
    (after (after (whoisAnswered host domain w) (log "WHOIS rate limit exceeded, will try RDAP"))
           (log "WHOIS failed, trying RDAP instead...")).
Proof.
  intros H Hr. rewrite checkDomainExpiration_cases, checkWithWhois_cases, H, Hr.
  reflexivity.
Qed.

End ResolverFacts.

(** C1, at the input where the code and the claim part: the WHOIS server
    refuses the connection and RDAP would know the date.  The lookup throws
    the WHOIS error and RDAP is never asked. *)
Theorem whois_error_is_not_recovered :
  let w := worldOf liveGlobals [] in
  let r := checkDomainExpiration hostWhoisDown "example.com" w in
  fst r = Throws (Error "connect ECONNREFUSED 192.0.2.1:43")
  /\ existsb isAxiosGet (trace (snd r)) = false
  /\ fst (checkWithRdap hostWhoisDown "example.com" w) = Returns (DateMs 1893456000000).
Proof. vm_compute. repeat split; reflexivity. Qed.

(** The sibling path: a rate-limited answer is recovered through RDAP. *)
Example rate_limit_is_recovered :
  let r := checkDomainExpiration hostRateLimited "example.com" (worldOf liveGlobals []) in
  fst r = Returns (DateMs 1893456000000)
  /\ existsb isAxiosGet (trace (snd r)) = true.
Proof. vm_compute. split; reflexivity. Qed.

Example both_protocols_fail :
  fst (checkDomainExpiration hostBothDown "example.com" (worldOf liveGlobals []))
  = Throws (Error "connect ECONNREFUSED 192.0.2.1:43").
Proof. vm_compute. reflexivity. Qed.

Example rdap_failure_is_wrapped :
  let host := hostWith (WhoisData "No match for domain") (RdapBody (Some [])) 0 None in
  fst (checkDomainExpiration host "example.com" (worldOf liveGlobals []))
  = Throws (Error "Domain expiration date couldn't be retrieved: RDAP response did not contain expiration information").
Proof. vm_compute. reflexivity. Qed.

(** C2, the claim's order against the code's: on an answer with a registry
    line and a generic line the code returns the date of the generic line,
    the pattern it tries first, while the order of the claim gives the date
    of the registry line. *)
Lemma generic_label_is_tried_before_registry :
  let host := hostWith (WhoisData whoisTwoLabels) (RdapBody None) 0 None in
  fst (checkWithWhois host "example.com" (worldOf liveGlobals []))
    = Returns (Some (DateMs 1577836800000))
  /\ scanPatterns IsoDate.parse specPriority whoisTwoLabels None
    = Some (DateMs 1893456000000)
  /\ scanPatterns IsoDate.parse expiryPatterns whoisTwoLabels None
     <> scanPatterns IsoDate.parse specPriority whoisTwoLabels None.
Proof.
  vm_compute. split; [reflexivity | split; [reflexivity | discriminate]].
Qed.

(** C2, as the code has it.  The patterns are tried in the order of
    [expiryPatterns]: generic expiration date, registry expiry, registrar
    registration expiration, domain expiration, expires on, expiry date.
    The first of them whose capture is a valid date gives the result of
    the scan, and the result is the same whatever patterns follow it.  It
    is the result of [checkWithWhois] for every response text that the
    rate-limit check lets through; a text that holds the words "Rate limit
    exceeded" is not scanned and gives null, whatever labels it carries. *)
Theorem first_valid_pattern_in_source_order
    (host : Host) (domain data : string) (w : World)
    (before : list string) (p : string) (rest : list string)
    (group1 : string) (t : Z) :
  whois_lookup host domain = WhoisData data ->
  expiryPatterns = (before ++ p :: rest)%list ->
  (forall q c, In q before -> Regex.exec q data = Some c ->
               validDate (newDate host (Text.trim c)) = false) ->
  Regex.exec p data = Some group1 ->
  newDate host (Text.trim group1) = DateMs t ->
  expiryPatterns = [ "Expiration Date:"; "Registry Expiry Date:";
                     "Registrar Registration Expiration Date:";
                     "Domain Expiration Date:"; "Expires on:"; "Expiry date:" ]
  /\ fst (checkWithWhois host domain w)
     = (if Text.includes "Rate limit exceeded" data
        then Returns None else Returns (Some (DateMs t)))
  /\ forall later acc,
       scanPatterns (newDate host) (before ++ p :: later) data acc = Some (DateMs t).
Proof.
  intros Hdata Hsplit Hbefore Hp Ht.
  assert (Hscan : forall later acc,
             scanPatterns (newDate host) (before ++ p :: later) data acc = Some (DateMs t)).
  { intros later acc. eapply scanPatterns_first_valid; eauto. }
  split; [reflexivity | split; [| exact Hscan]].
  assert (Hrate : rateLimited data = Text.includes "Rate limit exceeded" data).
  { unfold rateLimited. destruct data; reflexivity. }
  rewrite checkWithWhois_cases, Hdata, Hrate.
  destruct (Text.includes "Rate limit exceeded" data); [reflexivity |].
  rewrite Hsplit, (Hscan rest None). reflexivity.
Qed.

Lemma first_valid_pattern_in_source_order_witness :
  let host := hostWith (WhoisData whoisBadGeneric) (RdapBody None) 0 None in
  fst (checkWithWhois host "example.com" (worldOf liveGlobals []))
    = Returns (Some (DateMs 1893456000000))
  /\ forall later acc,
       scanPatterns IsoDate.parse (["Expiration Date:"] ++ "Registry Expiry Date:" :: later)
                    whoisBadGeneric acc
       = Some (DateMs 1893456000000).
Proof.
  intros host.
  refine (proj2 (first_valid_pattern_in_source_order host "example.com" whoisBadGeneric
            (worldOf liveGlobals []) ["Expiration Date:"] "Registry Expiry Date:"
            [ "Registrar Registration Expiration Date:"; "Domain Expiration Date:";
              "Expires on:"; "Expiry date:" ]
            "2030-01-01T00:00:00Z" 1893456000000 _ _ _ _ _)).
  - reflexivity.
  - reflexivity.
  - intros q c [Hq | []] Hc. subst q. vm_compute in Hc. inversion Hc; subst.
    vm_compute. reflexivity.
  - vm_compute. reflexivity.
  - vm_compute. reflexivity.
Defined.

(** C8, the claim against the code: the same date, once from WHOIS and once
    from RDAP, gives the same result, so that nothing read off the result
    can tell the two sources apart. *)
Lemma result_carries_no_source_tag :
  let w := worldOf liveGlobals [] in
  let viaWhois := checkDomainExpiration hostWhoisAnswers "example.com" w in
  let viaRdap := checkDomainExpiration hostRateLimited "example.com" w in
  existsb isAxiosGet (trace (snd viaWhois)) = false
  /\ existsb isAxiosGet (trace (snd viaRdap)) = true
  /\ fst viaWhois = fst viaRdap
  /\ ~ exists sourceOf : Outcome JsDate -> Source,
         sourceOf (fst viaWhois) = Primary /\ sourceOf (fst viaRdap) = Fallback.
Proof.
  intros w viaWhois viaRdap.
  assert (Heq : fst viaWhois = fst viaRdap) by (vm_compute; reflexivity).
  split; [vm_compute; reflexivity |].
  split; [vm_compute; reflexivity |].
  split; [exact Heq |].
  intros [sourceOf [H1 H2]]. rewrite Heq in H1. rewrite H1 in H2. discriminate.
Qed.

(** C8, as the code has it: the result of a lookup is the bare [Date].  A
    date the label patterns gave is returned as it is and RDAP is not
    asked; when WHOIS gives null the result is the date of the first
    expiration event of the RDAP body, or the RDAP failure; an error of the
    WHOIS lookup is thrown on. *)
Theorem lookup_returns_bare_date (host : Host) (domain : string) (w : World) :
  let r := checkDomainExpiration host domain w in
  match checkWithWhois host domain w with
  | (Returns (Some d), w1) => r = (Returns d, w1)
  | (Returns None, w1) =>
      match axios_get host ("https://rdap.org/domain/" ++ domain) with
      | RdapBody events =>
          match rdapExpiry host events with
          | Some d => fst r = Returns d
          | None =>
              fst r = Throws (Error ("Domain expiration date couldn't be retrieved: "
                                     ++ "RDAP response did not contain expiration information"))
          end
      | RdapErr err =>
          fst r = Throws (Error ("Domain expiration date couldn't be retrieved: "
                                 ++ message err))
      end
  | (Throws e, w1) => r = (Throws e, w1)
  | (Pending, w1) => r = (Pending, w1)
  end.
Proof.
  intros r. subst r. rewrite checkDomainExpiration_cases.
  destruct (checkWithWhois host domain w) as [[[d |] | e | ] w1]; try reflexivity.
  rewrite checkWithRdap_cases.
  destruct (axios_get host ("https://rdap.org/domain/" ++ domain)) as [err | events];
    [reflexivity |].
  destruct (rdapExpiry host events); reflexivity.
Qed.

(** The first expiration event decides, also when it has no usable date
    and a later one has. *)
Example rdap_first_event_decides :
  rdapExpiry hostWhoisAnswers
    (Some [ {| eventAction := Some "expiration"; eventDate := None |};
            {| eventAction := Some "registrationExpiration";
               eventDate := Some "2030-01-01T00:00:00Z" |} ])
  = None.
Proof. vm_compute. reflexivity. Qed.

(* ------------------------------------------------------------------ *)
(** ** Scheduler *)

Lemma append_assoc (a b c : string) : ((a ++ b) ++ c = a ++ (b ++ c))%string.
Proof. induction a as [| x a IH]; simpl; [reflexivity | rewrite IH; reflexivity]. Qed.

Section SchedulerFacts.

Variable host : Host.

Lemma neverThrows_dispatch (text : string) :
  neverThrows (consoleLog text ;; sendWhatsAppMessage host text ;; ret tt).
Proof.
  apply neverThrows_bind; [apply neverThrows_emit | intros _].
  apply neverThrows_bind; [apply neverThrows_send | intros _; apply neverThrows_ret].
Qed.

(** The [if] chain of the startup run is the dispatch of the tier. *)
Lemma initial_chain (DOMAIN : string) (expireDate : JsDate) :
  (if dateBefore expireDate (now host) then
     consoleLog (expiredText DOMAIN) ;;
     sendWhatsAppMessage host (expiredText DOMAIN) ;; ret tt
   else if numberLe (daysUntilExpiry expireDate (now host)) 30 then
     consoleLog (warningText DOMAIN (daysUntilExpiry expireDate (now host))) ;;
     sendWhatsAppMessage host (warningText DOMAIN (daysUntilExpiry expireDate (now host))) ;;
     ret tt
   else
     consoleLog (infoText DOMAIN (daysUntilExpiry expireDate (now host))) ;;
     sendWhatsAppMessage host (infoText DOMAIN (daysUntilExpiry expireDate (now host))) ;;
     ret tt)
  = specDispatch host true DOMAIN (specTier expireDate (now host)).
Proof.
  destruct expireDate as [t |]; simpl; [| reflexivity].
  destruct (t <? now host) eqn:Elt; [reflexivity |].
  apply Z.ltb_ge in Elt.
  assert (H0 : (0 <=? (t - now host) / MS_PER_DAY) = true).
  { apply Z.leb_le. apply Z.div_pos; [lia | reflexivity]. }
  rewrite H0. simpl.
  destruct ((t - now host) / MS_PER_DAY <=? 30); reflexivity.
Qed.

(** The [if] chain of the daily run: the same without the last branch. *)
Lemma daily_chain (DOMAIN : string) (expireDate : JsDate) :
  (if dateBefore expireDate (now host) then
     consoleLog (expiredText DOMAIN) ;;
     sendWhatsAppMessage host (expiredText DOMAIN) ;; ret tt
   else if numberLe (daysUntilExpiry expireDate (now host)) 30 then
     consoleLog (warningText DOMAIN (daysUntilExpiry expireDate (now host))) ;;
     sendWhatsAppMessage host (warningText DOMAIN (daysUntilExpiry expireDate (now host))) ;;
     ret tt
   else ret tt)
  = specDispatch host false DOMAIN (specTier expireDate (now host)).
Proof.
  destruct expireDate as [t |]; simpl; [| reflexivity].
  destruct (t <? now host) eqn:Elt; [reflexivity |].
  apply Z.ltb_ge in Elt.
  assert (H0 : (0 <=? (t - now host) / MS_PER_DAY) = true).
  { apply Z.leb_le. apply Z.div_pos; [lia | reflexivity]. }
  rewrite H0. simpl.
  destruct ((t - now host) / MS_PER_DAY <=? 30); reflexivity.
Qed.

Lemma neverThrows_specDispatch (startupRun : bool) (DOMAIN : string) (tier : Tier) :
  neverThrows (specDispatch host startupRun DOMAIN tier).
Proof.
  destruct tier as [| days | days]; simpl; try apply neverThrows_dispatch.
  destruct startupRun; [apply neverThrows_dispatch | apply neverThrows_ret].
Qed.

End SchedulerFacts.

(** C3. Once the lookup has returned a date, both runs log it and classify
    it as the specification says: before now, the expired alert; otherwise
    a day count [floor((expiry - now) / 1 day)] from 0 to 30, the warning
    with the count in its text; otherwise the info message on the startup
    run and nothing on the daily run. *)
Theorem runs_classify_by_tier
    (host : Host) (DOMAIN : string) (expireDate : JsDate) (ws wd wI wD : World) :
  CHECK_DOMAIN host = Some DOMAIN ->
  Text.truthy DOMAIN = true ->
  checkDomainExpiration host DOMAIN
    (after ws (log ("🔍 Initial test: Checking domain " ++ DOMAIN ++ "...")))
    = (Returns expireDate, wI) ->
  checkDomainExpiration host DOMAIN
    (after wd (log ("🔍 Running daily WHOIS query for " ++ DOMAIN ++ "...")))
    = (Returns expireDate, wD) ->
  let tier := specTier expireDate (now host) in
  let dated := ConsoleLog [Str "📅 Expiration Date: "; ADate expireDate] in
  initialTest host DOMAIN ws = specDispatch host true DOMAIN tier (after wI dated)
  /\ dailyJob host wd = specDispatch host false DOMAIN tier (after wD dated)
  /\ (forall days, tier = TierInfo days -> dailyJob host wd = (Returns tt, after wD dated))
  /\ (forall days, tier = TierWarning days ->
      0 <= days <= 30
      /\ warningText DOMAIN (Some days)
         = ("⚠️ Warning: Domain " ++ DOMAIN ++ " will expire in ")
             ++ Text.ofZ days ++ " days!").
Proof.
  intros Hdom Htruthy HI HD tier dated. subst dated.
  assert (Hdaily : dailyJob host wd
                   = specDispatch host false DOMAIN tier
                       (after wD (ConsoleLog [Str "📅 Expiration Date: "; ADate expireDate]))).
  { subst tier. unfold dailyJob. rewrite Hdom, Htruthy.
    rewrite (bind_returns _ _ wd (after wd (log ("🔍 Running daily WHOIS query for " ++ DOMAIN ++ "..."))) tt eq_refl).
    rewrite (tryCatch_bind_returns _ _ _ _ wD expireDate HD).
    rewrite tryCatch_neverThrows.
    + exact (f_equal (fun m => m (after wD (ConsoleLog [Str "📅 Expiration Date: "; ADate expireDate])))
                     (daily_chain host DOMAIN expireDate)).
    + apply neverThrows_bind; [apply neverThrows_emit | intros _].
      cbv zeta. rewrite daily_chain. apply neverThrows_specDispatch. }
  split; [| split; [exact Hdaily | split]].
  - subst tier. unfold initialTest.
    rewrite (bind_returns _ _ ws (after ws (log ("🔍 Initial test: Checking domain " ++ DOMAIN ++ "..."))) tt eq_refl).
    rewrite (tryCatch_bind_returns _ _ _ _ wI expireDate HI).
    rewrite tryCatch_neverThrows.
    + exact (f_equal (fun m => m (after wI (ConsoleLog [Str "📅 Expiration Date: "; ADate expireDate])))
                     (initial_chain host DOMAIN expireDate)).
    + apply neverThrows_bind; [apply neverThrows_emit | intros _].
      cbv zeta. rewrite initial_chain. apply neverThrows_specDispatch.
  - intros days Htier. subst tier. rewrite Hdaily, Htier. reflexivity.
  - intros days Htier. subst tier. split; [| unfold warningText, numberText; rewrite !append_assoc; reflexivity].
    unfold specTier in Htier. destruct expireDate as [t |]; [| discriminate].
    destruct (t <? now host); [discriminate |].
    destruct ((0 <=? (t - now host) / MS_PER_DAY) && ((t - now host) / MS_PER_DAY <=? 30)) eqn:E;
      [| discriminate].
    inversion Htier; subst. apply andb_true_iff in E. destruct E as [E1 E2].
    apply Z.leb_le in E1. apply Z.leb_le in E2. lia.
Qed.

(** The startup run sends the info message, the daily run sends nothing:
    the domain expires on 2030-01-01 and it is 2024-02-01. *)
Lemma runs_classify_by_tier_witness :
  let w := worldOf liveGlobals [] in
  sends (snd (initialTest hostWhoisAnswers "example.com" w))
    = [SendMessage "905000000000@s.whatsapp.net"
                   (infoText "example.com" (Some 2161))]
  /\ sends (snd (dailyJob hostWhoisAnswers w)) = [].
Proof.
  intros w.
  destruct (runs_classify_by_tier hostWhoisAnswers "example.com" (DateMs 1893456000000) w w

              (snd (checkDomainExpiration hostWhoisAnswers "example.com"
                      (after w (log ("🔍 Initial test: Checking domain " ++ "example.com" ++ "...")))))
              (snd (checkDomainExpiration hostWhoisAnswers "example.com"
                      (after w (log ("🔍 Running daily WHOIS query for " ++ "example.com" ++ "...")))))
              eq_refl eq_refl)
    as [HI [HD _]].
  - vm_compute. reflexivity.
  - vm_compute. reflexivity.
  - rewrite HI, HD. vm_compute. split; reflexivity.
Defined.

(** The cases the specification lists: expiry 2024-01-01 seen on
    2024-02-01; expiry in ten days; expiry in ninety days. *)
Example tier_expired :
  specTier (IsoDate.parse "2024-01-01") 1706745600000 = TierExpired.
Proof. vm_compute. reflexivity. Qed.

Example tier_warning_ten_days :
  specTier (IsoDate.parse "2024-02-11T12:00:00Z") 1706745600000 = TierWarning 10
  /\ warningText "example.com" (Some 10)
     = "⚠️ Warning: Domain example.com will expire in 10 days!".
Proof. vm_compute. split; reflexivity. Qed.

Example tier_info_ninety_days :
  specTier (IsoDate.parse "2024-05-01") 1706745600000 = TierInfo (Some 90).
Proof. vm_compute. reflexivity. Qed.

(** A date that expires today is a warning with a count of 0. *)
Example tier_warning_today :
  specTier (DateMs 1706745600000) 1706745600000 = TierWarning 0.
Proof. vm_compute. reflexivity. Qed.

Example day_counts_as_text :
  numberText (Some 0) = "0" /\ numberText (Some 2161) = "2161"
  /\ numberText (Some (-3)) = "-3" /\ numberText None = "NaN".
Proof. vm_compute. repeat split; reflexivity. Qed.

(** An invalid [Date] handed on by the scan of the WHOIS answer falls into
    the info tier, its day count being NaN. *)
Example invalid_date_is_info :
  let host := hostWith (WhoisData "Expiration Date: not disclosed") (RdapBody None)
                       1706745600000 (Some "905000000000") in
  sends (snd (initialTest host "example.com" (worldOf liveGlobals [])))
  = [SendMessage "905000000000@s.whatsapp.net"
                 "ℹ️ Domain example.com will expire in NaN days."].
Proof. vm_compute. reflexivity. Qed.

(** C4, the claim against the code: with both protocols down the daily run
    does send an error report. *)
Lemma daily_run_reports_lookup_failure :
  sends (snd (dailyJob hostBothDown (worldOf liveGlobals [])))
  = [SendMessage "905000000000@s.whatsapp.net"
                 "Whois Bot Error: Error: connect ECONNREFUSED 192.0.2.1:43"].
Proof. vm_compute. reflexivity. Qed.

(** C4, as the code has it: when the lookup throws, the startup run and the
    daily run alike log the error and hand an error report to
    [sendWhatsAppMessage]; the startup run words it with the message of the
    error, the daily run with the error as a string. *)
Theorem both_runs_report_lookup_failure
    (host : Host) (DOMAIN : string) (error : JsError) (ws wd wI wD : World) :
  CHECK_DOMAIN host = Some DOMAIN ->
  Text.truthy DOMAIN = true ->
  checkDomainExpiration host DOMAIN
    (after ws (log ("🔍 Initial test: Checking domain " ++ DOMAIN ++ "...")))
    = (Throws error, wI) ->
  checkDomainExpiration host DOMAIN
    (after wd (log ("🔍 Running daily WHOIS query for " ++ DOMAIN ++ "...")))
    = (Throws error, wD) ->
  initialTest host DOMAIN ws
    = (sendWhatsAppMessage host ("Whois Bot Error: " ++ messageOrError error) ;; ret tt)
        (after wI (ConsoleError [Str "❌ Initial test error:"; Err error]))
  /\ dailyJob host wd

    = (sendWhatsAppMessage host ("Whois Bot Error: " ++ errorToString error) ;; ret tt)
        (after wD (ConsoleError [Str "❌ Error:"; Err error])).
Proof.
  intros Hdom Htruthy HI HD. split.
  - unfold initialTest.
    rewrite (bind_returns _ _ ws (after ws (log ("🔍 Initial test: Checking domain " ++ DOMAIN ++ "..."))) tt eq_refl).
    rewrite (tryCatch_bind_throws _ _ _ _ wI error HI). reflexivity.
  - unfold dailyJob. rewrite Hdom, Htruthy.
    rewrite (bind_returns _ _ wd (after wd (log ("🔍 Running daily WHOIS query for " ++ DOMAIN ++ "..."))) tt eq_refl).
    rewrite (tryCatch_bind_throws _ _ _ _ wD error HD). reflexivity.
Qed.

Lemma both_runs_report_lookup_failure_witness :
  let w := worldOf liveGlobals [] in
  sends (snd (initialTest hostBothDown "example.com" w))
    = [SendMessage "905000000000@s.whatsapp.net"
                   "Whois Bot Error: connect ECONNREFUSED 192.0.2.1:43"]
  /\ sends (snd (dailyJob hostBothDown w))
    = [SendMessage "905000000000@s.whatsapp.net"
                   "Whois Bot Error: Error: connect ECONNREFUSED 192.0.2.1:43"].
Proof.
  intros w.
  destruct (both_runs_report_lookup_failure hostBothDown "example.com"
              (Error "connect ECONNREFUSED 192.0.2.1:43") w w

              (snd (checkDomainExpiration hostBothDown "example.com"
                      (after w (log ("🔍 Initial test: Checking domain " ++ "example.com" ++ "...")))))
              (snd (checkDomainExpiration hostBothDown "example.com"
                      (after w (log ("🔍 Running daily WHOIS query for " ++ "example.com" ++ "...")))))
              eq_refl eq_refl)
    as [HI HD].
  - vm_compute. reflexivity.
  - vm_compute. reflexivity.
  - rewrite HI, HD. vm_compute. split; reflexivity.
Defined.

(* ------------------------------------------------------------------ *)
(** ** SessionManager *)

(** C5, the claim against the code: nothing happens until the global timer
    goes off; the session is not connected, and [startWhatsApp] neither
    fails nor returns. *)
Lemma global_timeout_leaves_connect_pending :
  let r := startWhatsApp hostWhoisAnswers (worldOf Session.initial [[GlobalTimerFired]]) in
  fst r = Pending
  /\ isConnected (globals (snd r)) = false
  /\ trace (snd r)
     = [MakeWASocket; SetTimeout 190000; log "⛔ WhatsApp connection timed out!"].
Proof. vm_compute. repeat split; reflexivity. Qed.

(** C5, as the code has it: the global timer is set to 3 x 60 s + 10 s.
    When it goes off it changes no global; it rejects the promise of
    [startWhatsApp], with the error "Maximum QR code attempts reached", when
    the session is not connected and the attempt counter has reached 3, and
    leaves the promise alone otherwise. *)
Theorem global_timer_rejects_only_at_cap (fresh : Sock) (g : Globals) :
  Session.GLOBAL_TIMEOUT_MS = 190000
  /\ existsb (fun e => match e with SetTimeout ms => ms =? 190000 | _ => false end)
             (snd (Session.prologue fresh g)) = true
  /\ fst (fst (Session.step fresh GlobalTimerFired g)) = g
  /\ Session.settleAll Unsettled (snd (Session.step fresh GlobalTimerFired g))
     = if negb (isConnected g) && (3 <=? qrRetryCount g)%nat
       then Rejected (Error "Maximum QR code attempts reached")
       else Unsettled.
Proof.
  split; [reflexivity | split; [| split]].
  - unfold Session.prologue. destruct (clearQrTimeout g) as [g1 e1]. simpl.
    rewrite List.existsb_app. simpl. apply orb_true_r.
  - simpl. unfold Session.onGlobalTimer.
    destruct (negb (isConnected g)); [destruct (QR_MAX_RETRY <=? qrRetryCount g)%nat |];
      reflexivity.
  - unfold Session.step, Session.onGlobalTimer. change QR_MAX_RETRY with 3%nat.
    destruct (negb (isConnected g)); [destruct (3 <=? qrRetryCount g)%nat |];
      reflexivity.
Qed.

(** The same with a network that keeps dropping the connection: every
    close is transient and followed by a reconnect, the counter stays at 0,
    and the timer only logs. *)
Example global_timeout_during_reconnects :
  let r := startWhatsApp hostWhoisAnswers
             (worldOf Session.initial
                [[ connectionClosed 503; ReconnectTimerFired;
                   connectionClosed 503; ReconnectTimerFired; GlobalTimerFired ]]) in
  fst r = Pending /\ qrRetryCount (globals (snd r)) = 0%nat.
Proof. vm_compute. split; reflexivity. Qed.

(** A close with the code of a logout or of a timeout fails the connect at
    once and schedules no reconnect. *)
Example terminal_close_rejects :
  let r := startWhatsApp hostWhoisAnswers
             (worldOf Session.initial [[connectionClosed 401]]) in
  fst r = Throws (Error "Connection closed with status code: 401")
  /\ existsb (fun e => match e with SetTimeout ms => ms =? 5000 | _ => false end)
             (trace (snd r)) = false.
Proof. vm_compute. split; reflexivity. Qed.

Example global_timer_at_cap :
  let r := startWhatsApp hostWhoisAnswers
             (worldOf Session.initial
                [[ qrOffered "ref-1"; QrTimerFired 0; qrOffered "ref-2"; QrTimerFired 1;
                   qrOffered "ref-3"; QrTimerFired 2; GlobalTimerFired ]]) in
  fst r = Throws (Error "Maximum QR code attempts reached").
Proof. vm_compute. reflexivity. Qed.




(** The counter never leaves the range, whatever the events. *)
Lemma counter_stays_in_range (fresh : Sock) (evs : list Event) :
  forall g, (qrRetryCount g <= QR_MAX_RETRY)%nat ->
            (qrRetryCount (fst (fst (Session.run fresh evs g))) <= QR_MAX_RETRY)%nat.
Proof.
  induction evs as [| ev evs IH]; intros g Hle; simpl; [exact Hle |].
  assert (H1 : (qrRetryCount (fst (fst (Session.step fresh ev g))) <= QR_MAX_RETRY)%nat).
  { destruct (keepsCounter ev) eqn:Ek.
    - pose proof (step_counts fresh ev g Ek Hle) as H.
      destruct (Session.step fresh ev g) as [[g1 e1] s1]. simpl. tauto.
    - destruct ev as [u | | id | | | usr | err | err]; simpl in Ek; try discriminate.
      + simpl. unfold Session.onConnectionUpdate.
        destruct (Session.onQr (qr u) g) as [g1 e1].
        unfold Session.onConnection.
        destruct (connection u) as [[ | | ] |]; try discriminate.
        pose proof (clearQrTimeout_count g1) as Hc.
        destruct (clearQrTimeout g1) as [g2 e2]. simpl. apply Nat.le_0_l.
      + simpl. unfold Session.onReconnectTimer.
        destruct (QR_MAX_RETRY <=? qrRetryCount g)%nat.
        * pose proof (clearQrTimeout_count (set_qrRetryCount O g)) as [Hc _].
          unfold Session.prologue.
          destruct (clearQrTimeout (set_qrRetryCount O g)) as [g1 e1]. simpl in *.
          rewrite Hc. apply Nat.le_0_l.
        * pose proof (clearQrTimeout_count g) as [Hc _].
          unfold Session.prologue.
          destruct (clearQrTimeout g) as [g1 e1]. simpl in *.
          rewrite Hc. exact Hle.
      + simpl. unfold Session.onReconnectAuthFailed.
        destruct (QR_MAX_RETRY <=? qrRetryCount g)%nat; simpl;
          [apply Nat.le_0_l | exact Hle].
      + simpl. unfold Session.onReconnectSocketFailed.
        destruct (QR_MAX_RETRY <=? qrRetryCount g)%nat.
        * pose proof (clearQrTimeout_count (set_qrRetryCount O g)) as [Hc _].
          destruct (clearQrTimeout (set_qrRetryCount O g)) as [g1 e1]. simpl in *.
          rewrite Hc. apply Nat.le_0_l.
        * pose proof (clearQrTimeout_count g) as [Hc _].
          destruct (clearQrTimeout g) as [g1 e1]. simpl in *.
          rewrite Hc. exact Hle. }
  destruct (Session.step fresh ev g) as [[g1 e1] s1]. simpl in H1.
  specialize (IH g1 H1).
  destruct (Session.run fresh evs g1) as [[g2 e2] s2]. simpl in *. exact IH.
Qed.

(** The report that the connection is open does all three: the challenge
    timer is cleared, the counter is 0, the flag is set. *)
Lemma open_clears_resets_sets (fresh : Sock) (g : Globals) :
  let g' := fst (fst (Session.step fresh connectionOpen g)) in
  qrTimeout g' = None
  /\ (forall id, qrTimeout g = Some id -> ~ In id (timers g'))
  /\ qrRetryCount g' = O
  /\ isConnected g' = true.
Proof.
  simpl. unfold Session.onConnectionUpdate, Session.onQr, Session.onConnection. simpl.
  unfold clearQrTimeout. destruct (qrTimeout g) as [id |] eqn:E; simpl.
  - split; [reflexivity | split; [| split; reflexivity]].
    intros id' Hid. inversion Hid; subst.
    intros Hin. apply List.filter_In in Hin. destruct Hin as [_ Hin].
    rewrite Nat.eqb_refl in Hin. discriminate.
  - split; [exact E | split; [| split; reflexivity]].
    intros id Hid. discriminate.
Qed.

(** The message event on a session that is not marked live sets the flag
    and resolves, and that is all it does. *)
Lemma message_event_only_sets_flag (fresh : Sock) (g : Globals) :
  isConnected g = false ->
  Session.step fresh MessagesUpsert g
  = (set_isConnected true g, [log "Message received, connection active"],
     [Resolve (sock g)]).
Proof.
  intros H. unfold Session.step, Session.onMessagesUpsert. rewrite H. reflexivity.
Qed.

(** C7, at the input where the code and the claim part: a second challenge
    is on display, its timer armed, when a message event arrives on the
    session that is not marked live.  The flag is set and the promise
    resolved, but the timer stays armed and the counter stays at 2; the
    report that the connection is open, in the same state, clears the one
    and resets the other. *)
Theorem message_event_keeps_timer_and_counter :
  let fresh := {| user := None |} in
  let g := fst (fst (Session.run fresh [qrOffered "ref-1"; QrTimerFired 0; qrOffered "ref-2"]
                       (fst (Session.prologue fresh Session.initial)))) in
  let viaMessage := Session.step fresh MessagesUpsert g in
  let viaOpen := Session.step fresh connectionOpen g in
  (isConnected g = false /\ qrRetryCount g = 2%nat
   /\ qrTimeout g = Some 1%nat /\ timers g = [1%nat])
  /\ (isConnected (fst (fst viaMessage)) = true
      /\ snd viaMessage = [Resolve (Some fresh)]
      /\ qrRetryCount (fst (fst viaMessage)) = 2%nat
      /\ qrTimeout (fst (fst viaMessage)) = Some 1%nat
      /\ timers (fst (fst viaMessage)) = [1%nat])
  /\ (isConnected (fst (fst viaOpen)) = true
      /\ snd viaOpen = [Resolve (Some fresh)]
      /\ qrRetryCount (fst (fst viaOpen)) = 0%nat
      /\ qrTimeout (fst (fst viaOpen)) = None
      /\ timers (fst (fst viaOpen)) = []).
Proof. vm_compute. repeat split; reflexivity. Qed.

(* ------------------------------------------------------------------ *)
(** ** Further properties: the label patterns *)

Lemma suffixOf_refl (s : string) : suffixOf s s.
Proof. exists EmptyString. reflexivity. Qed.

Lemma suffixOf_cons (a : ascii) (t s : string) : suffixOf t s -> suffixOf t (String a s).
Proof. intros [pre H]. exists (String a pre). simpl. rewrite H. reflexivity. Qed.

Lemma suffixOf_trans (a b c : string) : suffixOf a b -> suffixOf b c -> suffixOf a c.
Proof.
  intros [p1 H1] [p2 H2]. exists (p2 ++ p1). rewrite H2, H1.
  symmetry. apply append_assoc.
Qed.

(** What follows a label is the rest of the text. *)
Lemma stripLabel_suffix (l : string) :
  forall s r, Regex.stripLabel l s = Some r -> suffixOf r s.
Proof.
  induction l as [| a l IH]; intros s r H; simpl in H.
  - inversion H; subst. apply suffixOf_refl.
  - destruct s as [| b s]; [discriminate |].
    destruct (Ascii.eqb (Text.canonicalize a) (Text.canonicalize b)); [| discriminate].
    apply suffixOf_cons. apply IH. exact H.
Qed.

(** A label that ends in another: where the longer one matches, the
    shorter one matches further on, with the same rest. *)
Lemma stripLabel_app (p l : string) :
  forall s r, Regex.stripLabel (p ++ l) s = Some r ->
              exists s', suffixOf s' s /\ Regex.stripLabel l s' = Some r.
Proof.
  induction p as [| a p IH]; intros s r H; simpl in H.
  - exists s. split; [apply suffixOf_refl | exact H].
  - destruct s as [| b s]; [discriminate |].
    destruct (Ascii.eqb (Text.canonicalize a) (Text.canonicalize b)); [| discriminate].
    destruct (IH s r H) as [s' [Hs Hl]].
    exists s'. split; [apply suffixOf_cons; exact Hs | exact Hl].
Qed.

(** Two labels that the [i] flag cannot tell apart match alike. *)
Lemma stripLabel_canonical (l : string) :
  forall l' s, canonical l = canonical l' -> Regex.stripLabel l s = Regex.stripLabel l' s.
Proof.
  induction l as [| a l IH]; intros l' s H; destruct l' as [| a' l']; simpl in H;
    try discriminate.
  - reflexivity.
  - inversion H as [[Ha Hl]]. simpl. destruct s as [| b s]; [reflexivity |].
    rewrite Ha. rewrite (IH l' s Hl). reflexivity.
Qed.

Lemma exec_inv (l : string) :
  forall s c, Regex.exec l s = Some c ->
              exists s', suffixOf s' s /\ Regex.matchAt l s' = Some c.
Proof.
  induction s as [| a s IH]; intros c H; simpl in H.
  - destruct (Regex.matchAt l EmptyString) as [c0 |] eqn:E; [| discriminate].
    inversion H; subst. exists EmptyString. split; [apply suffixOf_refl | exact E].
  - destruct (Regex.matchAt l (String a s)) as [c0 |] eqn:E.
    + inversion H; subst. exists (String a s). split; [apply suffixOf_refl | exact E].
    + destruct (IH c H) as [s' [Hs Hm]].
      exists s'. split; [apply suffixOf_cons; exact Hs | exact Hm].
Qed.

Lemma exec_of_suffix (l : string) (s' : string) (c : string) :
  Regex.matchAt l s' = Some c ->
  forall s, suffixOf s' s -> exists c', Regex.exec l s = Some c'.
Proof.
  intros Hm s [pre Hs]. subst s. induction pre as [| a pre IH]; simpl.
  - destruct s' as [| b s']; simpl; rewrite Hm; exists c; reflexivity.
  - destruct (Regex.matchAt l (String a (pre ++ s'))) as [c0 |].
    + exists c0. reflexivity.
    + exact IH.
Qed.

(** A pattern whose label ends, up to case, in the label of another: every
    text it matches is matched by the other. *)
Lemma exec_label_suffix (p l1 l2 : string) (data c : string) :
  canonical l2 = canonical (p ++ l1) ->
  Regex.exec l2 data = Some c ->
  exists c', Regex.exec l1 data = Some c'.
Proof.
  intros Hl H.
  destruct (exec_inv l2 data c H) as [s' [Hs Hm]].
  unfold Regex.matchAt in Hm.
  rewrite (stripLabel_canonical l2 (p ++ l1) s' Hl) in Hm.
  destruct (Regex.stripLabel (p ++ l1) s') as [r |] eqn:E; [| discriminate].
  destruct (stripLabel_app p l1 s' r E) as [s'' [Hs'' Hl1]].
  apply (exec_of_suffix l1 s'' c).
  - unfold Regex.matchAt. rewrite Hl1. exact Hm.
  - apply (suffixOf_trans s'' s' data); assumption.
Qed.

(** X1. The registrar pattern and the domain pattern match no text that the
    generic pattern, tried before them, does not match too; and the registry
    pattern matches no text that the last pattern, [Expiry date:], does not
    match. *)
Theorem generic_pattern_shadows_longer_labels (data c : string) (p : string) :
  In p [ "Registrar Registration Expiration Date:"; "Domain Expiration Date:";
         "Registry Expiry Date:" ] ->
  Regex.exec p data = Some c ->
  In p expiryPatterns
  /\ exists q c', In q expiryPatterns
                  /\ q = (if String.eqb p "Registry Expiry Date:"
                          then "Expiry date:" else "Expiration Date:")
                  /\ Regex.exec q data = Some c'.
Proof.
  intros Hp H. simpl in Hp.
  destruct Hp as [Hp | [Hp | [Hp | []]]]; subst p.
  - split; [simpl; tauto |].
    destruct (exec_label_suffix "Registrar Registration " "Expiration Date:"
                "Registrar Registration Expiration Date:" data c eq_refl H) as [c' Hc'].
    exists "Expiration Date:", c'. split; [simpl; tauto | split; [reflexivity | exact Hc']].
  - split; [simpl; tauto |].
    destruct (exec_label_suffix "Domain " "Expiration Date:" "Domain Expiration Date:"
                data c eq_refl H)
      as [c' Hc'].
    exists "Expiration Date:", c'. split; [simpl; tauto | split; [reflexivity | exact Hc']].
  - split; [simpl; tauto |].
    destruct (exec_label_suffix "Registry " "Expiry date:" "Registry Expiry Date:"
                data c eq_refl H)
      as [c' Hc'].
    exists "Expiry date:", c'. split; [simpl; tauto | split; [reflexivity | exact Hc']].
Qed.

Lemma generic_pattern_shadows_longer_labels_witness :
  exists q c', In q expiryPatterns
               /\ q = "Expiration Date:"
               /\ Regex.exec q ("Domain Expiration Date: 2030-01-01" ++ LF) = Some c'.
Proof.
  destruct (generic_pattern_shadows_longer_labels
              ("Domain Expiration Date: 2030-01-01" ++ LF) "2030-01-01"
              "Domain Expiration Date:") as [_ H].
  - simpl. tauto.
  - vm_compute. reflexivity.
  - exact H.
Defined.

Lemma lineTerminator_is_whiteSpace (a : ascii) :
  Text.isLineTerminator a = true -> Text.isWhiteSpace a = true.
Proof.
  unfold Text.isLineTerminator, Text.isWhiteSpace. intros H.
  apply orb_true_iff in H. destruct H as [H | H]; apply Nat.eqb_eq in H; rewrite H;
    reflexivity.
Qed.

Lemma restOfLine_singleLine (s : string) : singleLine (Regex.restOfLine s) = true.
Proof.
  induction s as [| a s IH]; simpl; [reflexivity |].
  destruct (Text.isLineTerminator a) eqn:E; simpl; [reflexivity |].
  rewrite E, IH. reflexivity.
Qed.

Lemma restOfLine_prefix (s : string) : exists post, s = Regex.restOfLine s ++ post.
Proof.
  induction s as [| a s [post IH]]; simpl.
  - exists EmptyString. reflexivity.
  - destruct (Text.isLineTerminator a).
    + exists (String a s). reflexivity.
    + exists post. simpl. rewrite <- IH. reflexivity.
Qed.

(** The group starts at a code unit that is no line terminator and runs to
    the end of its line. *)
Lemma spacesThenGroup_inv :
  forall r c, Regex.spacesThenGroup r = Some c ->
              exists x t, suffixOf (String x t) r
                          /\ Text.isLineTerminator x = false
                          /\ c = Regex.restOfLine (String x t).
Proof.
  induction r as [| a r IH]; intros c H; cbn [Regex.spacesThenGroup] in H;
    [discriminate |].
  destruct (Text.isWhiteSpace a) eqn:Ew.
  - destruct (Regex.spacesThenGroup r) as [cap |] eqn:Er.
    + inversion H; subst. destruct (IH c eq_refl) as [x [t [Hs [Hx Hc]]]].
      exists x, t. split; [apply suffixOf_cons; exact Hs | split; assumption].
    + destruct (Text.isLineTerminator a) eqn:El; [discriminate |].
      inversion H; subst. exists a, r.
      split; [apply suffixOf_refl | split; [exact El | reflexivity]].
  - inversion H; subst. exists a, r.
    split; [apply suffixOf_refl | split; [| reflexivity]].
    destruct (Text.isLineTerminator a) eqn:El; [| reflexivity].
    rewrite (lineTerminator_is_whiteSpace a El) in Ew. discriminate.
Qed.

(** X2. What a label pattern captures, and [new Date] is given after
    trimming, is never empty, holds no line terminator, and is a piece of
    the response. *)
Theorem capture_is_piece_of_one_line (label data c : string) :
  Regex.exec label data = Some c ->
  c <> EmptyString /\ singleLine c = true /\ pieceOf c data.
Proof.
  intros H.
  destruct (exec_inv label data c H) as [s' [Hs Hm]].
  unfold Regex.matchAt in Hm.
  destruct (Regex.stripLabel label s') as [r |] eqn:Er; [| discriminate].
  destruct (spacesThenGroup_inv r c Hm) as [x [t [Hxt [Hx Hc]]]].
  split; [| split].
  - rewrite Hc. simpl. rewrite Hx. discriminate.
  - rewrite Hc. apply restOfLine_singleLine.
  - pose proof (stripLabel_suffix label s' r Er) as Hr.
    destruct (suffixOf_trans _ _ _ (suffixOf_trans _ _ _ Hxt Hr) Hs) as [pre Hpre].
    destruct (restOfLine_prefix (String x t)) as [post Hpost].
    exists pre, post. rewrite Hpre. rewrite <- Hc in Hpost. rewrite Hpost at 1.
    reflexivity.
Qed.

Lemma capture_is_piece_of_one_line_witness :
  "2030-01-02T03:04:05Z  " <> EmptyString
  /\ singleLine "2030-01-02T03:04:05Z  " = true
  /\ pieceOf "2030-01-02T03:04:05Z  " whoisVerisign.
Proof.
  apply (capture_is_piece_of_one_line "Registry Expiry Date:" whoisVerisign).
  vm_compute. reflexivity.
Defined.

(** With captures that are all invalid dates the loop never makes
    [expiryDate] valid, and never sets it back to null. *)
Lemma scan_keeps_invalid (newDate : string -> JsDate) (data : string) :
  forall patterns d,
    (forall q c, In q patterns -> Regex.exec q data = Some c ->
                 validDate (newDate (Text.trim c)) = false) ->
    validDate d = false ->
    exists d', scanPatterns newDate patterns data (Some d) = Some d'
               /\ validDate d' = false.
Proof.
  induction patterns as [| q patterns IH]; intros d Hall Hd; simpl.
  - exists d. split; [reflexivity | exact Hd].
  - assert (Hrest : forall q' c', In q' patterns -> Regex.exec q' data = Some c' ->
                                  validDate (newDate (Text.trim c')) = false)
      by (intros q' c' Hin; apply Hall; right; exact Hin).
    destruct (Regex.exec q data) as [c |] eqn:E.
    + rewrite (Hall q c (or_introl eq_refl) E).
      apply IH; [exact Hrest | apply (Hall q c (or_introl eq_refl) E)].
    + apply IH; assumption.
Qed.

Lemma scan_matched_all_invalid (newDate : string -> JsDate) (data : string) :
  forall patterns acc q c,
    (forall q c, In q patterns -> Regex.exec q data = Some c ->
                 validDate (newDate (Text.trim c)) = false) ->
    In q patterns ->
    Regex.exec q data = Some c ->
    exists d, scanPatterns newDate patterns data acc = Some d /\ validDate d = false.
Proof.
  induction patterns as [| q0 patterns IH]; intros acc q c Hall Hin Hq; simpl.
  - destruct Hin.
  - assert (Hrest : forall q' c', In q' patterns -> Regex.exec q' data = Some c' ->
                                  validDate (newDate (Text.trim c')) = false)
      by (intros q' c' Hin'; apply Hall; right; exact Hin').
    destruct (Regex.exec q0 data) as [c0 |] eqn:E.
    + rewrite (Hall q0 c0 (or_introl eq_refl) E).
      apply scan_keeps_invalid; [exact Hrest | apply (Hall q0 c0 (or_introl eq_refl) E)].
    + destruct Hin as [Heq | Hin]; [subst q0; rewrite Hq in E; discriminate |].
      apply (IH acc q c Hrest Hin Hq).
Qed.

(** X3. When the WHOIS response is not rate-limited (it does not hold the
    words "Rate limit exceeded"), some label pattern matches it and no
    capture is a valid date, [checkDomainExpiration] returns the invalid
    [Date] the loop left behind: the object is truthy, so the lookup counts
    as done and RDAP is not asked.  (A rate-limited response is not scanned
    at all and goes to RDAP.) *)
Theorem unparseable_whois_date_is_returned
    (host : Host) (domain data : string) (w : World) (q c : string) :
  whois_lookup host domain = WhoisData data ->
  rateLimited data = false ->
  (forall q c, In q expiryPatterns -> Regex.exec q data = Some c ->
               validDate (newDate host (Text.trim c)) = false) ->
  In q expiryPatterns ->
  Regex.exec q data = Some c ->
  checkDomainExpiration host domain w = (Returns InvalidDate, whoisAnswered host domain w).
Proof.
  intros Hdata Hrate Hall Hin Hq.
  destruct (scan_matched_all_invalid (newDate host) data expiryPatterns None q c Hall Hin Hq)
    as [d [Hscan Hd]].
  rewrite checkDomainExpiration_cases, checkWithWhois_cases, Hdata, Hrate, Hscan.
  destruct d; [discriminate | reflexivity].
Qed.

Lemma unparseable_whois_date_is_returned_witness :
  let host := hostWith (WhoisData "Expiration Date: not disclosed")
                       (rdapExpiring "2030-01-01T00:00:00Z") 0 None in
  let w := worldOf liveGlobals [] in
  checkDomainExpiration host "example.com" w
  = (Returns InvalidDate, whoisAnswered host "example.com" w).
Proof.
  intros host w.
  apply (unparseable_whois_date_is_returned host "example.com"
           "Expiration Date: not disclosed" w "Expiration Date:" "not disclosed").
  - reflexivity.
  - vm_compute. reflexivity.
  - intros q c Hin Hq. simpl in Hin.
    destruct Hin as [H | [H | [H | [H | [H | [H | []]]]]]]; subst q;
      vm_compute in Hq; inversion Hq; subst; vm_compute; reflexivity.
  - simpl. tauto.
  - vm_compute. reflexivity.
Defined.

(** X4. Three patterns decide whether the scan finds anything: when the
    generic pattern, [Expires on:] and [Expiry date:] match nothing, no
    pattern does; the response is logged, WHOIS counts as failed and the
    lookup goes on with RDAP. *)
Theorem unmatched_whois_goes_to_rdap
    (host : Host) (domain data : string) (w : World) :
  whois_lookup host domain = WhoisData data ->
  rateLimited data = false ->
  Regex.exec "Expiration Date:" data = None ->
  Regex.exec "Expires on:" data = None ->
  Regex.exec "Expiry date:" data = None ->
  checkWithWhois host domain w
  = (Returns None,
     after (whoisAnswered host domain w) (ConsoleLog [Str "WHOIS response:"; Str data]))
  /\ checkDomainExpiration host domain w
     = checkWithRdap host domain
         (after (after (whoisAnswered host domain w)
                       (ConsoleLog [Str "WHOIS response:"; Str data]))
                (log "WHOIS failed, trying RDAP instead...")).
Proof.
  intros Hdata Hrate Hgen Hon Hexp.
  assert (Hnone : forall q, In q expiryPatterns -> Regex.exec q data = None).
  { intros q Hin. destruct (Regex.exec q data) as [c |] eqn:E; [| reflexivity].
    simpl in Hin.
    destruct Hin as [H | [H | [H | [H | [H | [H | []]]]]]]; subst q;
      try congruence.
    - destruct (exec_label_suffix "Registry " "Expiry date:" "Registry Expiry Date:"
                  data c eq_refl E) as [c' Hc']. congruence.
    - destruct (exec_label_suffix "Registrar Registration " "Expiration Date:"
                  "Registrar Registration Expiration Date:" data c eq_refl E)
        as [c' Hc']. congruence.
    - destruct (exec_label_suffix "Domain " "Expiration Date:" "Domain Expiration Date:"
                  data c eq_refl E) as [c' Hc']. congruence. }
  assert (Hw : checkWithWhois host domain w
               = (Returns None,
                  after (whoisAnswered host domain w)
                        (ConsoleLog [Str "WHOIS response:"; Str data]))).
  { rewrite checkWithWhois_cases, Hdata, Hrate.
    rewrite (scanPatterns_no_match (newDate host) data expiryPatterns None Hnone).
    reflexivity. }
  split; [exact Hw |].
  rewrite checkDomainExpiration_cases, Hw. reflexivity.
Qed.

Lemma unmatched_whois_goes_to_rdap_witness :
  let host := hostWith (WhoisData "No match for domain EXAMPLE.COM")
                       (rdapExpiring "2030-01-01T00:00:00Z") 0 None in
  let w := worldOf liveGlobals [] in
  fst (checkWithWhois host "example.com" w) = Returns None
  /\ fst (checkDomainExpiration host "example.com" w) = Returns (DateMs 1893456000000).
Proof.
  intros host w.
  destruct (unmatched_whois_goes_to_rdap host "example.com"
              "No match for domain EXAMPLE.COM" w) as [H1 H2];
    try (vm_compute; reflexivity).
  split; [rewrite H1; reflexivity | rewrite H2; vm_compute; reflexivity].
Defined.

(* ------------------------------------------------------------------ *)
(** ** Further properties: effects of one kind *)

Lemma picked_after (P : Effect -> bool) (w : World) (e : Effect) :
  picked P (after w e) = (picked P w ++ if P e then [e] else [])%list.
Proof.
  unfold picked, after. simpl. rewrite List.filter_app. simpl.
  destruct (P e); reflexivity.
Qed.

Lemma filter_fromSession (P : Effect -> bool) (effs : list Effect) :
  notOfSession P -> forallb fromSession effs = true -> List.filter P effs = [].
Proof.
  intros HP. induction effs as [| e effs IH]; intros H; simpl in *; [reflexivity |].
  apply andb_true_iff in H. destruct H as [He H].
  destruct (P e) eqn:E.
  - rewrite (HP e E) in He. discriminate.
  - apply IH. exact H.
Qed.

Lemma avoids_ret {A} (P : Effect -> bool) (a : A) : avoids P (ret a).
Proof. intros w. reflexivity. Qed.

Lemma avoids_throw {A} (P : Effect -> bool) (e : JsError) : avoids P (@throw A e).
Proof. intros w. reflexivity. Qed.

Lemma avoids_getGlobals (P : Effect -> bool) : avoids P getGlobals.
Proof. intros w. reflexivity. Qed.

Lemma avoids_assignSock (P : Effect -> bool) (s : option Sock) : avoids P (assignSock s).
Proof. intros w. reflexivity. Qed.

Lemma avoids_emit (P : Effect -> bool) (e : Effect) : P e = false -> avoids P (emit e).
Proof.
  intros H w. change (snd (emit e w)) with (after w e).
  rewrite picked_after, H. apply List.app_nil_r.
Qed.

Lemma avoids_consoleLog (P : Effect -> bool) (s : string) :
  P (log s) = false -> avoids P (consoleLog s).
Proof. apply avoids_emit. Qed.

Lemma avoids_bind {A B} (P : Effect -> bool) (m : M A) (k : A -> M B) :
  avoids P m -> (forall a, avoids P (k a)) -> avoids P (bind m k).
Proof.
  intros Hm Hk w. unfold bind. specialize (Hm w).
  destruct (m w) as [[a | e |] w1]; simpl in *; try exact Hm.
  rewrite (Hk a w1). exact Hm.
Qed.

Lemma avoids_tryCatch {A} (P : Effect -> bool) (m : M A) (h : JsError -> M A) :
  avoids P m -> (forall e, avoids P (h e)) -> avoids P (tryCatch m h).
Proof.
  intros Hm Hh w. unfold tryCatch. specialize (Hm w).
  destruct (m w) as [[a | e |] w1]; simpl in *; try exact Hm.
  rewrite (Hh e w1). exact Hm.
Qed.

Lemma avoids_deliver (host : Host) (P : Effect -> bool) :
  notOfSession P -> avoids P (deliver host).
Proof.
  intros HP w. unfold deliver, picked.
  pose proof (run_fromSession (freshSock host) (hd [] (feed w)) (globals w)) as H.
  destruct (Session.run (freshSock host) (hd [] (feed w)) (globals w)) as [[g1 e1] s1].
  simpl in *. rewrite List.filter_app, (filter_fromSession P e1 HP H).
  apply List.app_nil_r.
Qed.

Lemma avoids_startWhatsApp (host : Host) (P : Effect -> bool) :
  notOfSession P -> avoids P (startWhatsApp host).
Proof.
  intros HP w. unfold startWhatsApp, picked.
  destruct (useMultiFileAuthState host) as [| err]; [| reflexivity].
  destruct (makeWASocket host) as [fresh | err].
  - pose proof (prologue_fromSession fresh (globals w)) as Hp.
    destruct (Session.prologue fresh (globals w)) as [g1 e1]. simpl in Hp.
    pose proof (runUntilSettled_fromSession fresh (hd [] (feed w)) g1) as Hr.
    destruct (Session.runUntilSettled fresh (hd [] (feed w)) g1)
      as [[g2 p] e2]. simpl in Hr.
    destruct p; simpl;
      rewrite !List.filter_app, (filter_fromSession P e1 HP Hp),
        (filter_fromSession P e2 HP Hr), !List.app_nil_r; reflexivity.
  - pose proof (clearQrTimeout_fromSession (globals w)) as Hc.
    destruct (clearQrTimeout (globals w)) as [g1 e1]. simpl in *.
    rewrite !List.filter_app, (filter_fromSession P e1 HP Hc),
      (filter_fromSession P [MakeWASocket] HP eq_refl), !List.app_nil_r.
    reflexivity.
Qed.

Lemma notOfSession_isSend : notOfSession isSend.
Proof. intros e H. destruct e; try discriminate. reflexivity. Qed.

Lemma notOfSession_isLookup : notOfSession isLookup.
Proof. intros e H. destruct e; try discriminate; reflexivity. Qed.

Lemma notOfSession_isScheduleJob : notOfSession isScheduleJob.
Proof. intros e H. destruct e; try discriminate. reflexivity. Qed.

(** A wait: a timer, then the handlers. *)
Lemma avoids_sleep (host : Host) (P : Effect -> bool) (ms : Z) :
  notOfSession P -> P (SetTimeout ms) = false -> avoids P (sleep host ms).
Proof.
  intros HP Ht. unfold sleep. apply avoids_bind.
  - apply avoids_emit. exact Ht.
  - intros _. apply avoids_deliver. exact HP.
Qed.

Lemma avoids_ensureLoop (host : Host) (P : Effect -> bool) (maxRetries : nat) :
  notOfSession P -> (forall args, P (ConsoleLog args) = false) ->
  (forall ms, P (SetTimeout ms) = false) ->
  forall todo retries, avoids P (ensureLoop host todo retries maxRetries).
Proof.
  intros HP Hlog Ht. induction todo as [| todo IH]; intros retries; simpl.
  - apply avoids_bind; [apply avoids_getGlobals | intros g; apply avoids_ret].
  - apply avoids_bind; [apply avoids_getGlobals | intros g].
    destruct (live g); [apply avoids_ret |].
    apply avoids_bind; [apply avoids_emit; apply Hlog | intros _].
    apply avoids_bind; [| intros _; apply IH].
    destruct (noConnection g); [| apply avoids_ret].
    apply avoids_bind; [apply avoids_emit; apply Hlog | intros _].
    apply avoids_bind; [apply avoids_startWhatsApp; exact HP | intros s].
    apply avoids_bind; [apply avoids_assignSock | intros _].
    apply avoids_sleep; [exact HP | apply Ht].
Qed.

(* ------------------------------------------------------------------ *)
(** ** Further properties: the RDAP lookup and the lookups of a resolve *)

Lemma rdapExpiry_valid (host : Host) (events : option (list RdapEvent)) (d : JsDate) :
  rdapExpiry host events = Some d -> validDate d = true.
Proof.
  unfold rdapExpiry. destruct events as [evs |]; [| discriminate].
  destruct (find isExpirationEvent evs) as [ev |]; [| discriminate].
  destruct (eventDate ev) as [s |]; [| discriminate].
  destruct (Text.truthy s && validDate (newDate host s)) eqn:E; [| discriminate].
  intros H. inversion H; subst. apply andb_true_iff in E. tauto.
Qed.

Lemma checkWithRdap_outcome (host : Host) (domain : string) (w : World) :
  match checkWithRdap host domain w with
  | (Returns d, w1) => validDate d = true /\ w1 = rdapAnswered host domain w
  | (Throws e, w1) =>
      exists m, e = Error (RDAP_PREFIX ++ m)
                /\ w1 = after (rdapAnswered host domain w)
                              (ConsoleError [Str "RDAP error:"; Str m])
  | (Pending, _) => False
  end.
Proof.
  rewrite checkWithRdap_cases.
  destruct (axios_get host ("https://rdap.org/domain/" ++ domain)) as [err | events].
  - exists (message err). split; reflexivity.
  - destruct (rdapExpiry host events) as [d |] eqn:E.
    + split; [apply (rdapExpiry_valid host events d E) | reflexivity].
    + exists "RDAP response did not contain expiration information".
      split; reflexivity.
Qed.

(** X5. [checkWithRdap] always settles once the response is in: it returns
    a valid date, or it logs the cause and throws one error, whose message
    is the cause behind the words "Domain expiration date couldn't be
    retrieved: ". *)
Theorem checkWithRdap_valid_or_wrapped (host : Host) (domain : string) (w : World) :
  match checkWithRdap host domain w with
  | (Returns d, w1) => validDate d = true /\ w1 = rdapAnswered host domain w
  | (Throws e, w1) =>
      exists m, e = Error (RDAP_PREFIX ++ m)
                /\ w1 = after (rdapAnswered host domain w)
                              (ConsoleError [Str "RDAP error:"; Str m])
  | (Pending, _) => False
  end.
Proof. exact (checkWithRdap_outcome host domain w). Qed.

Lemma find_first_match {A} (f : A -> bool) (pre : list A) (x : A) (post : list A) :
  (forall y, In y pre -> f y = false) -> f x = true ->
  List.find f (pre ++ x :: post)%list = Some x.
Proof.
  intros Hpre Hx. induction pre as [| y pre IH]; simpl.
  - rewrite Hx. reflexivity.
  - rewrite (Hpre y (or_introl eq_refl)). apply IH.
    intros z Hz. apply Hpre. right. exact Hz.
Qed.

(** X6. In the [events] of an RDAP body the first event whose action is
    [expiration] or [registrationExpiration] decides alone: the events
    before it and after it do not count, and when it has no date the body
    holds no expiry, whatever later events say. *)
Theorem first_expiration_event_decides
    (host : Host) (pre : list RdapEvent) (ev : RdapEvent) (post : list RdapEvent) :
  (forall e, In e pre -> isExpirationEvent e = false) ->
  isExpirationEvent ev = true ->
  rdapExpiry host (Some (pre ++ ev :: post)%list) = rdapExpiry host (Some [ev])
  /\ (eventDate ev = None -> rdapExpiry host (Some (pre ++ ev :: post)%list) = None)
  /\ (forall s, eventDate ev = Some s -> validDate (newDate host s) = false ->
                rdapExpiry host (Some (pre ++ ev :: post)%list) = None).
Proof.
  intros Hpre Hev.
  assert (H : rdapExpiry host (Some (pre ++ ev :: post)%list) = rdapExpiry host (Some [ev])).
  { unfold rdapExpiry. rewrite (find_first_match _ pre ev post Hpre Hev).
    simpl. rewrite Hev. reflexivity. }
  split; [exact H | split].
  - intros Hd. rewrite H. unfold rdapExpiry. simpl. rewrite Hev, Hd. reflexivity.
  - intros s Hd Hs. rewrite H. unfold rdapExpiry. simpl. rewrite Hev, Hd, Hs.
    rewrite andb_false_r. reflexivity.
Qed.

Lemma first_expiration_event_decides_witness :
  rdapExpiry hostWhoisAnswers
    (Some ([ {| eventAction := Some "registration"; eventDate := Some "1995-08-14T04:00:00Z" |} ]
           ++ {| eventAction := Some "expiration"; eventDate := None |}
           :: [ {| eventAction := Some "registrationExpiration";
                   eventDate := Some "2030-01-01T00:00:00Z" |} ])%list)
  = None.
Proof.
  refine (proj1 (proj2 (first_expiration_event_decides hostWhoisAnswers _ _ _ _ _)) _).
  - intros e [He | []]. subst e. reflexivity.
  - reflexivity.
  - reflexivity.
Defined.

Lemma picked_whoisAnswered (host : Host) (P : Effect -> bool) (domain : string) (w : World) :
  notOfSession P ->
  picked P (whoisAnswered host domain w)
  = (picked P w ++ if P (WhoisLookup domain) then [WhoisLookup domain] else [])%list.
Proof.
  intros HP. unfold whoisAnswered. rewrite (avoids_deliver host P HP).
  apply picked_after.
Qed.

Lemma picked_rdapAnswered (host : Host) (P : Effect -> bool) (domain : string) (w : World) :
  notOfSession P -> (forall args, P (ConsoleLog args) = false) ->
  picked P (rdapAnswered host domain w)
  = (picked P w ++ if P (AxiosGet (rdapUrlOf domain) 10000)
                   then [AxiosGet (rdapUrlOf domain) 10000] else [])%list.
Proof.
  intros HP Hlog. unfold rdapAnswered. rewrite (avoids_deliver host P HP).
  rewrite picked_after, picked_after. unfold log. rewrite Hlog, List.app_nil_r.
  reflexivity.
Qed.

(** X7. A call of [checkDomainExpiration] makes one WHOIS lookup, first, and
    after it one RDAP request, to [https://rdap.org/domain/] and the domain
    with a timeout of 10000 ms, exactly when WHOIS gave null; it makes no
    other lookup. *)
Theorem resolve_makes_one_or_two_lookups (host : Host) (domain : string) (w : World) :
  picked isLookup (snd (checkDomainExpiration host domain w))
  = (picked isLookup w
     ++ WhoisLookup domain
        :: match fst (checkWithWhois host domain w) with
           | Returns None => [AxiosGet ("https://rdap.org/domain/" ++ domain) 10000]
           | _ => []
           end)%list.
Proof.
  assert (Hw : forall w0, picked isLookup (whoisAnswered host domain w0)
                          = (picked isLookup w0 ++ [WhoisLookup domain])%list)
    by (intros w0; apply (picked_whoisAnswered host isLookup domain w0 notOfSession_isLookup)).
  assert (Hr : forall w0, picked isLookup (rdapAnswered host domain w0)
                          = (picked isLookup w0
                             ++ [AxiosGet ("https://rdap.org/domain/" ++ domain) 10000])%list)
    by (intros w0; apply (picked_rdapAnswered host isLookup domain w0 notOfSession_isLookup);
        reflexivity).
  assert (Hrdap : forall w0, picked isLookup (snd (checkWithRdap host domain w0))
                             = (picked isLookup w0
                                ++ [AxiosGet ("https://rdap.org/domain/" ++ domain) 10000])%list).
  { intros w0. pose proof (checkWithRdap_outcome host domain w0) as H.
    destruct (checkWithRdap host domain w0) as [[d | e |] w1]; simpl.
    - destruct H as [_ H]. subst w1. apply Hr.
    - destruct H as [m [_ H]]. subst w1. rewrite picked_after. simpl.
      rewrite List.app_nil_r. apply Hr.
    - destruct H. }
  rewrite checkDomainExpiration_cases, checkWithWhois_cases.
  destruct (whois_lookup host domain) as [err | data]; cbn [fst snd].
  - apply Hw.
  - destruct (rateLimited data); cbn [fst snd].
    + rewrite Hrdap, !picked_after. cbn [isLookup log].
      rewrite !List.app_nil_r, Hw, <- List.app_assoc. reflexivity.
    + destruct (scanPatterns (newDate host) expiryPatterns data None); cbn [fst snd].
      * apply Hw.
      * rewrite Hrdap, !picked_after. cbn [isLookup log].
        rewrite !List.app_nil_r, Hw, <- List.app_assoc. reflexivity.
Qed.

(* ------------------------------------------------------------------ *)
(** ** Further properties: invariants of the session *)

Lemma keeps_ret {A} (I : Globals -> Prop) (a : A) : keeps I (ret a).
Proof. intros w H. exact H. Qed.

Lemma keeps_throw {A} (I : Globals -> Prop) (e : JsError) : keeps I (@throw A e).
Proof. intros w H. exact H. Qed.

Lemma keeps_emit (I : Globals -> Prop) (e : Effect) : keeps I (emit e).
Proof. intros w H. exact H. Qed.

Lemma keeps_consoleLog (I : Globals -> Prop) (s : string) : keeps I (consoleLog s).
Proof. intros w H. exact H. Qed.

Lemma keeps_getGlobals (I : Globals -> Prop) : keeps I getGlobals.
Proof. intros w H. exact H. Qed.

Lemma keeps_bind {A B} (I : Globals -> Prop) (m : M A) (k : A -> M B) :
  keeps I m -> (forall a, keeps I (k a)) -> keeps I (bind m k).
Proof.
  intros Hm Hk w H. unfold bind. specialize (Hm w H).
  destruct (m w) as [[a | e |] w1]; simpl in *; try exact Hm.
  apply Hk. exact Hm.
Qed.

Lemma keeps_tryCatch {A} (I : Globals -> Prop) (m : M A) (h : JsError -> M A) :
  keeps I m -> (forall e, keeps I (h e)) -> keeps I (tryCatch m h).
Proof.
  intros Hm Hh w H. unfold tryCatch. specialize (Hm w H).
  destruct (m w) as [[a | e |] w1]; simpl in *; try exact Hm.
  apply Hh. exact Hm.
Qed.

Section ClosedProperty.

Variable I : Globals -> Prop.
Hypothesis closed : sessionClosed I.
Variable host : Host.

Lemma run_keeps (fresh : Sock) (evs : list Event) :
  forall g, I g -> I (fst (fst (Session.run fresh evs g))).
Proof.
  destruct closed as [Hstep _].
  induction evs as [| ev evs IH]; intros g H; simpl; [exact H |].
  specialize (Hstep fresh ev g H).
  destruct (Session.step fresh ev g) as [[g1 e1] s1]. simpl in Hstep.
  specialize (IH g1 Hstep).
  destruct (Session.run fresh evs g1) as [[g2 e2] s2]. exact IH.
Qed.

Lemma runUntilSettled_keeps (fresh : Sock) (evs : list Event) :
  forall g, I g -> I (fst (fst (Session.runUntilSettled fresh evs g))).
Proof.
  destruct closed as [Hstep _].
  induction evs as [| ev evs IH]; intros g H; simpl; [exact H |].
  specialize (Hstep fresh ev g H).
  destruct (Session.step fresh ev g) as [[g1 e1] s1]. simpl in Hstep.
  destruct (Session.settleAll Unsettled s1); simpl; try exact Hstep.
  specialize (IH g1 Hstep).
  destruct (Session.runUntilSettled fresh evs g1) as [[g2 p2] e2]. exact IH.
Qed.

Lemma keeps_assignSock (s : option Sock) : keeps I (assignSock s).
Proof. intros w H. destruct closed as [_ [_ [Hset _]]]. apply Hset. exact H. Qed.

Lemma keeps_deliver : keeps I (deliver host).
Proof.
  intros w H. unfold deliver.
  pose proof (run_keeps (freshSock host) (hd [] (feed w)) (globals w) H) as Hr.
  destruct (Session.run (freshSock host) (hd [] (feed w)) (globals w)) as [[g1 e1] s1].
  exact Hr.
Qed.

Lemma keeps_startWhatsApp : keeps I (startWhatsApp host).
Proof.
  intros w H. unfold startWhatsApp.
  destruct (useMultiFileAuthState host) as [| err]; [| exact H].
  destruct closed as [_ [Hpro [_ Hcut]]].
  destruct (makeWASocket host) as [fresh | err].
  - specialize (Hpro fresh (globals w) H).
    destruct (Session.prologue fresh (globals w)) as [g1 e1]. simpl in Hpro.
    pose proof (runUntilSettled_keeps fresh (hd [] (feed w)) g1 Hpro) as Hr.
    destruct (Session.runUntilSettled fresh (hd [] (feed w)) g1)
      as [[g2 p] e2]. simpl in Hr.
    destruct p; exact Hr.
  - specialize (Hcut (globals w) H).
    destruct (clearQrTimeout (globals w)) as [g1 e1]. exact Hcut.
Qed.

Ltac keeps_step :=
  first
    [ apply keeps_ret | apply keeps_throw | apply keeps_emit | apply keeps_consoleLog
    | apply keeps_getGlobals | apply keeps_assignSock | apply keeps_deliver
    | apply keeps_startWhatsApp
    | apply keeps_bind; [| intro]
    | apply keeps_tryCatch; [| intro]
    | match goal with
      | |- keeps _ (if ?b then _ else _) => destruct b
      | |- keeps _ (match ?x with _ => _ end) => destruct x
      end ].

Lemma keeps_ensureLoop (maxRetries : nat) :
  forall todo retries, keeps I (ensureLoop host todo retries maxRetries).
Proof.
  induction todo as [| todo IH]; intros retries; simpl.
  - repeat keeps_step.
  - apply keeps_bind; [apply keeps_getGlobals | intros g].
    destruct (live g); [apply keeps_ret |].
    apply keeps_bind; [apply keeps_consoleLog | intros _].
    apply keeps_bind; [| intros _; apply IH].
    unfold sleep. repeat keeps_step.
Qed.

Lemma keeps_checkDomainExpiration (domain : string) :
  keeps I (checkDomainExpiration host domain).
Proof.
  unfold checkDomainExpiration, checkWithWhois, checkWithRdap. repeat keeps_step.
Qed.

Lemma keeps_sendWhatsAppMessage (text : string) : keeps I (sendWhatsAppMessage host text).
Proof.
  unfold sendWhatsAppMessage, ensureWhatsAppConnection.
  apply keeps_tryCatch; [| intro; repeat keeps_step].
  apply keeps_bind; [apply keeps_ensureLoop | intro].
  repeat keeps_step.
Qed.

Lemma keeps_initialTest (DOMAIN : string) : keeps I (initialTest host DOMAIN).
Proof.
  unfold initialTest.
  apply keeps_bind; [apply keeps_consoleLog | intros _].
  apply keeps_tryCatch.
  - apply keeps_bind; [apply keeps_checkDomainExpiration | intros d].
    apply keeps_bind; [apply keeps_emit | intros _]. cbv zeta.
    destruct (dateBefore d (now host)); [| destruct (numberLe _ 30)];
      (apply keeps_bind; [apply keeps_consoleLog | intros _];
       apply keeps_bind; [apply keeps_sendWhatsAppMessage | intros _; apply keeps_ret]).
  - intros e. apply keeps_bind; [apply keeps_emit | intros _].
    apply keeps_bind; [apply keeps_sendWhatsAppMessage | intros _; apply keeps_ret].
Qed.

Lemma keeps_dailyJob : keeps I (dailyJob host).
Proof.
  unfold dailyJob.
  destruct (CHECK_DOMAIN host) as [DOMAIN |]; [| apply keeps_emit].
  destruct (Text.truthy DOMAIN); [| apply keeps_emit].
  apply keeps_bind; [apply keeps_consoleLog | intros _].
  apply keeps_tryCatch.
  - apply keeps_bind; [apply keeps_checkDomainExpiration | intros d].
    apply keeps_bind; [apply keeps_emit | intros _]. cbv zeta.
    destruct (dateBefore d (now host)); [| destruct (numberLe _ 30); [| apply keeps_ret]];
      (apply keeps_bind; [apply keeps_consoleLog | intros _];
       apply keeps_bind; [apply keeps_sendWhatsAppMessage | intros _; apply keeps_ret]).
  - intros e. apply keeps_bind; [apply keeps_emit | intros _].
    apply keeps_bind; [apply keeps_sendWhatsAppMessage | intros _; apply keeps_ret].
Qed.

Lemma keeps_startBot : keeps I (startBot host).
Proof.
  unfold startBot.
  apply keeps_bind; [apply keeps_consoleLog | intros _].
  apply keeps_bind; [| intros _; repeat keeps_step].
  apply keeps_tryCatch; [| intros e; apply keeps_emit].
  apply keeps_bind; [apply keeps_consoleLog | intros _].
  apply keeps_bind; [apply keeps_consoleLog | intros _].
  apply keeps_bind; [apply keeps_startWhatsApp | intros s].
  apply keeps_bind; [apply keeps_assignSock | intros _].
  apply keeps_bind; [apply keeps_consoleLog | intros _].
  apply keeps_bind; [unfold sleep; repeat keeps_step | intros _].
  apply keeps_bind; [apply keeps_getGlobals | intros g].
  apply keeps_bind.
  - destruct (negb (live g)); [| apply keeps_ret].
    apply keeps_bind; [apply keeps_consoleLog | intros _].
    apply keeps_bind; [apply keeps_ensureLoop | intros _; apply keeps_ret].
  - intros _. apply keeps_bind; [apply keeps_getGlobals | intros g'].
    destruct (negb (live g')); [apply keeps_throw |].
    destruct (CHECK_DOMAIN host) as [DOMAIN |]; [| apply keeps_throw].
    destruct (Text.truthy DOMAIN); [apply keeps_initialTest | apply keeps_throw].
Qed.

End ClosedProperty.

Lemma prologue_count (fresh : Sock) (g : Globals) :
  qrRetryCount (fst (Session.prologue fresh g)) = qrRetryCount g.
Proof.
  unfold Session.prologue. pose proof (clearQrTimeout_count g) as [H _].
  destruct (clearQrTimeout g) as [g1 e1]. simpl in *. exact H.
Qed.

Lemma counterInRange_closed : sessionClosed counterInRange.
Proof.
  unfold sessionClosed, counterInRange. split; [| split; [| split]].
  - intros fresh ev g H.
    pose proof (counter_stays_in_range fresh [ev] g H) as Hr. simpl in Hr.
    destruct (Session.step fresh ev g) as [[g1 e1] s1]. exact Hr.
  - intros fresh g H. rewrite prologue_count. exact H.
  - intros s g H. exact H.
  - intros g H. pose proof (clearQrTimeout_count g) as [Hc _].
    destruct (clearQrTimeout g) as [g1 e1]. simpl in *. rewrite Hc. exact H.
Qed.

Lemma oneTimer_nil (g : Globals) : timers g = [] -> oneTimer g.
Proof. intros H. unfold oneTimer. rewrite H. exact Logic.I. Qed.

(** Clearing the timer in [qrTimeout] leaves no timer armed. *)
Lemma clear_timers_nil (g : Globals) :
  oneTimer g -> timers (fst (clearQrTimeout g)) = [].
Proof.
  unfold oneTimer, clearQrTimeout. intros H.
  destruct (timers g) as [| id [| id2 l]] eqn:Et.
  - destruct (qrTimeout g); simpl; rewrite ?Et; auto.
  - destruct H as [Hq _]. rewrite Hq. simpl. rewrite ?Et. simpl.
    rewrite Nat.eqb_refl. reflexivity.
  - destruct H.
Qed.

Lemma onQr_oneTimer (q : option string) (g : Globals) :
  oneTimer g -> oneTimer (fst (Session.onQr q g)).
Proof.
  intros H. unfold Session.onQr.
  destruct (Session.qrTruthy q && negb (qrDisplayed g)
            && (qrRetryCount g <? QR_MAX_RETRY)%nat) eqn:E; [| exact H].
  apply andb_true_iff in E. destruct E as [E _].
  apply andb_true_iff in E. destruct E as [_ E].
  apply negb_true_iff in E.
  unfold oneTimer in *. simpl.
  destruct (timers g) as [| id [| id2 l]].
  - split; reflexivity.
  - destruct H as [_ H]. rewrite H in E. discriminate.
  - destruct H.
Qed.

Lemma prologue_oneTimer (fresh : Sock) (g : Globals) :
  oneTimer g -> oneTimer (fst (Session.prologue fresh g)).
Proof.
  intros H. unfold Session.prologue. pose proof (clear_timers_nil g H) as Hc.
  destruct (clearQrTimeout g) as [g1 e1]. simpl in *.
  apply oneTimer_nil. exact Hc.
Qed.

Lemma oneTimer_closed : sessionClosed oneTimer.
Proof.
  unfold sessionClosed. split; [| split; [| split]].
  - intros fresh ev g H. destruct ev as [u | | id | | | usr | err | err]; simpl.
    + unfold Session.onConnectionUpdate.
      pose proof (onQr_oneTimer (qr u) g H) as H1.
      destruct (Session.onQr (qr u) g) as [g1 e1]. simpl in H1.
      unfold Session.onConnection.
      destruct (connection u) as [[ | | ] |]; try exact H1.
      * pose proof (clear_timers_nil g1 H1) as Hc.
        destruct (clearQrTimeout g1) as [g2 e2]. simpl in *.
        apply oneTimer_nil. exact Hc.
      * assert (H1' : oneTimer (set_isConnected false g1)) by exact H1.
        pose proof (clear_timers_nil _ H1') as Hc.
        destruct (clearQrTimeout (set_isConnected false g1)) as [g2 e2]. simpl in Hc.
        destruct (negb (Session.isTerminalCode (statusCode u))); simpl;
          apply oneTimer_nil; exact Hc.
    + unfold Session.onMessagesUpsert. destruct (negb (isConnected g)); exact H.
    + unfold Session.onQrTimer.
      destruct (existsb (Nat.eqb id) (timers g)) eqn:E; [| exact H].
      simpl. apply oneTimer_nil. simpl. unfold oneTimer in H.
      destruct (timers g) as [| id1 [| id2 l]]; [reflexivity | | destruct H].
      simpl in E. rewrite orb_false_r in E. apply Nat.eqb_eq in E. subst id1.
      simpl. rewrite Nat.eqb_refl. reflexivity.
    + unfold Session.onGlobalTimer.
      destruct (negb (isConnected g)); [destruct (QR_MAX_RETRY <=? qrRetryCount g)%nat |];
        exact H.
    + unfold Session.onReconnectTimer.
      destruct (QR_MAX_RETRY <=? qrRetryCount g)%nat.
      * assert (H' : oneTimer (set_qrRetryCount O g)) by exact H.
        pose proof (prologue_oneTimer fresh _ H') as Hp.
        destruct (Session.prologue fresh (set_qrRetryCount O g)) as [g2 e2]. exact Hp.
      * pose proof (prologue_oneTimer fresh g H) as Hp.
        destruct (Session.prologue fresh g) as [g2 e2]. exact Hp.
    + unfold Session.onUserKnown. destruct (sock g); exact H.
    + unfold Session.onReconnectAuthFailed.
      destruct (QR_MAX_RETRY <=? qrRetryCount g)%nat; exact H.
    + unfold Session.onReconnectSocketFailed.
      destruct (QR_MAX_RETRY <=? qrRetryCount g)%nat.
      * assert (H' : oneTimer (set_qrRetryCount O g)) by exact H.
        pose proof (clear_timers_nil _ H') as Hc.
        destruct (clearQrTimeout (set_qrRetryCount O g)) as [g2 e2]. simpl in *.
        apply oneTimer_nil. exact Hc.
      * pose proof (clear_timers_nil g H) as Hc.
        destruct (clearQrTimeout g) as [g2 e2]. simpl in *.
        apply oneTimer_nil. exact Hc.
  - intros fresh g H. apply prologue_oneTimer. exact H.
  - intros s g H. exact H.
  - intros g H. pose proof (clear_timers_nil g H) as Hc.
    destruct (clearQrTimeout g) as [g1 e1]. simpl in *.
    apply oneTimer_nil. exact Hc.
Qed.

(** X8. From a state with the attempt counter at 3 or below, whatever the
    platform and the timers deliver, the counter is at 3 or below after
    [startBot], after the daily job and after every
    [sendWhatsAppMessage]. *)
Theorem attempt_counter_stays_capped (host : Host) (w : World) :
  (qrRetryCount (globals w) <= 3)%nat ->
  (qrRetryCount (globals (snd (startBot host w))) <= 3)%nat
  /\ (qrRetryCount (globals (snd (dailyJob host w))) <= 3)%nat
  /\ forall text, (qrRetryCount (globals (snd (sendWhatsAppMessage host text w))) <= 3)%nat.
Proof.
  intros H. split; [| split].
  - apply (keeps_startBot counterInRange counterInRange_closed host w H).
  - apply (keeps_dailyJob counterInRange counterInRange_closed host w H).
  - intros text.
    apply (keeps_sendWhatsAppMessage counterInRange counterInRange_closed host text w H).
Qed.

Lemma attempt_counter_stays_capped_witness :
  let w := worldOf Session.initial
             [ (fourOffers ++ [ReconnectTimerFired; qrOffered "ref-5"; connectionOpen])%list ] in
  (qrRetryCount (globals (snd (startBot hostWhoisAnswers w))) <= 3)%nat.
Proof.
  intros w.
  assert (H : (qrRetryCount (globals w) <= 3)%nat) by (vm_compute; lia).
  destruct (attempt_counter_stays_capped hostWhoisAnswers w H) as [H1 _].
  exact H1.
Defined.

(** X9. From a state in which at most one challenge timer is armed, its
    handle in [qrTimeout] and a challenge on display, the same holds after
    [startBot], after the daily job and after every [sendWhatsAppMessage]:
    no challenge timer is ever left armed behind another. *)
Theorem one_challenge_timer_at_most (host : Host) (w : World) :
  oneTimer (globals w) ->
  oneTimer (globals (snd (startBot host w)))
  /\ oneTimer (globals (snd (dailyJob host w)))
  /\ forall text, oneTimer (globals (snd (sendWhatsAppMessage host text w))).
Proof.
  intros H. split; [| split].
  - apply (keeps_startBot oneTimer oneTimer_closed host w H).
  - apply (keeps_dailyJob oneTimer oneTimer_closed host w H).
  - intros text. apply (keeps_sendWhatsAppMessage oneTimer oneTimer_closed host text w H).
Qed.

Lemma one_challenge_timer_at_most_witness :
  let w := worldOf Session.initial [ [qrOffered "ref-1"; QrTimerFired 0; qrOffered "ref-2"] ] in
  oneTimer (globals (snd (startBot hostWhoisAnswers w)))
  /\ timers (globals (snd (startBot hostWhoisAnswers w))) = [1%nat].
Proof.
  intros w.
  assert (H : oneTimer (globals w)) by exact Logic.I.
  destruct (one_challenge_timer_at_most hostWhoisAnswers w H) as [H1 _].
  split; [exact H1 | vm_compute; reflexivity].
Defined.

(* ------------------------------------------------------------------ *)
(** ** Further properties: the handlers and the outcome of a connect *)

Lemma onQr_keeps_sock (q : option string) (g : Globals) :
  sock (fst (Session.onQr q g)) = sock g
  /\ isConnected (fst (Session.onQr q g)) = isConnected g
  /\ List.filter isReconnectTimer (snd (Session.onQr q g)) = [].
Proof.
  unfold Session.onQr.
  destruct (Session.qrTruthy q && negb (qrDisplayed g)
            && (qrRetryCount g <? QR_MAX_RETRY)%nat); repeat split; reflexivity.
Qed.

Lemma clearQrTimeout_keeps (g : Globals) :
  sock (fst (clearQrTimeout g)) = sock g
  /\ List.filter isReconnectTimer (snd (clearQrTimeout g)) = [].
Proof. unfold clearQrTimeout. destruct (qrTimeout g); split; reflexivity. Qed.

Lemma terminal_codes (c : option Z) :
  Session.isTerminalCode c = true <-> c = Some 401 \/ c = Some 408.
Proof.
  unfold Session.isTerminalCode. destruct c as [n |].
  - rewrite orb_true_iff, !Z.eqb_eq. split.
    + intros [H | H]; subst; auto.
    + intros [H | H]; inversion H; auto.
  - split; [discriminate | intros [H | H]; discriminate].
Qed.

Lemma close_cases
    (fresh : Sock) (u : Update) (g : Globals) :
  connection u = Some ConnClose ->
  let '(g', effs, calls) := Session.step fresh (ConnectionUpdate u) g in
  isConnected g' = false
  /\ qrTimeout g' = None
  /\ ((statusCode u = Some 401 \/ statusCode u = Some 408) ->
      calls = [Reject (Error ("Connection closed with status code: "
                              ++ Session.statusText (statusCode u)))]
      /\ List.filter isReconnectTimer effs = [])
  /\ (~ (statusCode u = Some 401 \/ statusCode u = Some 408) ->
      calls = [] /\ List.filter isReconnectTimer effs = [SetTimeout 5000]).
Proof.
  intros Hc. unfold Session.step, Session.onConnectionUpdate.
  pose proof (onQr_keeps_sock (qr u) g) as [_ [_ Hq]].
  destruct (Session.onQr (qr u) g) as [g1 e1]. simpl in Hq.
  unfold Session.onConnection. rewrite Hc.
  pose proof (clearQrTimeout_count (set_isConnected false g1)) as [_ [Hi [Ht _]]].
  pose proof (clearQrTimeout_keeps (set_isConnected false g1)) as [_ Hf].
  destruct (clearQrTimeout (set_isConnected false g1)) as [g2 e2]. simpl in Hi, Ht, Hf.
  pose proof (terminal_codes (statusCode u)) as Hterm.
  destruct (Session.isTerminalCode (statusCode u)) eqn:E; cbn [negb].
  - split; [exact Hi | split; [exact Ht | split]].
    + intros _. split; [reflexivity |].
      rewrite List.filter_app, Hq. simpl. exact Hf.
    + intros Hn. exfalso. apply Hn. apply Hterm. reflexivity.
  - split; [exact Hi | split; [exact Ht | split]].
    + intros Hy. apply Hterm in Hy. discriminate.
    + intros _. split; [reflexivity |].
      rewrite List.filter_app, Hq. simpl. rewrite List.filter_app, Hf. reflexivity.
Qed.

(** X10. A report that the connection is closed marks the session not
    connected and clears the challenge timer.  With status code 401 or 408
    it rejects the promise of the connect, the code in the message, and
    sets no reconnect timer; with any other code, or none, it settles
    nothing and sets one reconnect timer of 5000 ms. *)
Theorem close_rejects_or_schedules_reconnect
    (fresh : Sock) (u : Update) (g : Globals) :
  connection u = Some ConnClose ->
  let '(g', effs, calls) := Session.step fresh (ConnectionUpdate u) g in
  isConnected g' = false
  /\ qrTimeout g' = None
  /\ ((statusCode u = Some 401 \/ statusCode u = Some 408) ->
      calls = [Reject (Error ("Connection closed with status code: "
                              ++ Session.statusText (statusCode u)))]
      /\ List.filter isReconnectTimer effs = [])
  /\ (~ (statusCode u = Some 401 \/ statusCode u = Some 408) ->
      calls = [] /\ List.filter isReconnectTimer effs = [SetTimeout 5000]).
Proof. exact (close_cases fresh u g). Qed.

Lemma close_rejects_or_schedules_reconnect_witness :
  let fresh := {| user := None |} in
  snd (Session.step fresh (connectionClosed 408) liveGlobals)
    = [Reject (Error "Connection closed with status code: 408")]
  /\ snd (Session.step fresh (connectionClosed 515) liveGlobals) = []
  /\ List.filter isReconnectTimer (snd (fst (Session.step fresh (connectionClosed 515) liveGlobals)))
     = [SetTimeout 5000].
Proof.
  intros fresh.
  pose proof (close_rejects_or_schedules_reconnect fresh
                {| connection := Some ConnClose; statusCode := Some 408; qr := None |}
                liveGlobals eq_refl) as H408.
  pose proof (close_rejects_or_schedules_reconnect fresh
                {| connection := Some ConnClose; statusCode := Some 515; qr := None |}
                liveGlobals eq_refl) as H515.
  unfold connectionClosed.
  destruct (Session.step fresh
              (ConnectionUpdate {| connection := Some ConnClose; statusCode := Some 408; qr := None |})
              liveGlobals) as [[g1 e1] c1].
  destruct (Session.step fresh
              (ConnectionUpdate {| connection := Some ConnClose; statusCode := Some 515; qr := None |})
              liveGlobals) as [[g2 e2] c2].
  destruct H408 as [_ [_ [H408 _]]]. destruct H515 as [_ [_ [_ H515]]].
  simpl in *.
  destruct (H408 (or_intror eq_refl)) as [Hc1 _].
  destruct H515 as [Hc2 He2].
  - intros [H | H]; discriminate.
  - split; [exact Hc1 | split; [exact Hc2 | exact He2]].
Defined.

Lemma open_cases (fresh : Sock) (u : Update) (g : Globals) :
  connection u = Some ConnOpen ->
  let '(g', effs, calls) := Session.step fresh (ConnectionUpdate u) g in
  isConnected g' = true
  /\ qrRetryCount g' = 0%nat
  /\ qrTimeout g' = None
  /\ sock g' = sock g
  /\ calls = [Resolve (sock g)]
  /\ (oneTimer g -> timers g' = []).
Proof.
  intros Hc. unfold Session.step, Session.onConnectionUpdate.
  pose proof (onQr_keeps_sock (qr u) g) as [Hs _].
  pose proof (onQr_oneTimer (qr u) g) as Ho.
  destruct (Session.onQr (qr u) g) as [g1 e1]. simpl in Hs, Ho.
  unfold Session.onConnection. rewrite Hc.
  pose proof (clearQrTimeout_count g1) as [_ [_ [Ht _]]].
  pose proof (clearQrTimeout_keeps g1) as [Hk _].
  pose proof (clear_timers_nil g1) as Hn.
  destruct (clearQrTimeout g1) as [g2 e2]. simpl in *.
  repeat split; try assumption; try congruence.
  intros H. apply Hn. apply Ho. exact H.
Qed.

(** X11. A report that the connection is open, whatever else the update
    carries, leaves the session marked connected with the counter at 0 and
    no timer in [qrTimeout], resolves the promise of the connect with the
    socket, which it does not change, and, when one challenge timer at most
    was armed, leaves none armed. *)
Theorem open_report_connects (fresh : Sock) (u : Update) (g : Globals) :
  connection u = Some ConnOpen ->
  let '(g', effs, calls) := Session.step fresh (ConnectionUpdate u) g in
  isConnected g' = true
  /\ qrRetryCount g' = 0%nat
  /\ qrTimeout g' = None
  /\ sock g' = sock g
  /\ calls = [Resolve (sock g)]
  /\ (oneTimer g -> timers g' = []).
Proof. exact (open_cases fresh u g). Qed.

Lemma open_report_connects_witness :
  let fresh := {| user := None |} in
  let g := fst (fst (Session.run fresh [qrOffered "ref-1"; QrTimerFired 0; qrOffered "ref-2"]
                       (fst (Session.prologue fresh Session.initial)))) in
  let '(g', effs, calls) :=
    Session.step fresh
      (ConnectionUpdate {| connection := Some ConnOpen; statusCode := None;
                           qr := Some "ref-3" |}) g in
  isConnected g' = true /\ qrRetryCount g' = 0%nat /\ qrTimeout g' = None
  /\ sock g' = sock g /\ calls = [Resolve (sock g)] /\ (oneTimer g -> timers g' = []).
Proof.
  intros fresh g.
  apply (open_report_connects fresh
           {| connection := Some ConnOpen; statusCode := None; qr := Some "ref-3" |} g).
  reflexivity.
Defined.

(** What a handler calls: nothing, [resolve] with the socket on a session
    it has marked connected, [reject] with one of the two errors on a
    session that is not connected, or [reject] with the error of a
    reconnect that failed in a library call. *)
Lemma step_calls (fresh : Sock) (ev : Event) (g : Globals) :
  let '(g', effs, calls) := Session.step fresh ev g in
  calls = []
  \/ (calls = [Resolve (sock g')] /\ isConnected g' = true)
  \/ (exists e, calls = [Reject e]
                /\ ((sessionRejection e /\ isConnected g' = false)
                    \/ reconnectFailure ev e)).
Proof.
  destruct ev as [u | | id | | | usr | err | err]; unfold Session.step.
  - destruct (connection u) as [[ | | ] |] eqn:Ec.
    + pose proof (open_cases fresh u g Ec) as H.
      unfold Session.step in H.
      destruct (Session.onConnectionUpdate u g) as [[g' effs] calls].
      destruct H as [H1 [_ [_ [H4 [H5 _]]]]].
      right. left. split; [rewrite H4; exact H5 | exact H1].
    + pose proof (close_cases fresh u g Ec) as H.
      unfold Session.step in H.
      destruct (Session.onConnectionUpdate u g) as [[g' effs] calls].
      destruct H as [H1 [_ [Hy Hn]]].
      destruct (Session.isTerminalCode (statusCode u)) eqn:E.
      * apply terminal_codes in E. destruct (Hy E) as [Hcalls _].
        right. right. eexists. split; [exact Hcalls | left; split; [| exact H1]].
        right. destruct E as [E | E]; rewrite E; simpl.
        -- exists 401. split; [left; reflexivity | reflexivity].
        -- exists 408. split; [right; reflexivity | reflexivity].
      * left. apply Hn. intros Hc. apply terminal_codes in Hc. congruence.
    + unfold Session.onConnectionUpdate, Session.onConnection. rewrite Ec.
      destruct (Session.onQr (qr u) g) as [g1 e1]. left. reflexivity.
    + unfold Session.onConnectionUpdate, Session.onConnection. rewrite Ec.
      destruct (Session.onQr (qr u) g) as [g1 e1]. left. reflexivity.
  - unfold Session.onMessagesUpsert. destruct (negb (isConnected g)).
    + right. left. split; reflexivity.
    + left. reflexivity.
  - unfold Session.onQrTimer. destruct (existsb (Nat.eqb id) (timers g)); left; reflexivity.
  - unfold Session.onGlobalTimer. destruct (isConnected g) eqn:Ei; cbn [negb].
    + left. reflexivity.
    + destruct (QR_MAX_RETRY <=? qrRetryCount g)%nat.
      * right. right. eexists.
        split; [reflexivity | left; split; [left; reflexivity | exact Ei]].
      * left. reflexivity.
  - unfold Session.onReconnectTimer.
    destruct (if (QR_MAX_RETRY <=? qrRetryCount g)%nat
              then (set_qrRetryCount 0 g, [log "QR code attempt counter reset."])
              else (g, [])) as [g1 e1].
    destruct (Session.prologue fresh g1) as [g2 e2]. left. reflexivity.
  - unfold Session.onUserKnown. destruct (sock g); left; reflexivity.
  - unfold Session.onReconnectAuthFailed.
    destruct (if (QR_MAX_RETRY <=? qrRetryCount g)%nat
              then (set_qrRetryCount 0 g, [log "QR code attempt counter reset."])
              else (g, [])) as [g1 e1].
    right. right. exists err. split; [reflexivity | right; left; reflexivity].
  - unfold Session.onReconnectSocketFailed.
    destruct (if (QR_MAX_RETRY <=? qrRetryCount g)%nat
              then (set_qrRetryCount 0 g, [log "QR code attempt counter reset."])
              else (g, [])) as [g1 e1].
    destruct (clearQrTimeout g1) as [g2 e2].
    right. right. exists err. split; [reflexivity | right; right; reflexivity].
Qed.

Lemma step_keeps_sock_some (fresh : Sock) (ev : Event) (g : Globals) :
  sock g <> None -> sock (fst (fst (Session.step fresh ev g))) <> None.
Proof.
  intros H. destruct ev as [u | | id | | | usr | err | err]; unfold Session.step.
  - unfold Session.onConnectionUpdate.
    pose proof (onQr_keeps_sock (qr u) g) as [Hs _].
    destruct (Session.onQr (qr u) g) as [g1 e1]. simpl in Hs.
    unfold Session.onConnection.
    destruct (connection u) as [[ | | ] |]; simpl; try congruence.
    + pose proof (clearQrTimeout_keeps g1) as [Hk _].
      destruct (clearQrTimeout g1) as [g2 e2]. simpl in *. congruence.
    + pose proof (clearQrTimeout_keeps (set_isConnected false g1)) as [Hk _].
      destruct (clearQrTimeout (set_isConnected false g1)) as [g2 e2]. simpl in Hk.
      destruct (negb (Session.isTerminalCode (statusCode u))); simpl; congruence.
  - unfold Session.onMessagesUpsert. destruct (negb (isConnected g)); exact H.
  - unfold Session.onQrTimer. destruct (existsb (Nat.eqb id) (timers g)); exact H.
  - unfold Session.onGlobalTimer.
    destruct (negb (isConnected g)); [destruct (QR_MAX_RETRY <=? qrRetryCount g)%nat |];
      exact H.
  - unfold Session.onReconnectTimer, Session.prologue.
    destruct (QR_MAX_RETRY <=? qrRetryCount g)%nat;
      match goal with
      | |- context [clearQrTimeout ?x] => destruct (clearQrTimeout x)
      end; simpl; discriminate.
  - unfold Session.onUserKnown.
    destruct (sock g) eqn:E; simpl; [discriminate | exfalso; apply H; reflexivity].
  - unfold Session.onReconnectAuthFailed.
    destruct (QR_MAX_RETRY <=? qrRetryCount g)%nat; exact H.
  - unfold Session.onReconnectSocketFailed.
    destruct (QR_MAX_RETRY <=? qrRetryCount g)%nat.
    + pose proof (clearQrTimeout_keeps (set_qrRetryCount O g)) as [Hk _].
      destruct (clearQrTimeout (set_qrRetryCount O g)) as [g2 e2]. simpl in *. congruence.
    + pose proof (clearQrTimeout_keeps g) as [Hk _].
      destruct (clearQrTimeout g) as [g2 e2]. simpl in *. congruence.
Qed.

Lemma runUntilSettled_outcome (fresh : Sock) (evs : list Event) :
  forall g, sock g <> None ->
    let '(g', p, effs) := Session.runUntilSettled fresh evs g in
    sock g' <> None
    /\ match p with
       | Unsettled => True
       | Resolved s => s = sock g' /\ isConnected g' = true
       | Rejected e =>
           (sessionRejection e /\ isConnected g' = false)
           \/ exists ev, In ev evs /\ reconnectFailure ev e
       end.
Proof.
  induction evs as [| ev evs IH]; intros g Hg; simpl.
  - split; [exact Hg | exact Logic.I].
  - pose proof (step_calls fresh ev g) as Hc.
    pose proof (step_keeps_sock_some fresh ev g Hg) as Hs.
    destruct (Session.step fresh ev g) as [[g1 e1] s1]. simpl in Hs.
    destruct Hc as [Hc | [[Hc Hi] | [e [Hc Hr]]]]; subst s1; simpl.
    + specialize (IH g1 Hs).
      destruct (Session.runUntilSettled fresh evs g1) as [[g2 p2] e2].
      destruct IH as [IH1 IH2]. split; [exact IH1 |].
      destruct p2 as [| s | e]; try exact IH2.
      destruct IH2 as [IH2 | [ev' [Hin Hf]]]; [left; exact IH2 |].
      right. exists ev'. split; [right; exact Hin | exact Hf].
    + split; [exact Hs | split; [reflexivity | exact Hi]].
    + split; [exact Hs |].
      destruct Hr as [Hr | Hr]; [left; exact Hr |].
      right. exists ev. split; [left; reflexivity | exact Hr].
Qed.

Lemma startWhatsApp_outcome (host : Host) (w : World) :
  match startWhatsApp host w with
  | (Returns s, w1) =>
      s = sock (globals w1) /\ s <> None /\ isConnected (globals w1) = true
  | (Throws e, w1) =>
      (sessionRejection e /\ isConnected (globals w1) = false)
      \/ libraryFailure host (hd [] (feed w)) e
  | (Pending, _) => True
  end.
Proof.
  unfold startWhatsApp, libraryFailure.
  destruct (useMultiFileAuthState host) as [| err]; [| right; left; reflexivity].
  destruct (makeWASocket host) as [fresh | err].
  - assert (Hp : sock (fst (Session.prologue fresh (globals w))) <> None).
    { unfold Session.prologue. destruct (clearQrTimeout (globals w)). simpl. discriminate. }
    destruct (Session.prologue fresh (globals w)) as [g1 e1]. simpl in Hp.
    pose proof (runUntilSettled_outcome fresh (hd [] (feed w)) g1 Hp) as H.
    destruct (Session.runUntilSettled fresh (hd [] (feed w)) g1)
      as [[g2 p] e2].
    destruct H as [Hs H]. destruct p as [| s | e]; simpl.
    + exact Logic.I.
    + destruct H as [H1 H2]. subst s. split; [reflexivity | split; assumption].
    + destruct H as [H | H]; [left; exact H | right; right; right; exact H].
  - destruct (clearQrTimeout (globals w)) as [g1 e1].
    right. right. left. reflexivity.
Qed.

(** X12. When [startWhatsApp] returns, the session is marked connected and
    the value returned is the socket that [sock] holds, never null: the
    assignment [sock = await startWhatsApp()] of its callers changes
    nothing. *)
Theorem startWhatsApp_returns_connected_socket
    (host : Host) (w w1 : World) (s : option Sock) :
  startWhatsApp host w = (Returns s, w1) ->
  isConnected (globals w1) = true
  /\ s = sock (globals w1)
  /\ s <> None
  /\ assignSock s w1 = (Returns tt, w1).
Proof.
  intros H. pose proof (startWhatsApp_outcome host w) as Ho. rewrite H in Ho.
  destruct Ho as [H1 [H2 H3]].
  split; [exact H3 | split; [exact H1 | split; [exact H2 |]]].
  unfold assignSock. rewrite H1. destruct w1 as [g tr fd]. destruct g. reflexivity.
Qed.

Lemma startWhatsApp_returns_connected_socket_witness :
  let w := worldOf Session.initial [[qrOffered "ref-1"; connectionOpen]] in
  isConnected (globals (snd (startWhatsApp hostWhoisAnswers w))) = true
  /\ Some {| user := None |} <> None.
Proof.
  intros w.
  destruct (startWhatsApp_returns_connected_socket hostWhoisAnswers w
              (snd (startWhatsApp hostWhoisAnswers w)) (Some {| user := None |}))
    as [H1 [_ [H3 _]]].
  - vm_compute. reflexivity.
  - split; [exact H1 | exact H3].
Defined.



(** The credential store fails to load when the reconnect timer goes off:
    the promise of [startWhatsApp] is rejected with the error of the
    store. *)
Example reconnect_credential_failure_rejects :
  let e := Error "EACCES: permission denied, open 'auth_info_baileys/creds.json'" in
  let w := worldOf Session.initial [[connectionClosed 515; ReconnectAuthFailed e]] in
  fst (startWhatsApp hostWhoisAnswers w) = Throws e
  /\ ~ sessionRejection e.
Proof.
  split; [vm_compute; reflexivity |].
  intros [H | [code [_ H]]]; discriminate.
Qed.

(** The credential store cannot be read at all: [startWhatsApp] rejects
    with the error of the store, which is none of the handlers' errors;
    [sendWhatsAppMessage] turns it into null without a send, and
    [startBot] logs it and arms the daily job all the same. *)
Example unreadable_credentials_reach_the_callers :
  let w := worldOf Session.initial [] in
  startWhatsApp hostNoCredentials w = (Throws CREDS_UNREADABLE, w)
  /\ ~ sessionRejection CREDS_UNREADABLE
  /\ fst (sendWhatsAppMessage hostNoCredentials "ping" w) = Returns None
  /\ sends (snd (sendWhatsAppMessage hostNoCredentials "ping" w)) = []
  /\ fst (startBot hostNoCredentials w) = Returns tt
  /\ picked isScheduleJob (snd (startBot hostNoCredentials w)) = [ScheduleJob "0 9 * * *"].
Proof.
  split; [reflexivity | split; [| vm_compute; repeat split; reflexivity]].
  intros [H | [code [_ H]]]; discriminate.
Qed.

(* ------------------------------------------------------------------ *)
(** ** Further properties: the connection check and the send *)

Lemma bind_inv {A B} (m : M A) (k : A -> M B) (w w1 : World) (b : B) :
  bind m k w = (Returns b, w1) ->
  exists a w', m w = (Returns a, w') /\ k a w' = (Returns b, w1).
Proof.
  unfold bind. destruct (m w) as [[a | e |] w'] eqn:E; intros H; try discriminate.
  exists a, w'. split; [reflexivity | exact H].
Qed.

Lemma ensureLoop_true_live (host : Host) (maxRetries : nat) :
  forall todo retries w w1,
    ensureLoop host todo retries maxRetries w = (Returns true, w1) ->
    live (globals w1) = true.
Proof.
  induction todo as [| todo IH]; intros retries w w1 H; simpl in H.
  - unfold bind, getGlobals, ret in H. inversion H. reflexivity.
  - unfold bind at 1 in H. unfold getGlobals in H.
    destruct (live (globals w)) eqn:El.
    + unfold ret in H. inversion H; subst. exact El.
    + destruct (bind_inv _ _ _ _ _ H) as [u1 [w2 [_ H2]]].
      destruct (bind_inv _ _ _ _ _ H2) as [u2 [w3 [_ H3]]].
      apply (IH _ _ _ H3).
Qed.

(** X14. When the connection check reports success, the session is live at
    that moment: marked connected, with a socket whose account is known. *)
Theorem ensure_true_means_live (host : Host) (maxRetries : nat) (w w1 : World) :
  ensureWhatsAppConnection host maxRetries w = (Returns true, w1) ->
  isConnected (globals w1) = true
  /\ exists s account, sock (globals w1) = Some s /\ user s = Some account.
Proof.
  intros H. pose proof (ensureLoop_true_live host maxRetries _ _ _ _ H) as Hl.
  unfold live in Hl. apply andb_true_iff in Hl. destruct Hl as [Hc Hs].
  split; [exact Hc |].
  destruct (sock (globals w1)) as [s |]; [| discriminate].
  destruct (user s) as [account |] eqn:Eu; [| discriminate].
  exists s, account. split; [reflexivity | exact Eu].
Qed.

Lemma ensure_true_means_live_witness :
  let w := worldOf Session.initial
             [ [qrOffered "ref-1"; UserKnown (Some "905000000000:1@s.whatsapp.net");
                connectionOpen]; [] ] in
  isConnected (globals (snd (ensureWhatsAppConnection hostWhoisAnswers 3 w))) = true.
Proof.
  intros w.
  destruct (ensure_true_means_live hostWhoisAnswers 3 w
              (snd (ensureWhatsAppConnection hostWhoisAnswers 3 w))) as [H _].
  - vm_compute. reflexivity.
  - exact H.
Defined.

Lemma ensureLoop_account_unknown (host : Host) (maxRetries : nat) :
  forall todo retries w s,
    isConnected (globals w) = true ->
    sock (globals w) = Some s ->
    user s = None ->
    ensureLoop host todo retries maxRetries w
    = (Returns false,
       {| globals := globals w;
          trace := (trace w ++ progressLines todo retries maxRetries)%list;
          feed := feed w |}).
Proof.
  induction todo as [| todo IH]; intros retries w s Hc Hs Hu.
  - simpl. unfold bind, getGlobals, ret, live. rewrite Hc, Hs, Hu. simpl.
    rewrite List.app_nil_r. destruct w. reflexivity.
  - cbn [ensureLoop progressLines]. unfold bind at 1. unfold getGlobals.
    assert (Hl : live (globals w) = false) by (unfold live; rewrite Hc, Hs, Hu; reflexivity).
    assert (Hn : noConnection (globals w) = false)
      by (unfold noConnection; rewrite Hc, Hs; reflexivity).
    rewrite Hl, Hn.
    set (line := log ("Checking WhatsApp connection ("
                      ++ Text.ofZ (Z.of_nat (retries + 1)) ++ "/"
                      ++ Text.ofZ (Z.of_nat maxRetries) ++ ")...")).
    rewrite (bind_returns _ _ w (after w line) tt eq_refl).
    rewrite (bind_returns _ _ (after w line) (after w line) tt eq_refl).
    rewrite (IH (S retries) (after w line) s Hc Hs Hu).
    unfold after. cbn [globals trace feed].
    rewrite <- List.app_assoc. reflexivity.
Qed.

Lemma progressLines_length (maxRetries : nat) :
  forall todo retries, List.length (progressLines todo retries maxRetries) = todo.
Proof.
  induction todo as [| todo IH]; intros retries; simpl; [reflexivity |].
  rewrite IH. reflexivity.
Qed.

(** X15. A session that is marked connected but whose account is not known
    is not reconnected: the connection check prints its progress line once
    per turn, waits for nothing, changes nothing and reports failure. *)
Theorem ensure_gives_up_when_account_unknown
    (host : Host) (maxRetries : nat) (w : World) (s : Sock) :
  isConnected (globals w) = true ->
  sock (globals w) = Some s ->
  user s = None ->
  ensureWhatsAppConnection host maxRetries w
  = (Returns false,
     {| globals := globals w;
        trace := (trace w ++ progressLines maxRetries 0 maxRetries)%list;
        feed := feed w |})
  /\ List.length (progressLines maxRetries 0 maxRetries) = maxRetries
  /\ forall text,
       sendWhatsAppMessage host text w
       = (Returns None,
          after {| globals := globals w;
                   trace := (trace w ++ progressLines 3 0 3)%list;
                   feed := feed w |} (log NOT_ESTABLISHED)).
Proof.
  intros Hc Hs Hu.
  pose proof (ensureLoop_account_unknown host maxRetries maxRetries O w s Hc Hs Hu) as H.
  split; [exact H | split].
  - apply progressLines_length.
  - intros text. apply send_not_connected.
    apply (ensureLoop_account_unknown host 3 3 O w s Hc Hs Hu).
Qed.

Lemma ensure_gives_up_when_account_unknown_witness :
  let g := set_sock (Some {| user := None |}) liveGlobals in
  let w := worldOf g flakyFeed in
  ensureWhatsAppConnection hostWhoisAnswers 3 w
  = (Returns false,
     {| globals := g;
        trace := [ log "Checking WhatsApp connection (1/3)...";
                   log "Checking WhatsApp connection (2/3)...";
                   log "Checking WhatsApp connection (3/3)..." ];
        feed := flakyFeed |}).
Proof.
  intros g w.
  destruct (ensure_gives_up_when_account_unknown hostWhoisAnswers 3 w {| user := None |}
              eq_refl eq_refl eq_refl) as [H _].
  rewrite H. vm_compute. reflexivity.
Defined.

Lemma stripPrefix_self (n t : string) : Text.stripPrefix n (n ++ t) = Some t.
Proof.
  induction n as [| a n IH]; simpl; [destruct t; reflexivity |].
  rewrite Ascii.eqb_refl. exact IH.
Qed.

Lemma includes_appended (n : string) : forall r, Text.includes n (r ++ n) = true.
Proof.
  induction r as [| a r IH].
  - simpl. pose proof (stripPrefix_self n EmptyString) as H.
    replace (n ++ EmptyString) with n in H
      by (clear; induction n as [| x n IHn]; simpl; [reflexivity | rewrite <- IHn; reflexivity]).
    destruct n; simpl in *; [reflexivity | rewrite H; reflexivity].
  - simpl. destruct (Text.stripPrefix n (String a (r ++ n))); [reflexivity | exact IH].
Qed.

(** X16. The address of the recipient: the result of [jidOf] always holds
    the suffix [@s.whatsapp.net]; a recipient that holds it already, at the
    end or anywhere else, is left as it is, so that [jidOf] applied twice
    is [jidOf] applied once. *)
Theorem jidOf_adds_suffix_once (recipient : string) :
  Text.includes "@s.whatsapp.net" (jidOf recipient) = true
  /\ jidOf (jidOf recipient) = jidOf recipient
  /\ (Text.includes "@s.whatsapp.net" recipient = true -> jidOf recipient = recipient)
  /\ (Text.includes "@s.whatsapp.net" recipient = false ->
      jidOf recipient = recipient ++ "@s.whatsapp.net").
Proof.
  assert (H : Text.includes "@s.whatsapp.net" (jidOf recipient) = true).
  { unfold jidOf. destruct (Text.includes "@s.whatsapp.net" recipient) eqn:E.
    - exact E.
    - apply includes_appended. }
  split; [exact H | split; [| split]].
  - unfold jidOf at 1. rewrite H. reflexivity.
  - intros E. unfold jidOf. rewrite E. reflexivity.
  - intros E. unfold jidOf. rewrite E. reflexivity.
Qed.

Example jid_suffix_in_the_middle :
  jidOf "905000000000@s.whatsapp.net.example" = "905000000000@s.whatsapp.net.example".
Proof. vm_compute. reflexivity. Qed.

Lemma send_once_cases
    (host : Host) (text : string) (w : World) :
  let r := sendWhatsAppMessage host text w in
  sends (snd r) = sends w
  \/ exists recipient w1,
       RECIPIENT_NUMBER host = Some recipient
       /\ ensureWhatsAppConnection host 3 w = (Returns true, w1)
       /\ live (globals w1) = true
       /\ sends (snd r) = (sends w ++ [SendMessage (jidOf recipient) text])%list.
Proof.
  intros r. subst r.
  pose proof (quiet_ensureLoop host 3 3 O w) as [Hs _].
  fold (ensureWhatsAppConnection host 3) in Hs.
  pose proof (ensureLoop_true_live host 3 3 O w) as Hlive.
  fold (ensureWhatsAppConnection host 3) in Hlive.
  unfold sendWhatsAppMessage, tryCatch, bind.
  destruct (ensureWhatsAppConnection host 3 w) as [[[ | ] | e | ] w1] eqn:E;
    cbn [fst snd negb] in *.
  - destruct (RECIPIENT_NUMBER host) as [rc |] eqn:Er.
    + destruct (Text.truthy rc).
      * destruct (sock (globals w1)) as [sk |] eqn:Esk.
        -- right. exists rc, w1.
           split; [reflexivity | split; [reflexivity | split; [apply (Hlive w1 eq_refl) |]]].
           pose proof (deliver_returns host
             (after (after w1 (log ("📤 Sending message to: " ++ jidOf rc)))
                    (SendMessage (jidOf rc) text))) as Hd.
           pose proof (quiet_deliver host
             (after (after w1 (log ("📤 Sending message to: " ++ jidOf rc)))
                    (SendMessage (jidOf rc) text))) as [Hq _].
           rewrite !sends_snoc in Hq. cbn [isSend log] in Hq.
           rewrite List.app_nil_r, Hs in Hq.
           unfold after in Hd, Hq. simpl in Hd, Hq. simpl. rewrite Esk. simpl.
           destruct (deliver host _) as [o w2]; simpl in Hd, Hq; subst o; simpl.
           destruct (sock_sendMessage host (jidOf rc) text); simpl;
             unfold sends in *; simpl; rewrite List.filter_app; simpl;
             rewrite List.app_nil_r; exact Hq.
        -- left. simpl. rewrite Esk. simpl. unfold sends in *. simpl.
           rewrite !List.filter_app. simpl. rewrite !List.app_nil_r. exact Hs.
      * left. simpl. unfold sends in *. simpl. rewrite List.filter_app. simpl.
        rewrite List.app_nil_r. exact Hs.
    + left. simpl. unfold sends in *. simpl. rewrite List.filter_app. simpl.
      rewrite List.app_nil_r. exact Hs.
  - left. simpl. unfold sends in *. simpl. rewrite List.filter_app. simpl.
    rewrite List.app_nil_r. exact Hs.
  - left. simpl. unfold sends in *. simpl. rewrite List.filter_app. simpl.
    rewrite List.app_nil_r. exact Hs.
  - left. exact Hs.
Qed.

(** X17. A call of [sendWhatsAppMessage] sends one message at most.  When it
    sends, the connection check had just reported a live session, and the
    message goes to the configured recipient, its address completed by
    [jidOf], with the text given. *)
Theorem sendWhatsAppMessage_sends_once_at_most
    (host : Host) (text : string) (w : World) :
  let r := sendWhatsAppMessage host text w in
  sends (snd r) = sends w
  \/ exists recipient w1,
       RECIPIENT_NUMBER host = Some recipient
       /\ ensureWhatsAppConnection host 3 w = (Returns true, w1)
       /\ live (globals w1) = true
       /\ sends (snd r) = (sends w ++ [SendMessage (jidOf recipient) text])%list.
Proof. exact (send_once_cases host text w). Qed.

(* ------------------------------------------------------------------ *)
(** ** Further properties: the runs *)

Ltac avoids_step :=
  first
    [ apply avoids_ret | apply avoids_throw
    | apply avoids_emit; reflexivity | apply avoids_consoleLog; reflexivity
    | apply avoids_getGlobals | apply avoids_assignSock
    | apply avoids_deliver;
      first [apply notOfSession_isSend | apply notOfSession_isScheduleJob]
    | apply avoids_startWhatsApp;
      first [apply notOfSession_isSend | apply notOfSession_isScheduleJob]
    | apply avoids_bind; [| intro]
    | apply avoids_tryCatch; [| intro]
    | match goal with
      | |- avoids _ (if ?b then _ else _) => destruct b
      | |- avoids _ (match ?x with _ => _ end) => destruct x
      end ].

(** The lookups send nothing. *)
Lemma checkDomainExpiration_sends_nothing (host : Host) (domain : string) :
  avoids isSend (checkDomainExpiration host domain).
Proof.
  unfold checkDomainExpiration, checkWithWhois, checkWithRdap. repeat avoids_step.
Qed.

Lemma then_ret_world {A} (m : M A) (w : World) : snd ((m ;; ret tt) w) = snd (m w).
Proof. unfold bind. destruct (m w) as [[a | e |] w1]; reflexivity. Qed.

Lemma sends_snoc_quiet (w : World) (e : Effect) :
  isSend e = false -> sends (snd (emit e w)) = sends w.
Proof.
  intros H. change (snd (emit e w)) with (after w e).
  rewrite sends_snoc, H. apply List.app_nil_r.
Qed.

Lemma atMostOneMore_refl (w w' : World) : sends w' = sends w -> atMostOneMore w w'.
Proof. intros H. exists []. rewrite List.app_nil_r. split; [exact H | simpl; lia]. Qed.

Lemma atMostOneMore_from (w w0 w' : World) :
  sends w0 = sends w -> atMostOneMore w0 w' -> atMostOneMore w w'.
Proof. intros H [extra [H1 H2]]. exists extra. rewrite <- H. split; assumption. Qed.

Lemma send_adds_one_at_most (host : Host) (text : string) (w : World) :
  atMostOneMore w (snd (sendWhatsAppMessage host text w)).
Proof.
  destruct (send_once_cases host text w) as [H | [rc [w1 [_ [_ [_ H]]]]]].
  - apply atMostOneMore_refl. exact H.
  - eexists. split; [exact H | simpl; lia].
Qed.

(** Log, send, done: the shape of every branch that notifies. *)
Lemma notify_adds_one_at_most (host : Host) (e : Effect) (text : string) (w : World) :
  isSend e = false ->
  atMostOneMore w (snd ((emit e ;; sendWhatsAppMessage host text ;; ret tt) w)).
Proof.
  intros He.
  rewrite (bind_returns _ _ w (after w e) tt eq_refl).
  rewrite then_ret_world.
  apply (atMostOneMore_from w (after w e)).
  - rewrite sends_snoc, He. apply List.app_nil_r.
  - apply send_adds_one_at_most.
Qed.

Lemma specDispatch_adds_one_at_most
    (host : Host) (startupRun : bool) (DOMAIN : string) (tier : Tier) (w : World) :
  atMostOneMore w (snd (specDispatch host startupRun DOMAIN tier w)).
Proof.
  destruct tier as [| days | days]; simpl;
    try (apply (notify_adds_one_at_most host (log _)); reflexivity).
  destruct startupRun.
  - apply (notify_adds_one_at_most host (log _)). reflexivity.
  - apply atMostOneMore_refl. reflexivity.
Qed.

Lemma initialTest_adds_one_at_most (host : Host) (DOMAIN : string) (w : World) :
  atMostOneMore w (snd (initialTest host DOMAIN w)).
Proof.
  unfold initialTest.
  rewrite (bind_returns _ _ w
             (after w (log ("🔍 Initial test: Checking domain " ++ DOMAIN ++ "..."))) tt eq_refl).
  set (w0 := after w (log ("🔍 Initial test: Checking domain " ++ DOMAIN ++ "..."))).
  assert (H0 : sends w0 = sends w)
    by (unfold w0; rewrite sends_snoc; apply List.app_nil_r).
  pose proof (checkDomainExpiration_sends_nothing host DOMAIN w0) as Hc.
  change (picked isSend ?x) with (sends x) in Hc.
  destruct (checkDomainExpiration host DOMAIN w0) as [[d | e |] w1] eqn:E; simpl in Hc.
  - rewrite (tryCatch_bind_returns _ _ _ _ w1 d E).
    rewrite tryCatch_neverThrows.
    + rewrite (bind_returns _ _ w1 (after w1 (ConsoleLog [Str "📅 Expiration Date: "; ADate d]))
                 tt eq_refl).
      cbv zeta. rewrite initial_chain.
      apply (atMostOneMore_from w (after w1 (ConsoleLog [Str "📅 Expiration Date: "; ADate d]))).
      * rewrite sends_snoc. simpl. rewrite List.app_nil_r. congruence.
      * apply specDispatch_adds_one_at_most.
    + apply neverThrows_bind; [apply neverThrows_emit | intros _].
      cbv zeta. rewrite initial_chain. apply neverThrows_specDispatch.
  - rewrite (tryCatch_bind_throws _ _ _ _ w1 e E).
    apply (atMostOneMore_from w w1); [congruence |].
    apply (notify_adds_one_at_most host (ConsoleError _)). reflexivity.
  - unfold tryCatch, bind. rewrite E. simpl. apply atMostOneMore_refl. congruence.
Qed.

Lemma dailyJob_adds_one_at_most (host : Host) (w : World) :
  atMostOneMore w (snd (dailyJob host w)).
Proof.
  unfold dailyJob.
  destruct (CHECK_DOMAIN host) as [DOMAIN |];
    [| apply atMostOneMore_refl; apply sends_snoc_quiet; reflexivity].
  destruct (Text.truthy DOMAIN);
    [| apply atMostOneMore_refl; apply sends_snoc_quiet; reflexivity].
  rewrite (bind_returns _ _ w
             (after w (log ("🔍 Running daily WHOIS query for " ++ DOMAIN ++ "..."))) tt eq_refl).
  set (w0 := after w (log ("🔍 Running daily WHOIS query for " ++ DOMAIN ++ "..."))).
  assert (H0 : sends w0 = sends w)
    by (unfold w0; rewrite sends_snoc; apply List.app_nil_r).
  pose proof (checkDomainExpiration_sends_nothing host DOMAIN w0) as Hc.
  change (picked isSend ?x) with (sends x) in Hc.
  destruct (checkDomainExpiration host DOMAIN w0) as [[d | e |] w1] eqn:E; simpl in Hc.
  - rewrite (tryCatch_bind_returns _ _ _ _ w1 d E).
    rewrite tryCatch_neverThrows.
    + rewrite (bind_returns _ _ w1 (after w1 (ConsoleLog [Str "📅 Expiration Date: "; ADate d]))
                 tt eq_refl).
      cbv zeta. rewrite daily_chain.
      apply (atMostOneMore_from w (after w1 (ConsoleLog [Str "📅 Expiration Date: "; ADate d]))).
      * rewrite sends_snoc. simpl. rewrite List.app_nil_r. congruence.
      * apply specDispatch_adds_one_at_most.
    + apply neverThrows_bind; [apply neverThrows_emit | intros _].
      cbv zeta. rewrite daily_chain. apply neverThrows_specDispatch.
  - rewrite (tryCatch_bind_throws _ _ _ _ w1 e E).
    apply (atMostOneMore_from w w1); [congruence |].
    apply (notify_adds_one_at_most host (ConsoleError _)). reflexivity.
  - unfold tryCatch, bind. rewrite E. simpl. apply atMostOneMore_refl. congruence.
Qed.

(** X18. A run sends one message at most: the startup check and the daily
    job each add at most one send to those made before, whatever the lookup
    gives and whatever the session does meanwhile. *)
Theorem each_run_sends_once_at_most (host : Host) (DOMAIN : string) (w : World) :
  (exists extra, sends (snd (initialTest host DOMAIN w)) = (sends w ++ extra)%list
                 /\ (List.length extra <= 1)%nat)
  /\ (exists extra, sends (snd (dailyJob host w)) = (sends w ++ extra)%list
                    /\ (List.length extra <= 1)%nat).
Proof.
  split; [apply initialTest_adds_one_at_most | apply dailyJob_adds_one_at_most].
Qed.

(** X19. The day count in a message is the number of whole days left: it is
    [k] exactly when the expiry lies [k] days or more, and less than [k + 1]
    days, after now.  So the warning branch is taken exactly from now up to,
    and not including, 31 days from now. *)
Theorem day_count_is_whole_days_left (t now : Z) (k : Z) :
  (daysUntilExpiry (DateMs t) now = Some k
   <-> now + k * MS_PER_DAY <= t < now + (k + 1) * MS_PER_DAY)
  /\ (dateBefore (DateMs t) now = false
      /\ numberLe (daysUntilExpiry (DateMs t) now) 30 = true
      <-> now <= t < now + 31 * MS_PER_DAY).
Proof.
  unfold daysUntilExpiry, dateBefore, numberLe. change MS_PER_DAY with 86400000.
  split; split.
  - intros H. inversion H; subst. clear H. Z.div_mod_to_equations. lia.
  - intros H. f_equal. Z.div_mod_to_equations. lia.
  - intros [H1 H2]. apply Z.ltb_ge in H1. apply Z.leb_le in H2.
    Z.div_mod_to_equations. lia.
  - intros H. split; [apply Z.ltb_ge; lia |].
    apply Z.leb_le. Z.div_mod_to_equations. lia.
Qed.

Example warning_window_edges :
  specTier (DateMs (1706745600000 + 31 * MS_PER_DAY - 1)) 1706745600000 = TierWarning 30
  /\ specTier (DateMs (1706745600000 + 31 * MS_PER_DAY)) 1706745600000 = TierInfo (Some 31).
Proof. vm_compute. split; reflexivity. Qed.

Lemma sendWhatsAppMessage_schedules_nothing (host : Host) (text : string) :
  avoids isScheduleJob (sendWhatsAppMessage host text).
Proof.
  unfold sendWhatsAppMessage, ensureWhatsAppConnection.
  apply avoids_tryCatch; [| intro; repeat avoids_step].
  apply avoids_bind; [| intro; repeat avoids_step].
  apply avoids_ensureLoop; [apply notOfSession_isScheduleJob | reflexivity | reflexivity].
Qed.

Lemma initialTest_schedules_nothing (host : Host) (DOMAIN : string) :
  avoids isScheduleJob (initialTest host DOMAIN).
Proof.
  unfold initialTest.
  apply avoids_bind; [apply avoids_consoleLog; reflexivity | intros _].
  apply avoids_tryCatch.
  - apply avoids_bind;
      [unfold checkDomainExpiration, checkWithWhois, checkWithRdap; repeat avoids_step
      | intros d].
    apply avoids_bind; [apply avoids_emit; reflexivity | intros _]. cbv zeta.
    destruct (dateBefore d (now host)); [| destruct (numberLe _ 30)];
      (apply avoids_bind; [apply avoids_consoleLog; reflexivity | intros _];
       apply avoids_bind; [apply sendWhatsAppMessage_schedules_nothing
                          | intros _; apply avoids_ret]).
  - intros e. apply avoids_bind; [apply avoids_emit; reflexivity | intros _].
    apply avoids_bind; [apply sendWhatsAppMessage_schedules_nothing
                       | intros _; apply avoids_ret].
Qed.

(** X20. [startBot] never throws.  Whenever it returns it has scheduled
    the daily job, once, under the rule [0 9 * * *], also when the connect,
    the configuration or the initial test failed; when a connect never
    settles it never comes to scheduling the job. *)
Theorem startBot_always_schedules_daily_job (host : Host) (w : World) :
  match startBot host w with
  | (Returns _, w1) =>
      picked isScheduleJob w1 = (picked isScheduleJob w ++ [ScheduleJob "0 9 * * *"])%list
  | (Throws _, _) => False
  | (Pending, w1) => picked isScheduleJob w1 = picked isScheduleJob w
  end.
Proof.
  unfold startBot.
  rewrite (bind_returns _ _ w (after w (log "🤖 Starting WhatsApp and WHOIS bot...")) tt eq_refl).
  assert (H0 : picked isScheduleJob (after w (log "🤖 Starting WhatsApp and WHOIS bot..."))
               = picked isScheduleJob w)
    by (rewrite picked_after; apply List.app_nil_r).
  set (w0 := after w (log "🤖 Starting WhatsApp and WHOIS bot...")) in *.
  set (body := tryCatch _ _).
  assert (Ha : avoids isScheduleJob body).
  { subst body.
    apply avoids_tryCatch; [| intros e; apply avoids_emit; reflexivity].
    apply avoids_bind; [apply avoids_consoleLog; reflexivity | intros _].
    apply avoids_bind; [apply avoids_consoleLog; reflexivity | intros _].
    apply avoids_bind;
      [apply avoids_startWhatsApp; apply notOfSession_isScheduleJob | intros s].
    apply avoids_bind; [apply avoids_assignSock | intros _].
    apply avoids_bind; [apply avoids_consoleLog; reflexivity | intros _].
    apply avoids_bind;
      [apply avoids_sleep; [apply notOfSession_isScheduleJob | reflexivity] | intros _].
    apply avoids_bind; [apply avoids_getGlobals | intros g].
    apply avoids_bind.
    - destruct (negb (live g)); [| apply avoids_ret].
      apply avoids_bind; [apply avoids_consoleLog; reflexivity | intros _].
      apply avoids_bind; [| intros _; apply avoids_ret].
      apply avoids_ensureLoop;
        [apply notOfSession_isScheduleJob | reflexivity | reflexivity].
    - intros _. apply avoids_bind; [apply avoids_getGlobals | intros g'].
      destruct (negb (live g')); [apply avoids_throw |].
      destruct (CHECK_DOMAIN host) as [DOMAIN |]; [| apply avoids_throw].
      destruct (Text.truthy DOMAIN);
        [apply initialTest_schedules_nothing | apply avoids_throw]. }
  assert (Hn : neverThrows body).
  { subst body. apply neverThrows_tryCatch. intros e. apply neverThrows_emit. }
  specialize (Ha w0). specialize (Hn w0). unfold bind.
  destruct (body w0) as [[u | e |] w1]; cbn [fst snd] in *.
  - change (picked isScheduleJob
              (after (after w1 (ScheduleJob "0 9 * * *"))
                     (log "✅ Whois tracking bot is running..."))
            = (picked isScheduleJob w ++ [ScheduleJob "0 9 * * *"])%list).
    rewrite picked_after, picked_after. cbn [isScheduleJob log].
    rewrite List.app_nil_r, Ha, H0. reflexivity.
  - apply (Hn e). reflexivity.
  - rewrite Ha. exact H0.
Qed.

Example startBot_schedules_after_logout :
  let r := startBot hostWhoisAnswers (worldOf Session.initial [[connectionClosed 401]]) in
  fst r = Returns tt
  /\ picked isScheduleJob (snd r) = [ScheduleJob "0 9 * * *"]
  /\ picked isLookup (snd r) = [].
Proof. vm_compute. repeat split; reflexivity. Qed.

Example startBot_waits_for_ever_without_events :
  let r := startBot hostWhoisAnswers (worldOf Session.initial []) in
  fst r = Pending /\ picked isScheduleJob (snd r) = [].
Proof. vm_compute. split; reflexivity. Qed.

(** A whole start: one challenge, the account, the connection; WHOIS gives
    the date and the info message goes out. *)
Example startBot_happy_path :
  let w := worldOf Session.initial
             [ [qrOffered "ref-1"; UserKnown (Some "905000000000:1@s.whatsapp.net");
                connectionOpen] ] in
  let r := startBot hostWhoisAnswers w in
  fst r = Returns tt
  /\ sends (snd r) = [SendMessage "905000000000@s.whatsapp.net"
                                  (infoText "example.com" (Some 2161))]
  /\ picked isLookup (snd r) = [WhoisLookup "example.com"].
Proof. vm_compute. repeat split; reflexivity. Qed.

(* ------------------------------------------------------------------ *)
(** ** Further properties: the rate limit *)

(** X21. A WHOIS response that holds the words "Rate limit exceeded"
    anywhere is set aside whole: [checkWithWhois] gives null without
    looking for a date, also when the response carries a valid expiry line,
    and the lookup goes on with RDAP. *)
Theorem rate_limit_marker_discards_response
    (host : Host) (domain data : string) (w : World) :
  whois_lookup host domain = WhoisData data ->
  Text.includes "Rate limit exceeded" data = true ->
  checkWithWhois host domain w
  = (Returns None,
     after (whoisAnswered host domain w) (log "WHOIS rate limit exceeded, will try RDAP"))
  /\ checkDomainExpiration host domain w
     = checkWithRdap host domain
         (after (after (whoisAnswered host domain w)
                       (log "WHOIS rate limit exceeded, will try RDAP"))
                (log "WHOIS failed, trying RDAP instead...")).
Proof.
  intros Hdata Hinc.
  assert (Hr : rateLimited data = true).
  { unfold rateLimited. rewrite Hinc. destruct data; [discriminate | reflexivity]. }
  split.
  - rewrite checkWithWhois_cases, Hdata, Hr. reflexivity.
  - apply (rate_limit_falls_back host domain data w Hdata Hr).
Qed.

Lemma rate_limit_marker_discards_response_witness :
  let data := "Registry Expiry Date: 2031-06-01T00:00:00Z" ++ LF
              ++ "NOTICE: Rate limit exceeded for this address." ++ LF in
  let host := hostWith (WhoisData data) (rdapExpiring "2030-01-01T00:00:00Z") 0 None in
  let w := worldOf liveGlobals [] in
  scanPatterns IsoDate.parse expiryPatterns data None = Some (DateMs 1938038400000)
  /\ fst (checkWithWhois host "example.com" w) = Returns None
  /\ fst (checkDomainExpiration host "example.com" w) = Returns (DateMs 1893456000000).
Proof.
  intros data host w.
  destruct (rate_limit_marker_discards_response host "example.com" data w) as [H1 H2].
  - reflexivity.
  - vm_compute. reflexivity.
  - split; [vm_compute; reflexivity |].
    split; [rewrite H1; reflexivity | rewrite H2; vm_compute; reflexivity].
Defined.
